(** * weather.py: monthly rainfall tables from a daily precipitation record

    A shallow embedding of [weather.py].  The script reads a header-less
    two-column CSV file (date, precipitation) into a pandas DataFrame,
    aggregates it per calendar month ([resample('M')] followed by [sum] or
    [count]), cuts the monthly table into one 12-row column per year and
    hands the resulting month-by-year table to matplotlib or plotly.

    Layout of the development:
    - [Timestamp], [cell], [label], [DataFrame]: the data the script handles;
    - [Pd]: the pandas operations the script calls, as pure functions on
      frame values (each of them returns a new object in pandas);
    - [world], [M]: the process state (pandas display options, matplotlib
      rcParams, the object store, the figures shown) and the state-and-
      exception monad in which the functions of the script are written;
    - the functions of [weather.py], under their own names;
    - the properties.

    Numbers.  The value column holds IEEE doubles.  Every finite double is
    a rational and comparisons between doubles are exact, so a cell is
    either [NaN] (pandas' missing value) or [Num q] with [q : Q].  Sums are
    exact rational sums: the rounding and the overflow of floating-point
    addition are not modelled.

    Dates.  A file is modelled after the parsing of its first column, as
    a list of timestamps.  pandas holds a timestamp only between
    22 September 1677 and 11 April 2262 ([in_pandas_range]); with a date
    outside that range [read_csv] leaves the column unparsed and
    [df.index.year] raises AttributeError.  Such files are outside the
    model, and the statements about the errors and the display of a whole
    run state the range as a hypothesis. *)

From Stdlib Require Import ZArith QArith List String Bool Lia.
From stdpp Require Import list.
Import ListNotations.

Local Open Scope Z_scope.

(** ** Timestamps *)

(** A daily timestamp, as [parse_dates=True] produces for the first column. *)
Record Timestamp := mkTimestamp { ts_year : Z; ts_month : Z; ts_day : Z }.

Definition is_leap (y : Z) : bool :=
  (y mod 4 =? 0) && (negb (y mod 100 =? 0) || (y mod 400 =? 0)).

Definition days_in_month (y m : Z) : Z :=
  if m =? 2 then (if is_leap y then 29 else 28)
  else if (m =? 4) || (m =? 6) || (m =? 9) || (m =? 11) then 30
  else 31.

Definition valid_date (t : Timestamp) : bool :=
  (1 <=? ts_month t) && (ts_month t <=? 12) &&
  (1 <=? ts_day t) && (ts_day t <=? days_in_month (ts_year t) (ts_month t)).

Definition ts_eqb (a b : Timestamp) : bool :=
  (ts_year a =? ts_year b) && (ts_month a =? ts_month b) && (ts_day a =? ts_day b).

(** Chronological order. *)
Definition ts_leb (a b : Timestamp) : bool :=
  (ts_year a <? ts_year b) ||
  ((ts_year a =? ts_year b) &&
   ((ts_month a <? ts_month b) ||
    ((ts_month a =? ts_month b) && (ts_day a <=? ts_day b)))).

(** The days pandas represents as a timestamp (64-bit nanoseconds):
    22 September 1677 to 11 April 2262. *)
Definition in_pandas_range (t : Timestamp) : bool :=
  ts_leb (mkTimestamp 1677 9 22) t && ts_leb t (mkTimestamp 2262 4 11).

(** [Index.is_monotonic_increasing]. *)
Fixpoint is_monotonic_increasing (l : list Timestamp) : bool :=
  match l with
  | a :: (b :: _) as tl => ts_leb a b && is_monotonic_increasing tl
  | _ => true
  end.

(** Months counted from year 0: the bin a timestamp falls in. *)
Definition month_ordinal (t : Timestamp) : Z := 12 * ts_year t + (ts_month t - 1).

(** The label pandas gives a monthly bin: the last day of the month. *)
Definition month_end (k : Z) : Timestamp :=
  mkTimestamp (k / 12) (k mod 12 + 1) (days_in_month (k / 12) (k mod 12 + 1)).

(** [lo, lo+1, ..., lo+n-1]. *)
Definition zrange (lo : Z) (n : nat) : list Z :=
  map (fun i => lo + Z.of_nat i) (seq 0 n).

(** Python's [range(start, stop, 1)]. *)
Definition py_range (start stop : Z) : list Z := zrange start (Z.to_nat (stop - start)).

(** ** Cells, labels and frames *)

Inductive cell := NaN | Num (q : Q).

(** [c > rf] on a float cell: a comparison with NaN is false. *)
Definition cell_gt (c : cell) (rf : Q) : bool :=
  match c with
  | NaN => false
  | Num q => negb (Qle_bool q rf)
  end.

Definition notna (c : cell) : bool :=
  match c with NaN => false | Num _ => true end.

(** A row label: a timestamp (DatetimeIndex) or a string. *)
Inductive label := Stamp (t : Timestamp) | Str (s : string).

Definition label_eqb (a b : label) : bool :=
  match a, b with
  | Stamp s, Stamp t => ts_eqb s t
  | Str s, Str t => String.eqb s t
  | _, _ => false
  end.

(** A column label: an integer (position under [header=None], or a year)
    or a string. *)
Inductive colname := CInt (n : Z) | CStr (s : string).

(** A DataFrame, row by row: every row carries its index label and one
    cell per column. *)
Record DataFrame := mkDataFrame {
  columns : list colname;
  rows : list (label * list cell)
}.

Definition index (f : DataFrame) : list label := map fst (rows f).

(** The column of the frame at position [j]. *)
Definition column_at (j : nat) (rs : list (list cell)) : list cell :=
  map (fun r => nth j r NaN) rs.

(** The timestamps of a DatetimeIndex; [None] when some label is not one. *)
Fixpoint stamps (l : list label) : option (list Timestamp) :=
  match l with
  | [] => Some []
  | Stamp t :: tl => option_map (cons t) (stamps tl)
  | Str _ :: _ => None
  end.

(** ** Exceptions *)

Inductive exn :=
| FileNotFoundError   (* the path does not exist *)
| EmptyDataError      (* pandas.errors.EmptyDataError: no columns to parse *)
| ValueError          (* length mismatch when an axis is assigned *)
| TypeError           (* resample on a non-datetime index; range() on nan *)
| AttributeError      (* .year on an index that is not a DatetimeIndex *)
| KeyError.           (* column not found *)

Inductive result (A : Type) := Ok (a : A) | Raise (e : exn).
Arguments Ok {A} a.
Arguments Raise {A} e.

(** ** The pandas operations used by the script *)

Module Pd.

(** [df.columns = names]. *)
Definition set_columns (names : list colname) (f : DataFrame) : result DataFrame :=
  if Nat.eqb (length names) (length (columns f))
  then Ok (mkDataFrame names (rows f))
  else Raise ValueError.

(** [df.index = labels]. *)
Definition set_index (labels : list label) (f : DataFrame) : result DataFrame :=
  if Nat.eqb (length labels) (length (rows f))
  then Ok (mkDataFrame (columns f) (combine labels (map snd (rows f))))
  else Raise ValueError.

(** [df.index.year]. *)
Definition index_year (f : DataFrame) : result (list Z) :=
  match stamps (index f) with
  | Some ts => Ok (map ts_year ts)
  | None => Raise AttributeError
  end.

(** [Index.min()] and [Index.max()]; [None] is the nan of an empty index. *)
Definition min (l : list Z) : option Z :=
  match l with
  | [] => None
  | a :: tl => Some (fold_right Z.min a tl)
  end.

Definition max (l : list Z) : option Z :=
  match l with
  | [] => None
  | a :: tl => Some (fold_right Z.max a tl)
  end.

(** The row test of [df[df.index.year == yyyy]]. *)
Definition in_year (yyyy : Z) (r : label * list cell) : bool :=
  match fst r with
  | Stamp t => ts_year t =? yyyy
  | Str _ => false
  end.

(** [df[df.index.year == yyyy]]: the rows of that year, in order. *)
Definition select_year (yyyy : Z) (f : DataFrame) : result DataFrame :=
  match stamps (index f) with
  | Some _ => Ok (mkDataFrame (columns f) (List.filter (in_year yyyy) (rows f)))
  | None => Raise AttributeError
  end.

(** Position of a column label. *)
Definition colname_eqb (a b : colname) : bool :=
  match a, b with
  | CInt m, CInt n => m =? n
  | CStr s, CStr t => String.eqb s t
  | _, _ => false
  end.

Fixpoint get_loc (c : colname) (cs : list colname) : option nat :=
  match cs with
  | [] => None
  | d :: tl => if colname_eqb c d then Some 0%nat else option_map S (get_loc c tl)
  end.

(** [df[df[c] > rf]]: the rows whose cell in column [c] exceeds [rf]. *)
Definition select_gt (c : colname) (rf : Q) (f : DataFrame) : result DataFrame :=
  match get_loc c (columns f) with
  | Some j =>
      Ok (mkDataFrame (columns f)
            (List.filter (fun r => cell_gt (nth j (snd r) NaN) rf) (rows f)))
  | None => Raise KeyError
  end.

(** The rows of the monthly bin [k]. *)
Definition in_bin (k : Z) (r : label * list cell) : bool :=
  match fst r with
  | Stamp t => month_ordinal t =? k
  | Str _ => false
  end.

Definition bin (k : Z) (f : DataFrame) : list (list cell) :=
  map snd (List.filter (in_bin k) (rows f)).

(** [sum] skips missing values; the sum of nothing is 0.  Values are
    rationals and the sum is the exact one: the rounding and the overflow
    of the 64-bit sums of pandas are not modelled. *)
Definition nansum (cs : list cell) : cell :=
  Num (fold_left (fun acc c => match c with Num q => acc + q | NaN => acc end)%Q cs 0%Q).

(** [count] counts the values that are not missing. *)
Definition count (cs : list cell) : cell :=
  Num (inject_Z (Z.of_nat (length (List.filter notna cs)))).

(** The row of the monthly bin [k]: its label is the month end, its cells
    are the aggregates of the columns over the rows of the bin. *)
Definition bin_row (agg : list cell -> cell) (f : DataFrame) (k : Z) : label * list cell :=
  (Stamp (month_end k),
   map (fun j => agg (column_at j (bin k f))) (seq 0 (length (columns f)))).

(** [df.resample('M').agg()]: the index is sorted first (a time grouper
    always sorts), the bins are the calendar months from the month of the
    earliest timestamp to the month of the latest one, every bin is
    labelled with its month end and every column is aggregated over the
    rows of the bin; a bin without rows is kept.  An empty frame gives an
    empty result. *)
Definition resample_M (agg : list cell -> cell) (f : DataFrame) : result DataFrame :=
  match stamps (index f) with
  | None => Raise TypeError
  | Some ts =>
      match min (map month_ordinal ts), max (map month_ordinal ts) with
      | Some lo, Some hi =>
          Ok (mkDataFrame (columns f)
                (map (bin_row agg f) (zrange lo (Z.to_nat (hi - lo + 1)))))
      | _, _ => Ok (mkDataFrame (columns f) [])
      end
  end.

(** [pd.DataFrame(index=[], columns=[])]. *)
Definition empty : DataFrame := mkDataFrame [] [].

Definition has_label (l : label) (ls : list label) : bool :=
  existsb (label_eqb l) ls.

Fixpoint loc (l : label) (rs : list (label * list cell)) : option (list cell) :=
  match rs with
  | [] => None
  | (l', cs) :: tl => if label_eqb l l' then Some cs else loc l tl
  end.

Definition labels_eqb (a b : list label) : bool :=
  Nat.eqb (length a) (length b) &&
  forallb (fun p => label_eqb (fst p) (snd p)) (combine a b).

(** [pd.concat([a, b], axis=1)]: the columns of [b] are put to the right
    of those of [a].  Frames with the same index are joined row by row;
    otherwise the rows are the outer join on the labels (labels of [a]
    first, then the new labels of [b]), with NaN where a frame has no
    row for a label.  The script only concatenates frames whose labels
    are unique. *)
Definition concat_axis1 (a b : DataFrame) : DataFrame :=
  let na := length (columns a) in
  let nb := length (columns b) in
  mkDataFrame (columns a ++ columns b)
    (if labels_eqb (index a) (index b)
     then map (fun p => (fst (fst p), snd (fst p) ++ snd (snd p)))
              (combine (rows a) (rows b))
     else
       map (fun r => (fst r, snd r ++ match loc (fst r) (rows b) with
                                      | Some cs => cs
                                      | None => repeat NaN nb
                                      end)) (rows a)
       ++ map (fun r => (fst r, repeat NaN na ++ snd r))
              (List.filter (fun r => negb (has_label (fst r) (index a))) (rows b))).

(** What [DataFrame.plot] accepts: a frame without a column has no
    numeric data to plot and is refused with TypeError, before any figure
    is created. *)
Definition plot_data (f : DataFrame) : result DataFrame :=
  match columns f with
  | [] => Raise TypeError
  | _ :: _ => Ok f
  end.

End Pd.

(** ** The process state *)

(** The input file after the parsing of its cells: one (date, value) pair
    per line, in the order of the lines.  A value that is absent from a
    line is [NaN].  The dates are those pandas represents as timestamps
    ([in_pandas_range]): with a date outside that range [read_csv] leaves
    the first column unparsed, a case the model does not cover and the
    statements about whole runs exclude by hypothesis. *)
Definition csv := list (Timestamp * cell).

Inductive chart_kind := BarChart | LineChart.

(** A figure: what is drawn, its title and the table it is drawn from. *)
Record figure := mkFigure {
  fig_kind : chart_kind;
  fig_title : string;
  fig_data : DataFrame
}.

(** A reference to a DataFrame object. *)
Definition ref := nat.

Record world := mkWorld {
  files : string -> option csv;  (* the file system; the script only reads it *)
  display_max_rows : Z;          (* pandas option display.max_rows *)
  display_precision : Z;         (* pandas option display.precision *)
  font_family : string;          (* plt.rcParams['font.family'] *)
  heap : list DataFrame;         (* the DataFrame objects, by reference *)
  figures : list figure;         (* matplotlib figures drawn and not yet shown *)
  shown : list figure            (* the figures displayed so far, oldest first *)
}.

Definition set_max_rows (n : Z) (w : world) : world :=
  mkWorld (files w) n (display_precision w) (font_family w) (heap w) (figures w) (shown w).

Definition set_precision (n : Z) (w : world) : world :=
  mkWorld (files w) (display_max_rows w) n (font_family w) (heap w) (figures w) (shown w).

Definition set_font_family (s : string) (w : world) : world :=
  mkWorld (files w) (display_max_rows w) (display_precision w) s (heap w) (figures w) (shown w).

Definition set_heap (h : list DataFrame) (w : world) : world :=
  mkWorld (files w) (display_max_rows w) (display_precision w) (font_family w) h (figures w) (shown w).

Definition set_figures (fs sh : list figure) (w : world) : world :=
  mkWorld (files w) (display_max_rows w) (display_precision w) (font_family w) (heap w) fs sh.

(** A fresh interpreter: pandas' default display options, matplotlib's
    default font family, no object, no figure. *)
Definition initial_world (fs : string -> option csv) : world :=
  mkWorld fs 60 6 "sans-serif" [] [] [].

(** ** The monad of the script: state and exceptions *)

Definition M (A : Type) : Type := world -> result A * world.

Definition ret {A} (a : A) : M A := fun w => (Ok a, w).

Definition raise {A} (e : exn) : M A := fun w => (Raise e, w).

Definition bind {A B} (m : M A) (k : A -> M B) : M B :=
  fun w => match m w with
           | (Ok a, w') => k a w'
           | (Raise e, w') => (Raise e, w')
           end.

Declare Scope py_scope.
Delimit Scope py_scope with py.
Notation "x <- m ;; k" := (bind m (fun x => k))
  (at level 100, m at next level, right associativity) : py_scope.
Notation "m ;; k" := (bind m (fun _ => k))
  (at level 100, right associativity) : py_scope.

Definition lift {A} (r : result A) : M A := fun w => (r, w).

Definition modify (g : world -> world) : M unit := fun w => (Ok tt, g w).

(** A new object. *)
Definition new (f : DataFrame) : M ref :=
  fun w => (Ok (length (heap w)), set_heap (heap w ++ [f]) w).

(** The object behind a reference.  A Python name always denotes an
    object; the default stands for a reference without one, which the
    script cannot produce. *)
Definition deref (r : ref) : M DataFrame :=
  fun w => (Ok (default Pd.empty (heap w !! r)), w).

(** An attribute assignment [obj.attr = ...]: the object is changed in
    place, or the assignment raises and leaves it as it was. *)
Definition assign (r : ref) (op : DataFrame -> result DataFrame) : M unit :=
  (f <- deref r ;;
   g <- lift (op f) ;;
   modify (fun w => set_heap (<[r := g]> (heap w)) w))%py.

(** A method that returns a new object and leaves its receiver alone. *)
Definition method (r : ref) (op : DataFrame -> result DataFrame) : M ref :=
  (f <- deref r ;;
   g <- lift (op f) ;;
   new g)%py.

(** [for x in l: acc = body(acc, x)]. *)
Fixpoint for_each {A S} (l : list A) (acc : S) (body : S -> A -> M S) : M S :=
  match l with
  | [] => ret acc
  | x :: tl => (acc' <- body acc x ;; for_each tl acc' body)%py
  end.

(** [range(start, stop, 1)] on the values [Index.min()] and [Index.max()]
    return: a nan is refused. *)
Definition range (start stop : option Z) : M (list Z) :=
  match start, stop with
  | Some a, Some b => ret (py_range a b)
  | _, _ => raise TypeError
  end.

(** [pd.read_csv(fn, parse_dates=True, index_col=0, header=None,
    usecols=[0, 1])]: the rows in the order of the file, the first column
    as index, the second as the only column, labelled with its position.
    A missing path and a file without lines raise. *)
Definition read_csv (fn : string) : M ref :=
  fun w =>
    match files w fn with
    | None => (Raise FileNotFoundError, w)
    | Some [] => (Raise EmptyDataError, w)
    | Some rs => new (mkDataFrame [CInt 1] (map (fun r => (Stamp (fst r), [snd r])) rs)) w
    end.

(** [pd.concat([a, b], axis=1)]. *)
Definition concat (a b : ref) : M ref :=
  (fa <- deref a ;;
   fb <- deref b ;;
   new (Pd.concat_axis1 fa fb))%py.

(** [df.index.year.min()], [df.index.year.max()]. *)
Definition index_year_min (df : ref) : M (option Z) :=
  (f <- deref df ;; ys <- lift (Pd.index_year f) ;; ret (Pd.min ys))%py.

Definition index_year_max (df : ref) : M (option Z) :=
  (f <- deref df ;; ys <- lift (Pd.index_year f) ;; ret (Pd.max ys))%py.

(** [df.plot.bar(title=...)]: pandas refuses a frame without columns;
    otherwise a matplotlib figure is created, displayed by the next
    [plt.show()]. *)
Definition plot_bar (df : ref) (title : string) : M unit :=
  (f <- deref df ;;
   g <- lift (Pd.plot_data f) ;;
   modify (fun w => set_figures (figures w ++ [mkFigure BarChart title g]) (shown w) w))%py.

(** [plt.show()]: every pending figure is displayed. *)
Definition plt_show : M unit :=
  modify (fun w => set_figures [] (shown w ++ figures w) w).

(** [px.bar(df, ...)] / [px.line(df, ...)] followed by [fig.show()]. *)
Definition px_show (k : chart_kind) (df : ref) (title : string) : M unit :=
  (f <- deref df ;;
   modify (fun w => set_figures (figures w) (shown w ++ [mkFigure k title f]) w))%py.

(** ** weather.py *)

Definition precipitation : colname := CStr "降水量".

Definition month_labels : list label :=
  [Str "1月"; Str "2月"; Str "3月"; Str "4月"; Str "5月"; Str "6月";
   Str "7月"; Str "8月"; Str "9月"; Str "10月"; Str "11月"; Str "12月"].

Definition data_path : string := "./data/hiyoshi.csv".

Definition read_csv_data (fn : string) : M ref :=
  (df <- read_csv fn ;;
   assign df (Pd.set_columns [precipitation]) ;;
   modify (set_max_rows 500) ;;
   modify (set_precision 1) ;;
   ret df)%py.

(** The first assignment to [df_name] (a string) is overwritten at once
    and is left out. *)
Definition create_year_df (df : ref) (yyyy : Z) : M ref :=
  (df_name <- method df (Pd.select_year yyyy) ;;
   assign df_name (Pd.set_index month_labels) ;;
   assign df_name (Pd.set_columns [CInt yyyy]) ;;
   ret df_name)%py.

(** [df.resample('M').sum()] (lines 69 and 116). *)
Definition monthly_total (df : ref) : M ref :=
  method df (Pd.resample_M Pd.nansum).

(** [df[df['...'] > rf].resample('M').count()] (lines 86 and 137). *)
Definition monthly_rainy_days (df : ref) (rf : Q) : M ref :=
  (rainy <- method df (Pd.select_gt precipitation rf) ;;
   method rainy (Pd.resample_M Pd.count))%py.

(** The body of the loop the four table builders share:
    [df_name = create_year_df(agg, y); new_df = pd.concat([new_df, df_name], axis=1)]. *)
Definition year_loop (agg : ref) (new_df : ref) (years : list Z) : M ref :=
  for_each years new_df
    (fun new_df y =>
       df_name <- create_year_df agg y ;;
       concat new_df df_name)%py.

(** [new_df = pd.DataFrame(index=[], columns=[])] and the loop
    [for y in range(start_year, end_year, 1)]. *)
Definition year_table (agg : ref) (start_year end_year : option Z) : M ref :=
  (new_df <- new Pd.empty ;;
   years <- range start_year end_year ;;
   year_loop agg new_df years)%py.

(** A drawing call records the figure; [plot_bar] refuses the table
    without columns as pandas does, and plotly draws any table.  What the
    drawing libraries do beyond that is outside the model. *)
Definition plot_rain_fall_plt (df : ref) (start_year end_year : option Z) : M unit :=
  (amount_df <- monthly_total df ;;
   new_df <- year_table amount_df start_year end_year ;;
   plot_bar new_df "日吉の降水量")%py.

Definition plot_rainy_days_plt (df : ref) (start_year end_year : option Z) (rf : Q) : M unit :=
  (count_df <- monthly_rainy_days df rf ;;
   new_df <- year_table count_df start_year end_year ;;
   plot_bar new_df "日吉の降水日数" ;;
   plt_show)%py.

Definition plot_original_data_px (df : ref) (title : string) : M unit :=
  px_show LineChart df title.

Definition plot_rain_amount_px (df : ref) (start_year end_year : option Z) (title : string) : M unit :=
  (df_monthly_total <- monthly_total df ;;
   new_df <- year_table df_monthly_total start_year end_year ;;
   px_show BarChart new_df title)%py.

(** The threshold of this path is the constant 0. *)
Definition plot_rainy_days_px (df : ref) (start_year end_year : option Z) (title : string) : M unit :=
  (df_rainy_days <- monthly_rainy_days df 0 ;;
   new_df <- year_table df_rainy_days start_year end_year ;;
   px_show BarChart new_df title)%py.

Definition main (graph_type : string) : M unit :=
  (modify (set_max_rows 500) ;;
   modify (set_precision 1) ;;
   df <- read_csv_data data_path ;;
   start_year <- index_year_min df ;;
   end_year <- index_year_max df ;;
   if String.eqb graph_type "plt" then
     modify (set_font_family "Ricty Diminished") ;;
     plot_rain_fall_plt df start_year end_year ;;
     plot_rainy_days_plt df start_year end_year 1
   else
     plot_original_data_px df "オリジナルデータ" ;;
     plot_rain_amount_px df start_year end_year "降雨量" ;;
     plot_rainy_days_px df start_year end_year "降雨日数")%py.

(** ** Views used in the statements *)

(** A monthly table read as a mapping from (year, month): the cells of the
    first row labelled with a day of that month, if there is one. *)
Definition in_month (y m : Z) (r : label * list cell) : bool :=
  match fst r with
  | Stamp t => (ts_year t =? y) && (ts_month t =? m)
  | Str _ => false
  end.

Definition entry (f : DataFrame) (y m : Z) : option (list cell) :=
  option_map snd (find (in_month y m) (rows f)).

(** The values the (only) column of a frame holds for the days of a month. *)
Definition month_cells (f : DataFrame) (y m : Z) : list cell :=
  column_at 0 (map snd (List.filter (in_month y m) (rows f))).

(** The number of days of a month whose value exceeds [rf]. *)
Definition days_above (rf : Q) (f : DataFrame) (y m : Z) : nat :=
  length (List.filter (fun c => cell_gt c rf) (month_cells f y m)).

(** The timestamps of the rows whose value exceeds [rf]. *)
Definition stamps_above (rf : Q) (f : DataFrame) : list Timestamp :=
  flat_map (fun r => match fst r with
                     | Stamp t => if cell_gt (nth 0 (snd r) NaN) rf then [t] else []
                     | Str _ => []
                     end) (rows f).

(** Months in chronological order. *)
Definition month_leb (y1 m1 y2 m2 : Z) : bool :=
  (y1 <? y2) || ((y1 =? y2) && (m1 <=? m2)).

(** The month lies between the month of some timestamp of [ts] and the
    month of some (other) timestamp of [ts]. *)
Definition in_span (y m : Z) (ts : list Timestamp) : bool :=
  existsb (fun t => month_leb (ts_year t) (ts_month t) y m) ts &&
  existsb (fun t => month_leb y m (ts_year t) (ts_month t)) ts.

(** The frame the loader builds from the lines of a file. *)
Definition frame_of_csv (rs : csv) : DataFrame :=
  mkDataFrame [precipitation] (map (fun r => (Stamp (fst r), [snd r])) rs).

(** What [create_year_df] computes, on frame values. *)
Definition year_df (yyyy : Z) (f : DataFrame) : result DataFrame :=
  match Pd.select_year yyyy f with
  | Ok g =>
      match Pd.set_index month_labels g with
      | Ok g1 => Pd.set_columns [CInt yyyy] g1
      | Raise e => Raise e
      end
  | Raise e => Raise e
  end.

(** What the loop over the years computes, on frame values. *)
Fixpoint year_columns (f : DataFrame) (acc : DataFrame) (years : list Z) : result DataFrame :=
  match years with
  | [] => Ok acc
  | y :: tl =>
      match year_df y f with
      | Ok c => year_columns f (Pd.concat_axis1 acc c) tl
      | Raise e => Raise e
      end
  end.

(** What [year_table] computes: the loop over [range(start_year, end_year)],
    which refuses a nan bound. *)
Definition year_table_of (s e : option Z) (f : DataFrame) : result DataFrame :=
  match s, e with
  | Some s, Some e => year_columns f Pd.empty (py_range s e)
  | _, _ => Raise TypeError
  end.

Definition and_then (p : result DataFrame) (q : DataFrame -> result DataFrame) : result DataFrame :=
  match p with
  | Ok g => q g
  | Raise e => Raise e
  end.

(** The month-by-year table of rainfall totals and of rainy days. *)
Definition rain_table (s e : option Z) (f : DataFrame) : result DataFrame :=
  and_then (Pd.resample_M Pd.nansum f) (year_table_of s e).

Definition rainy_days (rf : Q) (f : DataFrame) : result DataFrame :=
  and_then (Pd.select_gt precipitation rf f) (Pd.resample_M Pd.count).

Definition days_table (rf : Q) (s e : option Z) (f : DataFrame) : result DataFrame :=
  and_then (rainy_days rf f) (year_table_of s e).

(** The years [main] computes from the loaded frame. *)
Definition start_year_of (rs : csv) : option Z := Pd.min (map (fun r => ts_year (fst r)) rs).
Definition end_year_of (rs : csv) : option Z := Pd.max (map (fun r => ts_year (fst r)) rs).

Definition rain_fall_figure (t : DataFrame) : figure := mkFigure BarChart "日吉の降水量" t.
Definition rainy_days_figure (t : DataFrame) : figure := mkFigure BarChart "日吉の降水日数" t.
Definition original_data_chart (f : DataFrame) : figure := mkFigure LineChart "オリジナルデータ" f.
Definition rain_amount_chart (t : DataFrame) : figure := mkFigure BarChart "降雨量" t.
Definition rainy_days_chart (t : DataFrame) : figure := mkFigure BarChart "降雨日数" t.

(** What the two branches of [main] return and display, given the loaded
    frame, the two years and the matplotlib figures that are pending. *)
Definition render_outcome (graph_type : string) (f : DataFrame) (s e : option Z)
           (pending : list figure) : result unit * list figure :=
  if String.eqb graph_type "plt" then
    match and_then (rain_table s e f) Pd.plot_data with
    | Raise x => (Raise x, [])
    | Ok t1 =>
        match and_then (days_table 1 s e f) Pd.plot_data with
        | Raise x => (Raise x, [])
        | Ok t2 => (Ok tt, pending ++ [rain_fall_figure t1; rainy_days_figure t2])
        end
    end
  else
    match rain_table s e f with
    | Raise x => (Raise x, [original_data_chart f])
    | Ok t1 =>
        match days_table 0 s e f with
        | Raise x => (Raise x, [original_data_chart f; rain_amount_chart t1])
        | Ok t2 => (Ok tt, [original_data_chart f; rain_amount_chart t1; rainy_days_chart t2])
        end
    end.

(** What a run of [main] returns and displays, as a function of the
    content of the input file, of the mode and of the pending figures. *)
Definition main_outcome (content : option csv) (graph_type : string) (pending : list figure)
  : result unit * list figure :=
  match content with
  | None => (Raise FileNotFoundError, [])
  | Some [] => (Raise EmptyDataError, [])
  | Some rs =>
      render_outcome graph_type (frame_of_csv rs) (start_year_of rs) (end_year_of rs) pending
  end.

(** ** Notions used by the statements and their proofs *)

(** [grows w w']: [w'] is [w] with new objects; every object of [w] and
    everything else in the process state is as it was. *)
Definition grows (w w' : world) : Prop :=
  exists extra, w' = set_heap (heap w ++ extra) w.

(** [computes m w p]: run in [w], the computation [m] only creates
    objects, and it returns a reference to the frame [p] or raises as [p]
    does. *)
Definition computes (m : M ref) (w : world) (p : result DataFrame) : Prop :=
  exists w', grows w w' /\
    match p with
    | Ok g => exists r, m w = (Ok r, w') /\ heap w' !! r = Some g
    | Raise e => m w = (Raise e, w')
    end.

(** The two branches of [main], after the frame is loaded and the years
    are computed. *)
Definition render (graph_type : string) (df : ref) (start_year end_year : option Z) : M unit :=
  (if String.eqb graph_type "plt" then
     modify (set_font_family "Ricty Diminished") ;;
     plot_rain_fall_plt df start_year end_year ;;
     plot_rainy_days_plt df start_year end_year 1
   else
     plot_original_data_px df "オリジナルデータ" ;;
     plot_rain_amount_px df start_year end_year "降雨量" ;;
     plot_rainy_days_px df start_year end_year "降雨日数")%py.

(** The state a run of [main] ends in, whether it returns or raises: what
    it has displayed, the display options, the file system, the objects
    that existed before. *)
Definition main_post (graph_type : string) (w w' : world) : Prop :=
  shown w' = shown w ++ snd (main_outcome (files w data_path) graph_type (figures w)) /\
  files w' = files w /\
  display_max_rows w' = 500 /\
  display_precision w' = 1 /\
  (exists extra, heap w' = heap w ++ extra) /\
  (fst (main_outcome (files w data_path) graph_type (figures w)) = Ok tt ->
   figures w' = if String.eqb graph_type "plt" then [] else figures w).

(** The months between the month of some timestamp and the month of some
    timestamp of the list. *)
Definition spanned (k : Z) (ts : list Timestamp) : Prop :=
  (exists t, In t ts /\ month_ordinal t <= k) /\ (exists t, In t ts /\ k <= month_ordinal t).

(** The frame [create_year_df] builds from a year that is complete. *)
Definition year_frame (agg : list cell -> cell) (f : DataFrame) (y : Z) : DataFrame :=
  mkDataFrame [CInt y]
    (combine month_labels (map (fun k => snd (Pd.bin_row agg f k)) (zrange (12 * y) 12))).

(** The row test of [df[df[c] > rf]] on a frame whose column [c] is the
    first. *)
Definition above (rf : Q) (r : label * list cell) : bool := cell_gt (nth 0 (snd r) NaN) rf.

(** Every object of [w] is unchanged in [w']. *)
Definition keeps_objects (w w' : world) : Prop :=
  forall r f, heap w !! r = Some f -> heap w' !! r = Some f.

(** Two calls in a row return the same frame, in two objects. *)
Definition same_twice (m : M ref) (w : world) (p : result DataFrame) : Prop :=
  exists w1 w2,
    keeps_objects w w2 /\
    match p with
    | Ok g =>
        exists r1 r2,
          m w = (Ok r1, w1) /\ m w1 = (Ok r2, w2) /\
          heap w2 !! r1 = Some g /\ heap w2 !! r2 = Some g
    | Raise x => m w = (Raise x, w1) /\ m w1 = (Raise x, w2)
    end.

(** Rows joined label by label, as [concat] does for equal indexes. *)
Definition zip_rows (a b : list (label * list cell)) : list (label * list cell) :=
  map (fun p => (fst (fst p), snd (fst p) ++ snd (snd p))) (combine a b).

(** A table of [k] year columns: no row at all before the first year,
    the twelve months afterwards, [k] cells in every row. *)
Definition regular (k : nat) (t : DataFrame) : Prop :=
  length (columns t) = k /\
  Forall (fun r => length (snd r) = k) (rows t) /\
  (k = 0%nat -> rows t = []) /\
  (k <> 0%nat -> index t = month_labels).

(** ** Sample records *)

(** A file system with one file. *)
Definition only_file (path : string) (content : csv) : string -> option csv :=
  fun p => if String.eqb p path then Some content else None.

(** The series of the specification's example. *)
Definition example_csv : csv :=
  [(mkTimestamp 2022 1 1, Num 0); (mkTimestamp 2022 1 15, Num 5);
   (mkTimestamp 2022 2 10, Num 0)].

(** The same lines, latest first. *)
Definition unsorted_csv : csv :=
  [(mkTimestamp 2022 2 10, Num 0); (mkTimestamp 2022 1 15, Num 5);
   (mkTimestamp 2022 1 1, Num 0)].

(** A record from October 2020 to January 2022: three months of 2020, the
    whole of 2021, one month of 2022. *)
Definition partial_year_csv : csv :=
  [(mkTimestamp 2020 10 5, Num 3); (mkTimestamp 2021 6 1, Num (1 # 2));
   (mkTimestamp 2022 1 10, Num 12)].

(** One day with 5 mm in every month of 2020, and a day with 0.5 mm in
    January 2021. *)
Definition full_year_csv : csv :=
  map (fun m => (mkTimestamp 2020 m 15, Num 5)) (zrange 1 12)
  ++ [(mkTimestamp 2021 1 3, Num (1 # 2))].

(** Its monthly totals. *)
Definition full_year_totals : DataFrame :=
  match Pd.resample_M Pd.nansum (frame_of_csv full_year_csv) with
  | Ok g => g
  | Raise _ => Pd.empty
  end.

(** One day with 5 mm in every month of 2020, a day with 0.5 mm in March
    2020, and a day with 5 mm in January 2021. *)
Definition drizzle_csv : csv :=
  map (fun m => (mkTimestamp 2020 m 15, Num 5)) (zrange 1 12)
  ++ [(mkTimestamp 2020 3 20, Num (1 # 2)); (mkTimestamp 2021 1 3, Num 5)].

(** ** Notions used by the further properties *)

(** The index of a monthly table: the last days of consecutive months, in
    chronological order. *)
Definition month_ends (ts : list Timestamp) : Prop :=
  is_monotonic_increasing ts = true /\
  forallb valid_date ts = true /\
  Forall (fun t => ts_day t = days_in_month (ts_year t) (ts_month t)) ts /\
  exists lo, map month_ordinal ts = zrange lo (length ts).

(** * Properties *)

(** ** Months and ranges *)

Lemma month_ordinal_month_end (k : Z) : month_ordinal (month_end k) = k.
Proof.
  unfold month_ordinal, month_end; simpl.
  pose proof (Z.div_mod k 12). lia.
Qed.

Lemma month_end_of_ordinal (y m : Z) :
  1 <= m <= 12 ->
  ts_year (month_end (12 * y + (m - 1))) = y /\
  ts_month (month_end (12 * y + (m - 1))) = m.
Proof.
  intros Hm. unfold month_end; simpl.
  assert (H : (12 * y + (m - 1)) / 12 = y) by (symmetry; apply Z.div_unique with (r := m - 1); lia).
  split; [exact H|].
  pose proof (Z.div_mod (12 * y + (m - 1)) 12). lia.
Qed.

Lemma year_of_month_end (k y : Z) :
  (ts_year (month_end k) =? y) = (12 * y <=? k) && (k <? 12 * y + 12).
Proof.
  unfold month_end; simpl.
  pose proof (Z.div_mod k 12). pose proof (Z.mod_pos_bound k 12).
  destruct (Z.eqb_spec (k / 12) y), (Z.leb_spec (12 * y) k), (Z.ltb_spec k (12 * y + 12));
    simpl; try reflexivity; lia.
Qed.

Lemma zrange_S (lo : Z) (n : nat) : zrange lo (S n) = lo :: zrange (lo + 1) n.
Proof.
  unfold zrange. simpl. f_equal; [lia|].
  rewrite <- seq_shift, map_map. apply map_ext. intros i. lia.
Qed.

Lemma length_zrange (lo : Z) (n : nat) : length (zrange lo n) = n.
Proof. unfold zrange. now rewrite length_map, length_seq. Qed.

Lemma In_zrange (k lo : Z) (n : nat) : In k (zrange lo n) <-> lo <= k < lo + Z.of_nat n.
Proof.
  revert lo. induction n as [|n IH]; intros lo.
  - simpl. lia.
  - rewrite zrange_S. simpl. rewrite IH. lia.
Qed.

Lemma nth_zrange (lo : Z) (n i : nat) (d : Z) :
  (i < n)%nat -> nth i (zrange lo n) d = lo + Z.of_nat i.
Proof.
  revert lo i. induction n as [|n IH]; intros lo i Hi; [lia|].
  rewrite zrange_S. destruct i as [|i]; simpl; [lia|].
  rewrite IH by lia. lia.
Qed.

(** The part of a range that lies in an interval is a range. *)
Lemma filter_zrange (a b lo : Z) (n : nat) :
  List.filter (fun k => (a <=? k) && (k <? b)) (zrange lo n) =
  zrange (Z.max lo a) (Z.to_nat (Z.min (lo + Z.of_nat n) b - Z.max lo a)).
Proof.
  revert lo. induction n as [|n IH]; intros lo.
  - simpl. replace (Z.to_nat _) with 0%nat by lia. reflexivity.
  - rewrite zrange_S. simpl. rewrite IH.
    destruct (Z.leb_spec a lo), (Z.ltb_spec lo b); simpl.
    + replace (Z.max lo a) with lo by lia.
      replace (Z.to_nat (Z.min (lo + Z.of_nat (S n)) b - lo))
        with (S (Z.to_nat (Z.min (lo + 1 + Z.of_nat n) b - Z.max (lo + 1) a))) by lia.
      rewrite zrange_S. f_equal. f_equal. lia.
    + replace (Z.to_nat (Z.min (lo + 1 + Z.of_nat n) b - Z.max (lo + 1) a)) with 0%nat by lia.
      replace (Z.to_nat (Z.min (lo + Z.of_nat (S n)) b - Z.max lo a)) with 0%nat by lia.
      reflexivity.
    + replace (Z.max (lo + 1) a) with (Z.max lo a) by lia.
      f_equal. lia.
    + replace (Z.to_nat (Z.min (lo + 1 + Z.of_nat n) b - Z.max (lo + 1) a)) with 0%nat by lia.
      replace (Z.to_nat (Z.min (lo + Z.of_nat (S n)) b - Z.max lo a)) with 0%nat by lia.
      reflexivity.
Qed.

Lemma In_py_range (y start stop : Z) : In y (py_range start stop) <-> start <= y < stop.
Proof. unfold py_range. rewrite In_zrange. lia. Qed.

Lemma fold_min_spec (a : Z) (l : list Z) :
  In (fold_right Z.min a l) (a :: l) /\ forall x, In x (a :: l) -> fold_right Z.min a l <= x.
Proof.
  induction l as [|b l [IHin IHle]]; simpl.
  - split; [auto|]. intros x [<-|[]]. lia.
  - split.
    + destruct (Z.min_spec b (fold_right Z.min a l)) as [[_ ->]|[_ ->]]; [auto|].
      destruct IHin as [H|H]; auto.
    + intros x [<-|[<-|H]].
      * specialize (IHle a (or_introl eq_refl)). lia.
      * lia.
      * specialize (IHle x (or_intror H)). lia.
Qed.

Lemma fold_max_spec (a : Z) (l : list Z) :
  In (fold_right Z.max a l) (a :: l) /\ forall x, In x (a :: l) -> x <= fold_right Z.max a l.
Proof.
  induction l as [|b l [IHin IHle]]; simpl.
  - split; [auto|]. intros x [<-|[]]. lia.
  - split.
    + destruct (Z.max_spec b (fold_right Z.max a l)) as [[_ ->]|[_ ->]]; [|auto].
      destruct IHin as [H|H]; auto.
    + intros x [<-|[<-|H]].
      * specialize (IHle a (or_introl eq_refl)). lia.
      * lia.
      * specialize (IHle x (or_intror H)). lia.
Qed.

Lemma min_spec (l : list Z) (lo : Z) :
  Pd.min l = Some lo -> In lo l /\ forall x, In x l -> lo <= x.
Proof.
  destruct l as [|a l]; [discriminate|]. intros [= <-]. apply fold_min_spec.
Qed.

Lemma max_spec (l : list Z) (hi : Z) :
  Pd.max l = Some hi -> In hi l /\ forall x, In x l -> x <= hi.
Proof.
  destruct l as [|a l]; [discriminate|]. intros [= <-]. apply fold_max_spec.
Qed.

(** ** The object store *)

Lemma lookup_snoc (h : list DataFrame) (x : DataFrame) : (h ++ [x]) !! length h = Some x.
Proof. rewrite lookup_app_r by lia. now rewrite Nat.sub_diag. Qed.

Lemma insert_snoc (h : list DataFrame) (x y : DataFrame) :
  <[length h := y]> (h ++ [x]) = h ++ [y].
Proof. rewrite insert_app_r_alt by lia. now rewrite Nat.sub_diag. Qed.

Lemma grows_refl (w : world) : grows w w.
Proof. exists []. destruct w; unfold set_heap; simpl. now rewrite app_nil_r. Qed.

Lemma grows_trans (w1 w2 w3 : world) : grows w1 w2 -> grows w2 w3 -> grows w1 w3.
Proof.
  intros [e1 ->] [e2 ->]. exists (e1 ++ e2).
  unfold set_heap; simpl. now rewrite app_assoc.
Qed.

Lemma grows_new (w : world) (f : DataFrame) : grows w (set_heap (heap w ++ [f]) w).
Proof. now exists [f]. Qed.

Lemma grows_lookup (w w' : world) (r : ref) (f : DataFrame) :
  grows w w' -> heap w !! r = Some f -> heap w' !! r = Some f.
Proof. intros [e ->] H. simpl. now apply lookup_app_l_Some. Qed.

Lemma grows_state (w w' : world) :
  grows w w' ->
  files w' = files w /\ display_max_rows w' = display_max_rows w /\
  display_precision w' = display_precision w /\ font_family w' = font_family w /\
  figures w' = figures w /\ shown w' = shown w.
Proof. intros [e ->]. simpl. repeat split. Qed.

Lemma computes_bind (m : M ref) (k : ref -> M ref) (w : world)
      (p : result DataFrame) (q : DataFrame -> result DataFrame) :
  computes m w p ->
  (forall r w1 g, grows w w1 -> heap w1 !! r = Some g -> computes (k r) w1 (q g)) ->
  computes (bind m k) w (and_then p q).
Proof.
  intros (w1 & Hg & Hm) Hk. destruct p as [g|e]; simpl.
  - destruct Hm as (r & Hm & Hr).
    destruct (Hk r w1 g Hg Hr) as (w2 & Hg2 & Hq).
    exists w2. split; [eapply grows_trans; eauto|].
    unfold bind. rewrite Hm. exact Hq.
  - exists w1. split; [assumption|]. unfold bind. now rewrite Hm.
Qed.

Lemma computes_new (w : world) (f : DataFrame) : computes (new f) w (Ok f).
Proof.
  exists (set_heap (heap w ++ [f]) w). split; [apply grows_new|].
  exists (length (heap w)). split; [reflexivity|]. simpl. apply lookup_snoc.
Qed.

Lemma computes_method (w : world) (df : ref) (f : DataFrame)
      (op : DataFrame -> result DataFrame) :
  heap w !! df = Some f -> computes (method df op) w (op f).
Proof.
  intros Hdf. unfold computes, method, bind, deref, lift. rewrite Hdf; simpl.
  destruct (op f) as [g|e].
  - exists (set_heap (heap w ++ [g]) w). split; [apply grows_new|].
    exists (length (heap w)). split; [reflexivity|]. simpl. apply lookup_snoc.
  - exists w. split; [apply grows_refl|reflexivity].
Qed.

Lemma computes_concat (w : world) (a b : ref) (fa fb : DataFrame) :
  heap w !! a = Some fa -> heap w !! b = Some fb ->
  computes (concat a b) w (Ok (Pd.concat_axis1 fa fb)).
Proof.
  intros Ha Hb. unfold computes, concat, bind, deref. rewrite Ha, Hb; simpl.
  exists (set_heap (heap w ++ [Pd.concat_axis1 fa fb]) w). split; [apply grows_new|].
  exists (length (heap w)). split; [reflexivity|]. simpl. apply lookup_snoc.
Qed.

(** [create_year_df] works on a copy: the two assignments change the
    object it has just created, and nothing else. *)
Lemma computes_create_year_df (w : world) (df : ref) (f : DataFrame) (yyyy : Z) :
  heap w !! df = Some f -> computes (create_year_df df yyyy) w (year_df yyyy f).
Proof.
  intros Hdf.
  unfold computes, create_year_df, year_df, method, assign, bind, deref, lift, modify, new, ret.
  rewrite Hdf; simpl.
  destruct (Pd.select_year yyyy f) as [g|e]; simpl.
  2: { exists w. split; [apply grows_refl|reflexivity]. }
  rewrite lookup_snoc; simpl.
  destruct (Pd.set_index month_labels g) as [g1|e]; simpl.
  2: { exists (set_heap (heap w ++ [g]) w). split; [apply grows_new|reflexivity]. }
  rewrite insert_snoc, lookup_snoc; simpl.
  destruct (Pd.set_columns [CInt yyyy] g1) as [g2|e]; simpl.
  2: { exists (set_heap (heap w ++ [g1]) w). split; [apply grows_new|reflexivity]. }
  rewrite insert_snoc.
  exists (set_heap (heap w ++ [g2]) w). split; [apply grows_new|].
  exists (length (heap w)). split; [reflexivity|]. simpl. apply lookup_snoc.
Qed.

Lemma computes_year_loop (years : list Z) (w : world) (agg new_df : ref) (f acc : DataFrame) :
  heap w !! agg = Some f -> heap w !! new_df = Some acc ->
  computes (year_loop agg new_df years) w (year_columns f acc years).
Proof.
  revert w new_df acc. induction years as [|y years IH]; intros w new_df acc Hf Hacc.
  - exists w. split; [apply grows_refl|]. exists new_df. now split.
  - assert (H1 : computes (bind (create_year_df agg y) (concat new_df)) w
                   (and_then (year_df y f) (fun c => Ok (Pd.concat_axis1 acc c)))).
    { apply computes_bind; [now apply computes_create_year_df|].
      intros r w1 g Hg Hr. apply computes_concat; [|exact Hr].
      eapply grows_lookup; eauto. }
    pose proof (computes_bind _ (fun acc' => year_loop agg acc' years) w _
                  (fun t => year_columns f t years) H1) as H2.
    simpl. destruct (year_df y f) as [c|e]; apply H2.
    + intros r w1 g Hg Hr. apply IH; [|exact Hr]. eapply grows_lookup; eauto.
    + intros r w1 g Hg Hr. apply IH; [|exact Hr]. eapply grows_lookup; eauto.
Qed.

Lemma computes_year_table (w : world) (agg : ref) (f : DataFrame) (s e : option Z) :
  heap w !! agg = Some f -> computes (year_table agg s e) w (year_table_of s e f).
Proof.
  intros Hf. unfold year_table.
  apply (computes_bind (new Pd.empty) _ w (Ok Pd.empty)
           (fun g => match s, e with
                     | Some s, Some e => year_columns f g (py_range s e)
                     | _, _ => Raise TypeError
                     end));
    [apply computes_new|].
  intros r w1 g Hg Hr.
  destruct s as [s|], e as [e|]; simpl;
    try (exists w1; split; [apply grows_refl|reflexivity]).
  apply computes_year_loop; [|exact Hr]. eapply grows_lookup; eauto.
Qed.

Lemma computes_monthly_total (w : world) (df : ref) (f : DataFrame) :
  heap w !! df = Some f -> computes (monthly_total df) w (Pd.resample_M Pd.nansum f).
Proof. apply computes_method. Qed.

Lemma computes_monthly_rainy_days (w : world) (df : ref) (f : DataFrame) (rf : Q) :
  heap w !! df = Some f -> computes (monthly_rainy_days df rf) w (rainy_days rf f).
Proof.
  intros Hf. apply computes_bind; [now apply computes_method|].
  intros r w1 g _ Hr. now apply computes_method.
Qed.

Lemma computes_rain_table (w : world) (df : ref) (f : DataFrame) (s e : option Z) :
  heap w !! df = Some f ->
  computes (bind (monthly_total df) (fun a => year_table a s e)) w (rain_table s e f).
Proof.
  intros Hf. apply computes_bind; [now apply computes_monthly_total|].
  intros r w1 g _ Hr. now apply computes_year_table.
Qed.

Lemma computes_days_table (w : world) (df : ref) (f : DataFrame) (rf : Q) (s e : option Z) :
  heap w !! df = Some f ->
  computes (bind (monthly_rainy_days df rf) (fun a => year_table a s e)) w (days_table rf s e f).
Proof.
  intros Hf. apply computes_bind; [now apply computes_monthly_rainy_days|].
  intros r w1 g _ Hr. now apply computes_year_table.
Qed.

(** ** Running the functions of the script *)

Lemma bind_assoc {A B C} (m : M A) (k : A -> M B) (h : B -> M C) (w : world) :
  bind (bind m k) h w = bind m (fun a => bind (k a) h) w.
Proof. unfold bind. destruct (m w) as [[a|e] w1]; reflexivity. Qed.

Lemma computes_then {A} (m : M ref) (k : ref -> M A) (w : world) (p : result DataFrame) :
  computes m w p ->
  exists w1, grows w w1 /\
    match p with
    | Ok t => exists r, heap w1 !! r = Some t /\ bind m k w = k r w1
    | Raise e => bind m k w = (Raise e, w1)
    end.
Proof.
  intros (w1 & Hg & Hm). exists w1. split; [assumption|].
  destruct p as [t|e].
  - destruct Hm as (r & Hm & Hr). exists r. split; [assumption|].
    unfold bind. now rewrite Hm.
  - unfold bind. now rewrite Hm.
Qed.

Lemma stamps_frame_of_csv (rs : csv) : stamps (index (frame_of_csv rs)) = Some (map fst rs).
Proof.
  unfold index, frame_of_csv; simpl.
  induction rs as [|[t c] rs IH]; simpl; [reflexivity|]. now rewrite IH.
Qed.

Lemma run_read_csv_data (fn : string) (w : world) :
  read_csv_data fn w =
  match files w fn with
  | None => (Raise FileNotFoundError, w)
  | Some [] => (Raise EmptyDataError, w)
  | Some rs => (Ok (length (heap w)),
                set_precision 1 (set_max_rows 500 (set_heap (heap w ++ [frame_of_csv rs]) w)))
  end.
Proof.
  unfold read_csv_data, read_csv, bind.
  destruct (files w fn) as [[|r rs]|]; try reflexivity.
  unfold new, assign, bind, deref, lift, modify, ret; simpl.
  rewrite lookup_snoc; simpl. rewrite insert_snoc. reflexivity.
Qed.

Lemma run_plot_rain_fall_plt (w : world) (df : ref) (f : DataFrame) (s e : option Z) :
  heap w !! df = Some f ->
  exists w1, grows w w1 /\
    plot_rain_fall_plt df s e w =
    match and_then (rain_table s e f) Pd.plot_data with
    | Ok t => (Ok tt, set_figures (figures w ++ [rain_fall_figure t]) (shown w) w1)
    | Raise x => (Raise x, w1)
    end.
Proof.
  intros Hf. unfold plot_rain_fall_plt. 
  destruct (computes_then _ (fun n => plot_bar n "日吉の降水量") w _
              (computes_rain_table w df f s e Hf)) as (w1 & Hg & H).
  exists w1. split; [assumption|].
  rewrite <- bind_assoc.
  destruct (rain_table s e f) as [t|x]; [|exact H].
  destruct H as (r & Hr & ->).
  unfold plot_bar, bind, deref, lift, modify. rewrite Hr; simpl.
  destruct (Pd.plot_data t); [|reflexivity].
  destruct (grows_state _ _ Hg) as (_ & _ & _ & _ & -> & ->). reflexivity.
Qed.

Lemma run_plot_rainy_days_plt (w : world) (df : ref) (f : DataFrame) (s e : option Z) (rf : Q) :
  heap w !! df = Some f ->
  exists w1, grows w w1 /\
    plot_rainy_days_plt df s e rf w =
    match and_then (days_table rf s e f) Pd.plot_data with
    | Ok t => (Ok tt, set_figures [] (shown w ++ (figures w ++ [rainy_days_figure t])) w1)
    | Raise x => (Raise x, w1)
    end.
Proof.
  intros Hf. unfold plot_rainy_days_plt.
  destruct (computes_then _ (fun n => bind (plot_bar n "日吉の降水日数") (fun _ => plt_show)) w _
              (computes_days_table w df f rf s e Hf)) as (w1 & Hg & H).
  exists w1. split; [assumption|].
  rewrite <- bind_assoc.
  destruct (days_table rf s e f) as [t|x]; [|exact H].
  destruct H as (r & Hr & ->).
  unfold plot_bar, plt_show, bind, deref, lift, modify. rewrite Hr; simpl.
  destruct (Pd.plot_data t); [|reflexivity].
  destruct (grows_state _ _ Hg) as (_ & _ & _ & _ & -> & ->). reflexivity.
Qed.

Lemma run_plot_original_data_px (w : world) (df : ref) (f : DataFrame) (title : string) :
  heap w !! df = Some f ->
  plot_original_data_px df title w =
  (Ok tt, set_figures (figures w) (shown w ++ [mkFigure LineChart title f]) w).
Proof.
  intros Hf. unfold plot_original_data_px, px_show, bind, deref, modify.
  now rewrite Hf.
Qed.

Lemma run_plot_rain_amount_px (w : world) (df : ref) (f : DataFrame) (s e : option Z)
      (title : string) :
  heap w !! df = Some f ->
  exists w1, grows w w1 /\
    plot_rain_amount_px df s e title w =
    match rain_table s e f with
    | Ok t => (Ok tt, set_figures (figures w) (shown w ++ [mkFigure BarChart title t]) w1)
    | Raise x => (Raise x, w1)
    end.
Proof.
  intros Hf. unfold plot_rain_amount_px.
  destruct (computes_then _ (fun n => px_show BarChart n title) w _
              (computes_rain_table w df f s e Hf)) as (w1 & Hg & H).
  exists w1. split; [assumption|].
  rewrite <- bind_assoc.
  destruct (rain_table s e f) as [t|x]; [|exact H].
  destruct H as (r & Hr & ->).
  unfold px_show, bind, deref, modify. rewrite Hr; simpl.
  destruct (grows_state _ _ Hg) as (_ & _ & _ & _ & -> & ->). reflexivity.
Qed.

Lemma run_plot_rainy_days_px (w : world) (df : ref) (f : DataFrame) (s e : option Z)
      (title : string) :
  heap w !! df = Some f ->
  exists w1, grows w w1 /\
    plot_rainy_days_px df s e title w =
    match days_table 0 s e f with
    | Ok t => (Ok tt, set_figures (figures w) (shown w ++ [mkFigure BarChart title t]) w1)
    | Raise x => (Raise x, w1)
    end.
Proof.
  intros Hf. unfold plot_rainy_days_px.
  destruct (computes_then _ (fun n => px_show BarChart n title) w _
              (computes_days_table w df f 0 s e Hf)) as (w1 & Hg & H).
  exists w1. split; [assumption|].
  rewrite <- bind_assoc.
  destruct (days_table 0 s e f) as [t|x]; [|exact H].
  destruct H as (r & Hr & ->).
  unfold px_show, bind, deref, modify. rewrite Hr; simpl.
  destruct (grows_state _ _ Hg) as (_ & _ & _ & _ & -> & ->). reflexivity.
Qed.

Lemma main_unfold (graph_type : string) (w : world) :
  main graph_type w =
  match files w data_path with
  | None => (Raise FileNotFoundError, set_precision 1 (set_max_rows 500 w))
  | Some [] => (Raise EmptyDataError, set_precision 1 (set_max_rows 500 w))
  | Some rs =>
      render graph_type (length (heap w)) (start_year_of rs) (end_year_of rs)
        (set_precision 1 (set_max_rows 500 (set_heap (heap w ++ [frame_of_csv rs]) w)))
  end.
Proof.
  unfold main.
  unfold bind at 1. unfold modify at 1. unfold bind at 1. unfold modify at 1.
  unfold bind at 1. rewrite run_read_csv_data. simpl files.
  destruct (files w data_path) as [[|r0 rs0]|]; try reflexivity.
  set (rs := r0 :: rs0).
  unfold bind at 1, index_year_min at 1, bind at 1, deref at 1.
  simpl heap. rewrite lookup_snoc. simpl default.
  unfold lift at 1, bind at 1, Pd.index_year. rewrite stamps_frame_of_csv.
  unfold ret at 1.
  unfold bind at 1, index_year_max at 1, bind at 1, deref at 1.
  simpl heap. rewrite lookup_snoc. simpl default.
  unfold lift at 1, bind at 1, Pd.index_year. rewrite stamps_frame_of_csv.
  unfold ret at 1.
  rewrite map_map. reflexivity.
Qed.

Lemma render_run (graph_type : string) (w : world) (df : ref) (f : DataFrame) (s e : option Z) :
  heap w !! df = Some f ->
  exists w',
    render graph_type df s e w = (fst (render_outcome graph_type f s e (figures w)), w') /\
    shown w' = shown w ++ snd (render_outcome graph_type f s e (figures w)) /\
    files w' = files w /\
    display_max_rows w' = display_max_rows w /\
    display_precision w' = display_precision w /\
    (exists extra, heap w' = heap w ++ extra) /\
    (fst (render_outcome graph_type f s e (figures w)) = Ok tt ->
     figures w' = if String.eqb graph_type "plt" then [] else figures w).
Proof.
  intros Hf. unfold render, render_outcome.
  destruct (String.eqb graph_type "plt").
  - unfold bind at 1, modify at 1.
    set (w2 := set_font_family _ w).
    destruct (run_plot_rain_fall_plt w2 df f s e Hf) as (w3 & [x3 ->] & H3).
    unfold bind at 1. rewrite H3. clear H3.
    destruct (and_then (rain_table s e f) Pd.plot_data) as [t1|x].
    2: { eexists; split; [reflexivity|]. simpl. rewrite app_nil_r.
         repeat split; eauto; discriminate. }
    set (w4 := set_figures _ _ _).
    assert (Hf4 : heap w4 !! df = Some f) by (simpl; now apply lookup_app_l_Some).
    destruct (run_plot_rainy_days_plt w4 df f s e 1 Hf4) as (w5 & [x5 ->] & H5).
    rewrite H5. clear H5.
    destruct (and_then (days_table 1 s e f) Pd.plot_data) as [t2|x].
    2: { eexists; split; [reflexivity|]. simpl. rewrite app_nil_r.
         repeat split; try discriminate. rewrite <- app_assoc. eauto. }
    eexists; split; [reflexivity|]. simpl.
    repeat split; try discriminate.
    + now rewrite <- app_assoc.
    + rewrite <- app_assoc. eauto.
  - unfold bind at 1. rewrite (run_plot_original_data_px w df f _ Hf).
    set (w2 := set_figures _ _ w).
    destruct (run_plot_rain_amount_px w2 df f s e "降雨量" Hf) as (w3 & [x3 ->] & H3).
    unfold bind at 1. rewrite H3. clear H3.
    destruct (rain_table s e f) as [t1|x].
    2: { eexists; split; [reflexivity|]. simpl. repeat split; eauto; discriminate. }
    set (w4 := set_figures _ _ _).
    assert (Hf4 : heap w4 !! df = Some f) by (simpl; now apply lookup_app_l_Some).
    destruct (run_plot_rainy_days_px w4 df f s e "降雨日数" Hf4) as (w5 & [x5 ->] & H5).
    rewrite H5. clear H5.
    destruct (days_table 0 s e f) as [t2|x].
    2: { eexists; split; [reflexivity|]. simpl. rewrite <- !app_assoc.
         repeat split; eauto; discriminate. }
    eexists; split; [reflexivity|]. simpl. rewrite <- !app_assoc.
    repeat split; eauto.
Qed.

Lemma main_run (graph_type : string) (w : world) :
  exists w',
    main graph_type w = (fst (main_outcome (files w data_path) graph_type (figures w)), w') /\
    main_post graph_type w w'.
Proof.
  unfold main_post. rewrite main_unfold. unfold main_outcome.
  destruct (files w data_path) as [[|r0 rs0]|].
  3: { eexists; split; [reflexivity|]. simpl. rewrite app_nil_r.
       repeat split; try discriminate. exists []. now rewrite app_nil_r. }
  1: { eexists; split; [reflexivity|]. simpl. rewrite app_nil_r.
       repeat split; try discriminate. exists []. now rewrite app_nil_r. }
  set (rs := r0 :: rs0). set (w1 := set_precision 1 _).
  assert (Hf : heap w1 !! length (heap w) = Some (frame_of_csv rs))
    by (simpl; apply lookup_snoc).
  destruct (render_run graph_type w1 _ _ (start_year_of rs) (end_year_of rs) Hf)
    as (w' & Hrun & Hsh & Hfl & Hmr & Hpr & [extra Hhp] & Hfg).
  exists w'. split; [exact Hrun|].
  repeat split; try assumption.
  exists (frame_of_csv rs :: extra). rewrite Hhp. simpl. now rewrite <- app_assoc.
Qed.

(** ** The table [resample('M')] builds *)

Lemma stamps_bin_rows (agg : list cell -> cell) (f : DataFrame) (ks : list Z) :
  stamps (map fst (map (Pd.bin_row agg f) ks)) = Some (map month_end ks).
Proof. induction ks as [|k ks IH]; simpl; [reflexivity|]. now rewrite IH. Qed.

(** The shape of a resampled frame: one row per month of the span. *)
Lemma resample_M_rows (agg : list cell -> cell) (f : DataFrame) (ts : list Timestamp) :
  stamps (index f) = Some ts ->
  exists lo n,
    Pd.resample_M agg f =
      Ok (mkDataFrame (columns f) (map (Pd.bin_row agg f) (zrange lo n))) /\
    forall k, In k (zrange lo n) <-> spanned k ts.
Proof.
  intros Hts. unfold Pd.resample_M. rewrite Hts.
  destruct ts as [|t ts].
  - exists 0, 0%nat. split; [reflexivity|].
    intros k; simpl. split; [tauto|]. now intros [(t & [] & _) _].
  - destruct (Pd.min (map month_ordinal (t :: ts))) as [lo|] eqn:Hlo; [|discriminate].
    destruct (Pd.max (map month_ordinal (t :: ts))) as [hi|] eqn:Hhi; [|discriminate].
    exists lo, (Z.to_nat (hi - lo + 1)). split; [reflexivity|].
    destruct (min_spec _ _ Hlo) as [Hlo1 Hlo2].
    destruct (max_spec _ _ Hhi) as [Hhi1 Hhi2].
    apply in_map_iff in Hlo1 as (t1 & Ht1 & Hin1).
    apply in_map_iff in Hhi1 as (t2 & Ht2 & Hin2).
    assert (lo <= hi) by (apply Hlo2; rewrite <- Ht2; now apply in_map).
    intros k. rewrite In_zrange. split.
    + intros Hk. split; [exists t1|exists t2]; split; auto; lia.
    + intros [(a & Ha & Hak) (b & Hb & Hkb)].
      pose proof (Hlo2 _ (in_map month_ordinal _ _ Ha)).
      pose proof (Hhi2 _ (in_map month_ordinal _ _ Hb)). lia.
Qed.

Lemma in_month_bin_row (agg : list cell -> cell) (f : DataFrame) (y m k : Z) :
  1 <= m <= 12 ->
  in_month y m (Pd.bin_row agg f k) = (k =? 12 * y + (m - 1)).
Proof.
  intros Hm. unfold in_month, Pd.bin_row, month_end; simpl.
  pose proof (Z.div_mod k 12). pose proof (Z.mod_pos_bound k 12).
  destruct (Z.eqb_spec (k / 12) y), (Z.eqb_spec (k mod 12 + 1) m),
    (Z.eqb_spec k (12 * y + (m - 1))); simpl; try reflexivity; lia.
Qed.

Lemma find_in_month_bin_rows (agg : list cell -> cell) (f : DataFrame) (y m : Z) (ks : list Z) :
  1 <= m <= 12 ->
  find (in_month y m) (map (Pd.bin_row agg f) ks) =
  if existsb (Z.eqb (12 * y + (m - 1))) ks
  then Some (Pd.bin_row agg f (12 * y + (m - 1))) else None.
Proof.
  intros Hm. induction ks as [|k ks IH]; simpl; [reflexivity|].
  rewrite in_month_bin_row by assumption. rewrite (Z.eqb_sym (12 * y + (m - 1)) k).
  destruct (Z.eqb_spec k (12 * y + (m - 1))) as [->|]; simpl; [reflexivity|exact IH].
Qed.

Lemma existsb_eqb_In (k : Z) (ks : list Z) : existsb (Z.eqb k) ks = true <-> In k ks.
Proof.
  rewrite existsb_exists. split.
  - intros (x & Hx & E). apply Z.eqb_eq in E. now subst.
  - intros H. exists k. split; [assumption|apply Z.eqb_refl].
Qed.

(** The entries of a monthly table: the months of the span, and no other. *)
Lemma entry_bin_rows (agg : list cell -> cell) (f : DataFrame) (cols : list colname)
      (ks : list Z) (y m : Z) :
  1 <= m <= 12 ->
  (In (12 * y + (m - 1)) ks ->
   entry (mkDataFrame cols (map (Pd.bin_row agg f) ks)) y m =
   Some (snd (Pd.bin_row agg f (12 * y + (m - 1))))) /\
  (~ In (12 * y + (m - 1)) ks ->
   entry (mkDataFrame cols (map (Pd.bin_row agg f) ks)) y m = None).
Proof.
  intros Hm. unfold entry; simpl. rewrite find_in_month_bin_rows by assumption.
  destruct (existsb (Z.eqb (12 * y + (m - 1))) ks) eqn:E.
  - apply existsb_eqb_In in E. split; [reflexivity|tauto].
  - split; [|reflexivity]. intros H. apply existsb_eqb_In in H. congruence.
Qed.

(** No entry for a month number that is not one. *)
Lemma entry_bin_rows_invalid (agg : list cell -> cell) (f : DataFrame) (cols : list colname)
      (ks : list Z) (y m : Z) :
  ~ 1 <= m <= 12 ->
  entry (mkDataFrame cols (map (Pd.bin_row agg f) ks)) y m = None.
Proof.
  intros Hm. unfold entry; simpl.
  induction ks as [|k ks IH]; simpl; [reflexivity|].
  unfold in_month at 1, Pd.bin_row at 1, month_end; simpl.
  pose proof (Z.mod_pos_bound k 12).
  destruct (Z.eqb_spec (k mod 12 + 1) m); [lia|].
  rewrite andb_false_r. exact IH.
Qed.

(** The rows of one year of a monthly table. *)
Lemma filter_year_bin_rows (agg : list cell -> cell) (f : DataFrame) (y lo : Z) (n : nat) :
  List.filter (Pd.in_year y) (map (Pd.bin_row agg f) (zrange lo n)) =
  map (Pd.bin_row agg f)
      (zrange (Z.max lo (12 * y))
              (Z.to_nat (Z.min (lo + Z.of_nat n) (12 * y + 12) - Z.max lo (12 * y)))).
Proof.
  rewrite filter_map_swap. f_equal.
  rewrite <- filter_zrange. apply filter_ext. intros k.
  unfold Pd.in_year, Pd.bin_row; simpl. apply year_of_month_end.
Qed.

Lemma nth_error_zrange (lo : Z) (n i : nat) :
  (i < n)%nat -> nth_error (zrange lo n) i = Some (lo + Z.of_nat i).
Proof.
  intros Hi. rewrite (nth_error_nth' _ 0) by (now rewrite length_zrange).
  now rewrite nth_zrange.
Qed.

Lemma map_snd_combine {A B} (l : list A) (l' : list B) :
  length l = length l' -> map snd (combine l l') = l'.
Proof.
  revert l'. induction l as [|a l IH]; intros [|b l'] H; simpl in *; try discriminate.
  - reflexivity.
  - f_equal. apply IH. now injection H.
Qed.

Lemma map_fst_combine {A B} (l : list A) (l' : list B) :
  length l = length l' -> map fst (combine l l') = l.
Proof.
  revert l'. induction l as [|a l IH]; intros [|b l'] H; simpl in *; try discriminate.
  - reflexivity.
  - f_equal. apply IH. now injection H.
Qed.

(** ** One year of a monthly table *)

Lemma year_df_complete (agg : list cell -> cell) (f : DataFrame) (c : colname)
      (lo : Z) (n : nat) (y : Z) :
  lo <= 12 * y -> 12 * y + 12 <= lo + Z.of_nat n ->
  year_df y (mkDataFrame [c] (map (Pd.bin_row agg f) (zrange lo n))) = Ok (year_frame agg f y).
Proof.
  intros Hlo Hhi. unfold year_df, Pd.select_year, index; simpl rows.
  rewrite stamps_bin_rows, filter_year_bin_rows.
  replace (Z.max lo (12 * y)) with (12 * y) by lia.
  replace (Z.to_nat _) with 12%nat by lia.
  reflexivity.
Qed.

Lemma year_df_incomplete (agg : list cell -> cell) (f : DataFrame) (cols : list colname)
      (lo : Z) (n : nat) (y : Z) :
  ~ (lo <= 12 * y /\ 12 * y + 12 <= lo + Z.of_nat n) ->
  year_df y (mkDataFrame cols (map (Pd.bin_row agg f) (zrange lo n))) = Raise ValueError.
Proof.
  intros H. unfold year_df, Pd.select_year, index; simpl rows.
  rewrite stamps_bin_rows, filter_year_bin_rows.
  unfold Pd.set_index; cbn [rows]. rewrite length_map, length_zrange.
  destruct (Nat.eqb_spec (length month_labels)
              (Z.to_nat (Z.min (lo + Z.of_nat n) (12 * y + 12) - Z.max lo (12 * y))))
    as [E|E]; [|reflexivity].
  simpl in E. lia.
Qed.

(** A year is complete when the table has its twelve months. *)
Lemma complete_year_iff (lo : Z) (n : nat) (y : Z) :
  (lo <= 12 * y /\ 12 * y + 12 <= lo + Z.of_nat n) <->
  (forall m, 1 <= m <= 12 -> In (12 * y + (m - 1)) (zrange lo n)).
Proof.
  split.
  - intros [H1 H2] m Hm. apply In_zrange. lia.
  - intros H. pose proof (H 1 ltac:(lia)) as H1. pose proof (H 12 ltac:(lia)) as H12.
    apply In_zrange in H1, H12. lia.
Qed.

Lemma year_frame_rows (agg : list cell -> cell) (f : DataFrame) (y : Z) (i : nat) :
  (i < 12)%nat ->
  nth_error (map snd (rows (year_frame agg f y))) i =
  Some (snd (Pd.bin_row agg f (12 * y + Z.of_nat i))).
Proof.
  intros Hi. unfold year_frame; cbn [rows].
  rewrite map_snd_combine by (now rewrite length_map, length_zrange).
  rewrite nth_error_map, nth_error_zrange by assumption. reflexivity.
Qed.

Lemma year_frame_index (agg : list cell -> cell) (f : DataFrame) (y : Z) :
  index (year_frame agg f y) = month_labels.
Proof.
  unfold index, year_frame; cbn [rows].
  apply map_fst_combine. now rewrite length_map, length_zrange.
Qed.

(** A resampled frame is a monthly table. *)
Lemma resample_M_inv (agg : list cell -> cell) (src f : DataFrame) :
  Pd.resample_M agg src = Ok f ->
  exists ts lo n,
    stamps (index src) = Some ts /\
    f = mkDataFrame (columns src) (map (Pd.bin_row agg src) (zrange lo n)) /\
    forall k, In k (zrange lo n) <-> spanned k ts.
Proof.
  intros H. destruct (stamps (index src)) as [ts|] eqn:Hts.
  - destruct (resample_M_rows agg src ts Hts) as (lo & n & E & Hk).
    exists ts, lo, n. split; [reflexivity|]. split; [congruence|exact Hk].
  - unfold Pd.resample_M in H. rewrite Hts in H. discriminate.
Qed.

(** ** C1: the year pivot *)

(** C1, counterexample.  A record that starts in October 2020 has three
    months of 2020 in its monthly totals (October to December); on that
    aggregate and the year 2020, [create_year_df] does not return twelve
    positions: the assignment of the twelve month labels raises
    ValueError. *)
Lemma create_year_df_partial_year_raises :
  exists agg,
    Pd.resample_M Pd.nansum (frame_of_csv partial_year_csv) = Ok agg /\
    entry agg 2020 9 = None /\
    entry agg 2020 10 = Some [Num 3] /\
    let w := set_heap [agg] (initial_world (fun _ => None)) in
    fst (create_year_df 0%nat 2020 w) = Raise ValueError /\
    forall r w', create_year_df 0%nat 2020 w <> (Ok r, w').
Proof.
  eexists. split; [vm_compute; reflexivity|].
  split; [vm_compute; reflexivity|].
  split; [vm_compute; reflexivity|].
  split; [vm_compute; reflexivity|].
  intros r w' H. apply (f_equal fst) in H. vm_compute in H. discriminate.
Qed.

(** C1, as the code has it.  On a monthly aggregate (the result of the
    monthly resampling of a one-column series) and a year, [create_year_df]
    works on a copy and
    - when the aggregate has an entry for each of the twelve months of the
      year, returns a new frame with the column labelled by the year and
      twelve rows labelled with the twelve months in order, the row at
      position i holding the entry of month i+1 of that year;
    - when the aggregate lacks an entry for some month of the year, raises
      ValueError (length mismatch) and returns nothing.
    In both cases the aggregate itself is left as it was. *)
Theorem create_year_df_twelve_or_raise
        (agg : list cell -> cell) (src f : DataFrame) (c : colname)
        (w : world) (df : ref) (yyyy : Z) :
  Pd.resample_M agg src = Ok f ->
  columns src = [c] ->
  heap w !! df = Some f ->
  ((forall m, 1 <= m <= 12 -> entry f yyyy m <> None) /\
   exists r w' g,
     create_year_df df yyyy w = (Ok r, w') /\
     heap w' !! r = Some g /\ heap w' !! df = Some f /\
     columns g = [CInt yyyy] /\ index g = month_labels /\
     forall i, (i < 12)%nat ->
       nth_error (map snd (rows g)) i = entry f yyyy (Z.of_nat i + 1))
  \/
  ((exists m, 1 <= m <= 12 /\ entry f yyyy m = None) /\
   exists w',
     create_year_df df yyyy w = (Raise ValueError, w') /\ heap w' !! df = Some f).
Proof.
  intros Hres Hcols Hdf.
  destruct (resample_M_inv agg src f Hres) as (ts & lo & n & Hts & -> & Hspan).
  rewrite Hcols in *.
  destruct (computes_create_year_df w df _ yyyy Hdf) as (w' & Hg & Hrun).
  pose proof (grows_lookup _ _ _ _ Hg Hdf) as Hdf'.
  destruct (Z_le_dec lo (12 * yyyy)) as [Hlo|Hlo];
    [destruct (Z_le_dec (12 * yyyy + 12) (lo + Z.of_nat n)) as [Hhi|Hhi]|].
  - left.
    pose proof (proj1 (complete_year_iff lo n yyyy) (conj Hlo Hhi)) as Hall.
    split.
    + intros m Hm.
      rewrite (proj1 (entry_bin_rows agg src [c] _ yyyy m Hm) (Hall m Hm)). discriminate.
    + rewrite (year_df_complete agg src c lo n yyyy Hlo Hhi) in Hrun.
      destruct Hrun as (r & Hrun & Hr).
      exists r, w', (year_frame agg src yyyy).
      split; [exact Hrun|]. split; [exact Hr|]. split; [exact Hdf'|].
      split; [reflexivity|]. split; [apply year_frame_index|].
      intros i Hi. rewrite year_frame_rows by assumption.
      assert (Hm : 1 <= Z.of_nat i + 1 <= 12) by lia.
      rewrite (proj1 (entry_bin_rows agg src [c] _ yyyy _ Hm) (Hall _ Hm)).
      do 3 f_equal. lia.
  - right. split.
    + exists 12. split; [lia|].
      apply entry_bin_rows; [lia|]. rewrite In_zrange. lia.
    + rewrite year_df_incomplete in Hrun by lia. eauto.
  - right. split.
    + exists 1. split; [lia|].
      apply entry_bin_rows; [lia|]. rewrite In_zrange. lia.
    + rewrite year_df_incomplete in Hrun by lia. eauto.
Qed.

Lemma create_year_df_twelve_or_raise_witness :
  let w := set_heap [full_year_totals] (initial_world (fun _ => None)) in
  (Pd.resample_M Pd.nansum (frame_of_csv full_year_csv) = Ok full_year_totals /\
   columns (frame_of_csv full_year_csv) = [precipitation] /\
   heap w !! 0%nat = Some full_year_totals) /\
  (((forall m, 1 <= m <= 12 -> entry full_year_totals 2020 m <> None) /\
    exists r w' g,
      create_year_df 0%nat 2020 w = (Ok r, w') /\
      heap w' !! r = Some g /\ heap w' !! 0%nat = Some full_year_totals /\
      columns g = [CInt 2020] /\ index g = month_labels /\
      forall i, (i < 12)%nat ->
        nth_error (map snd (rows g)) i = entry full_year_totals 2020 (Z.of_nat i + 1))
   \/
   ((exists m, 1 <= m <= 12 /\ entry full_year_totals 2020 m = None) /\
    exists w',
      create_year_df 0%nat 2020 w = (Raise ValueError, w') /\
      heap w' !! 0%nat = Some full_year_totals)).
Proof.
  split.
  - split; [vm_compute; reflexivity|]. split; reflexivity.
  - apply (create_year_df_twelve_or_raise Pd.nansum (frame_of_csv full_year_csv)
             full_year_totals precipitation).
    + vm_compute; reflexivity.
    + reflexivity.
    + reflexivity.
Defined.

(** ** Months of a series of valid dates *)

Lemma valid_date_month (t : Timestamp) : valid_date t = true -> 1 <= ts_month t <= 12.
Proof. unfold valid_date. rewrite !andb_true_iff. lia. Qed.

Lemma month_leb_ordinal (y1 m1 y2 m2 : Z) :
  1 <= m1 <= 12 -> 1 <= m2 <= 12 ->
  month_leb y1 m1 y2 m2 = true <-> 12 * y1 + (m1 - 1) <= 12 * y2 + (m2 - 1).
Proof.
  intros H1 H2. unfold month_leb.
  rewrite orb_true_iff, andb_true_iff, Z.ltb_lt, Z.eqb_eq, Z.leb_le. lia.
Qed.

Lemma in_span_spanned (y m : Z) (ts : list Timestamp) :
  forallb valid_date ts = true -> 1 <= m <= 12 ->
  in_span y m ts = true <-> spanned (12 * y + (m - 1)) ts.
Proof.
  intros Hv Hm. rewrite forallb_forall in Hv.
  unfold in_span, spanned. rewrite andb_true_iff, !existsb_exists.
  split; intros [(a & Ha & Hla) (b & Hb & Hlb)].
  - split; [exists a|exists b]; (split; [assumption|]).
    + apply month_leb_ordinal in Hla; auto using valid_date_month.
    + apply month_leb_ordinal in Hlb; auto using valid_date_month.
  - split; [exists a|exists b]; (split; [assumption|]).
    + apply month_leb_ordinal; auto using valid_date_month.
    + apply month_leb_ordinal; auto using valid_date_month.
Qed.

Lemma in_span_self (t : Timestamp) (ts : list Timestamp) :
  In t ts -> in_span (ts_year t) (ts_month t) ts = true.
Proof.
  intros Hin. unfold in_span. rewrite andb_true_iff, !existsb_exists.
  split; exists t; (split; [assumption|]); unfold month_leb;
    rewrite Z.eqb_refl, Z.leb_refl; apply orb_true_r.
Qed.

Lemma stamps_In (rs : list (label * list cell)) (ts : list Timestamp) :
  stamps (map fst rs) = Some ts ->
  forall r, In r rs -> exists t, fst r = Stamp t /\ In t ts.
Proof.
  revert ts. induction rs as [|[[t|s] c] rs IH]; intros ts H r Hr; simpl in *.
  - contradiction.
  - destruct (stamps (map fst rs)) as [ts0|] eqn:E; [|discriminate].
    injection H as <-. destruct Hr as [<-|Hr].
    + exists t. simpl. auto.
    + destruct (IH ts0 eq_refl r Hr) as (t' & Ht' & Hin). exists t'. simpl. auto.
  - discriminate.
Qed.

(** On valid dates, the bin of a month holds the rows of that month. *)
Lemma bin_month (f : DataFrame) (ts : list Timestamp) (y m : Z) :
  stamps (index f) = Some ts -> forallb valid_date ts = true -> 1 <= m <= 12 ->
  Pd.bin (12 * y + (m - 1)) f = map snd (List.filter (in_month y m) (rows f)).
Proof.
  intros Hts Hv Hm. unfold Pd.bin. f_equal. apply filter_ext_in.
  intros r Hr. destruct (stamps_In _ _ Hts r Hr) as (t & Ht & Hin).
  rewrite forallb_forall in Hv. pose proof (valid_date_month t (Hv t Hin)) as Hmt.
  unfold Pd.in_bin, in_month, month_ordinal. rewrite Ht.
  destruct (Z.eqb_spec (ts_year t) y), (Z.eqb_spec (ts_month t) m),
    (Z.eqb_spec (12 * ts_year t + (ts_month t - 1)) (12 * y + (m - 1)));
    simpl; try reflexivity; lia.
Qed.

(** The entries of a resampled one-column series of valid dates. *)
Lemma resample_M_entries (agg : list cell -> cell) (f g : DataFrame) (c : colname)
      (ts : list Timestamp) :
  columns f = [c] -> stamps (index f) = Some ts -> forallb valid_date ts = true ->
  Pd.resample_M agg f = Ok g ->
  (forall y m, 1 <= m <= 12 -> in_span y m ts = true ->
               entry g y m = Some [agg (month_cells f y m)]) /\
  (forall y m, in_span y m ts = false -> entry g y m = None).
Proof.
  intros Hc Hts Hv Hres.
  destruct (resample_M_inv agg f g Hres) as (ts' & lo & n & Hts' & -> & Hspan).
  rewrite Hts in Hts'. injection Hts' as <-.
  split.
  - intros y m Hm Hin.
    apply (in_span_spanned y m ts Hv Hm) in Hin. apply Hspan in Hin.
    rewrite (proj1 (entry_bin_rows agg f _ _ y m Hm) Hin).
    unfold Pd.bin_row; simpl. rewrite Hc; simpl.
    rewrite (bin_month f ts y m Hts Hv Hm). reflexivity.
  - intros y m Hout.
    destruct (Z_le_dec 1 m) as [H1|H1]; [destruct (Z_le_dec m 12) as [H2|H2]|].
    + apply entry_bin_rows; [lia|]. intros Hin. apply Hspan in Hin.
      apply (in_span_spanned y m ts Hv (conj H1 H2)) in Hin. congruence.
    + apply entry_bin_rows_invalid. lia.
    + apply entry_bin_rows_invalid. lia.
Qed.

(** ** C5: monthly totals *)

(** The example of the specification: the totals of January and February
    2022 are 5 and 0. *)
Example monthly_total_example :
  Pd.resample_M Pd.nansum (frame_of_csv example_csv) =
  Ok (mkDataFrame [precipitation]
        [(Stamp (mkTimestamp 2022 1 31), [Num 5]); (Stamp (mkTimestamp 2022 2 28), [Num 0])]).
Proof. reflexivity. Qed.

(** C5.  For a series of valid dates held in one column, [monthly_total]
    ([resample('M').sum()]) returns a new table which
    - has an entry for the month of every timestamp of the series, the sum
      of the values of that month;
    - has an entry for every month between the month of the earliest and
      the month of the latest timestamp, which is 0 when no row of the
      series falls in that month;
    - has no entry for a month outside that span. *)
Theorem monthly_total_entries (w : world) (df : ref) (f : DataFrame) (c : colname)
        (ts : list Timestamp) :
  heap w !! df = Some f ->
  columns f = [c] ->
  stamps (index f) = Some ts ->
  forallb valid_date ts = true ->
  exists r w' g,
    monthly_total df w = (Ok r, w') /\ heap w' !! r = Some g /\
    (forall t, In t ts ->
       entry g (ts_year t) (ts_month t) =
       Some [Pd.nansum (month_cells f (ts_year t) (ts_month t))]) /\
    (forall y m, 1 <= m <= 12 -> in_span y m ts = true ->
       entry g y m = Some [Pd.nansum (month_cells f y m)]) /\
    (forall y m, 1 <= m <= 12 -> in_span y m ts = true -> month_cells f y m = [] ->
       entry g y m = Some [Num 0]) /\
    (forall y m, in_span y m ts = false -> entry g y m = None).
Proof.
  intros Hdf Hc Hts Hv.
  destruct (computes_monthly_total w df f Hdf) as (w' & _ & Hrun).
  destruct (resample_M_rows Pd.nansum f ts Hts) as (lo & n & Hres & _).
  rewrite Hres in Hrun. destruct Hrun as (r & Hrun & Hr).
  destruct (resample_M_entries Pd.nansum f _ c ts Hc Hts Hv Hres) as [Hin Hout].
  eexists r, w', _. split; [exact Hrun|]. split; [exact Hr|].
  split; [|split; [|split]].
  - intros t Ht. apply Hin.
    + rewrite forallb_forall in Hv. apply valid_date_month; auto.
    + now apply in_span_self.
  - exact Hin.
  - intros y m Hm Hs He. rewrite (Hin y m Hm Hs), He. reflexivity.
  - exact Hout.
Qed.

Lemma monthly_total_entries_witness :
  let w := set_heap [frame_of_csv example_csv] (initial_world (fun _ => None)) in
  (heap w !! 0%nat = Some (frame_of_csv example_csv) /\
   columns (frame_of_csv example_csv) = [precipitation] /\
   stamps (index (frame_of_csv example_csv)) = Some (map fst example_csv) /\
   forallb valid_date (map fst example_csv) = true) /\
  exists r w' g,
    monthly_total 0%nat w = (Ok r, w') /\ heap w' !! r = Some g /\
    entry g 2022 1 = Some [Num 5] /\ entry g 2022 2 = Some [Num 0] /\
    entry g 2022 3 = None.
Proof.
  split; [repeat split|].
  destruct (monthly_total_entries
              (set_heap [frame_of_csv example_csv] (initial_world (fun _ => None)))
              0%nat (frame_of_csv example_csv) precipitation (map fst example_csv)
              eq_refl eq_refl eq_refl eq_refl)
    as (r & w' & g & Hrun & Hr & _ & Hin & _ & Hout).
  exists r, w', g. split; [exact Hrun|]. split; [exact Hr|].
  split; [|split].
  - apply (Hin 2022 1); [lia|reflexivity].
  - apply (Hin 2022 2); [lia|reflexivity].
  - apply (Hout 2022 3). reflexivity.
Defined.

(** ** C2: monthly counts of rainy days *)

Lemma select_gt_precipitation (rf : Q) (f : DataFrame) :
  columns f = [precipitation] ->
  Pd.select_gt precipitation rf f =
  Ok (mkDataFrame [precipitation] (List.filter (above rf) (rows f))).
Proof. intros Hc. unfold Pd.select_gt. rewrite Hc. reflexivity. Qed.

Lemma stamps_filter_above (rf : Q) (f : DataFrame) (ts : list Timestamp) :
  stamps (index f) = Some ts ->
  stamps (map fst (List.filter (above rf) (rows f))) = Some (stamps_above rf f).
Proof.
  unfold index, stamps_above. generalize (rows f) as rs. intros rs. revert ts.
  induction rs as [|[[t|s] c] rs IH]; intros ts H; simpl in *.
  - reflexivity.
  - destruct (stamps (map fst rs)) as [ts0|] eqn:E; [|discriminate].
    unfold above at 1; simpl.
    destruct (cell_gt (nth 0 c NaN) rf); simpl; rewrite (IH ts0 eq_refl); reflexivity.
  - discriminate.
Qed.

Lemma stamps_above_incl (rf : Q) (f : DataFrame) (ts : list Timestamp) :
  stamps (index f) = Some ts -> incl (stamps_above rf f) ts.
Proof.
  intros Hts t Ht. unfold stamps_above in Ht. apply in_flat_map in Ht as (r & Hr & Ht).
  destruct (stamps_In _ _ Hts r Hr) as (t' & Ht' & Hin).
  rewrite Ht' in Ht. destruct (cell_gt _ _); simpl in Ht; [|contradiction].
  destruct Ht as [<-|[]]. exact Hin.
Qed.

Lemma cell_gt_notna (c : cell) (rf : Q) : cell_gt c rf = true -> notna c = true.
Proof. destruct c; [discriminate|reflexivity]. Qed.

(** Counting the values left in a month once the days at or below the
    threshold are removed gives the number of days above it. *)
Lemma count_filtered_month (rf : Q) (p : label * list cell -> bool)
      (rs : list (label * list cell)) :
  List.filter notna (column_at 0 (map snd (List.filter p (List.filter (above rf) rs)))) =
  List.filter (fun c => cell_gt c rf) (column_at 0 (map snd (List.filter p rs))).
Proof.
  induction rs as [|r rs IH]; simpl; [reflexivity|].
  destruct (above rf r) eqn:Ha; simpl; destruct (p r); simpl; try exact IH.
  - unfold above in Ha. rewrite Ha, (cell_gt_notna _ _ Ha). now rewrite IH.
  - unfold above in Ha. now rewrite Ha.
Qed.

(** C2, counterexample.  On the series of the specification's example the
    rows are filtered before they are resampled: only 15 January is left,
    the table of rainy days has the single entry (2022, 1) -> 1, and
    February 2022, a month of the series whose values are all at most 0,
    has no entry instead of the entry 0. *)
Lemma monthly_rainy_days_example :
  let f := frame_of_csv example_csv in
  let w := set_heap [f] (initial_world (fun _ => None)) in
  exists g,
    rainy_days 0 f = Ok g /\
    fst (monthly_rainy_days 0%nat 0 w) = Ok 2%nat /\
    heap (snd (monthly_rainy_days 0%nat 0 w)) !! 2%nat = Some g /\
    g = mkDataFrame [precipitation] [(Stamp (mkTimestamp 2022 1 31), [Num 1])] /\
    in_span 2022 2 (map fst example_csv) = true /\
    days_above 0 f 2022 2 = 0%nat /\
    entry g 2022 2 = None /\
    entry g 2022 2 <> Some [Num 0].
Proof.
  eexists. split; [vm_compute; reflexivity|].
  repeat split; try reflexivity. discriminate.
Qed.

(** C2, as the code has it.  For a series of valid dates with the column
    of the loader, [monthly_rainy_days] (the rows above the threshold,
    resampled and counted) returns a new table in which
    - a month between the month of the earliest and the month of the
      latest day above the threshold has the number of its days above the
      threshold as entry, which is 0 when all its values are at most the
      threshold;
    - a month outside that span has no entry, whether or not the series
      has rows for it. *)
Theorem monthly_rainy_days_entries (w : world) (df : ref) (f : DataFrame) (rf : Q)
        (ts : list Timestamp) :
  heap w !! df = Some f ->
  columns f = [precipitation] ->
  stamps (index f) = Some ts ->
  forallb valid_date ts = true ->
  exists r w' g,
    monthly_rainy_days df rf w = (Ok r, w') /\ heap w' !! r = Some g /\
    (forall y m, 1 <= m <= 12 -> in_span y m (stamps_above rf f) = true ->
       entry g y m = Some [Num (inject_Z (Z.of_nat (days_above rf f y m)))]) /\
    (forall y m, in_span y m (stamps_above rf f) = false -> entry g y m = None).
Proof.
  intros Hdf Hc Hts Hv.
  destruct (computes_monthly_rainy_days w df f rf Hdf) as (w' & _ & Hrun).
  unfold rainy_days in Hrun. rewrite (select_gt_precipitation rf f Hc) in Hrun.
  set (f' := mkDataFrame [precipitation] (List.filter (above rf) (rows f))) in *.
  assert (Hts' : stamps (index f') = Some (stamps_above rf f))
    by (apply (stamps_filter_above rf f ts Hts)).
  assert (Hv' : forallb valid_date (stamps_above rf f) = true).
  { apply forallb_forall. intros t Ht. rewrite forallb_forall in Hv.
    apply Hv. now apply (stamps_above_incl rf f ts Hts). }
  destruct (resample_M_rows Pd.count f' _ Hts') as (lo & n & Hres & _).
  simpl and_then in Hrun. rewrite Hres in Hrun. destruct Hrun as (r & Hrun & Hr).
  destruct (resample_M_entries Pd.count f' _ precipitation _ eq_refl Hts' Hv' Hres)
    as [Hin Hout].
  eexists r, w', _. split; [exact Hrun|]. split; [exact Hr|]. split.
  - intros y m Hm Hs. rewrite (Hin y m Hm Hs).
    unfold Pd.count, month_cells, days_above, month_cells, f'; simpl rows.
    now rewrite count_filtered_month.
  - exact Hout.
Qed.

Lemma monthly_rainy_days_entries_witness :
  let f := frame_of_csv partial_year_csv in
  let w := set_heap [f] (initial_world (fun _ => None)) in
  (heap w !! 0%nat = Some f /\ columns f = [precipitation] /\
   stamps (index f) = Some (map fst partial_year_csv) /\
   forallb valid_date (map fst partial_year_csv) = true) /\
  exists r w' g,
    monthly_rainy_days 0%nat 1 w = (Ok r, w') /\ heap w' !! r = Some g /\
    entry g 2020 10 = Some [Num 1] /\ entry g 2021 6 = Some [Num 0] /\
    entry g 2022 2 = None.
Proof.
  split; [repeat split|].
  destruct (monthly_rainy_days_entries
              (set_heap [frame_of_csv partial_year_csv] (initial_world (fun _ => None)))
              0%nat (frame_of_csv partial_year_csv) 1 (map fst partial_year_csv)
              eq_refl eq_refl eq_refl eq_refl)
    as (r & w' & g & Hrun & Hr & Hin & Hout).
  exists r, w', g. split; [exact Hrun|]. split; [exact Hr|].
  split; [|split].
  - apply (Hin 2020 10); [lia|reflexivity].
  - apply (Hin 2021 6); [lia|reflexivity].
  - apply (Hout 2022 2). reflexivity.
Defined.

(** ** C3: the loader keeps the order of the file *)

(** C3, counterexample.  A file whose lines run backwards in time is
    loaded as it is: the index of the frame starts with 10 February and
    ends with 1 January, and is not sorted. *)
Lemma read_csv_data_unsorted_example :
  let w := initial_world (only_file data_path unsorted_csv) in
  fst (read_csv_data data_path w) = Ok 0%nat /\
  exists f,
    heap (snd (read_csv_data data_path w)) !! 0%nat = Some f /\
    stamps (index f) =
      Some [mkTimestamp 2022 2 10; mkTimestamp 2022 1 15; mkTimestamp 2022 1 1] /\
    is_monotonic_increasing
      [mkTimestamp 2022 2 10; mkTimestamp 2022 1 15; mkTimestamp 2022 1 1] = false.
Proof.
  split; [reflexivity|]. eexists. split; [reflexivity|]. split; reflexivity.
Qed.

(** C3, as the code has it.  From a file with at least one line,
    [read_csv_data] returns a new frame whose only column is labelled
    with the fixed string and whose rows are the lines of the file in the
    order of the file: the index is sorted exactly when the file is. *)
Theorem read_csv_data_file_order (fn : string) (w : world) (rs : csv) :
  files w fn = Some rs ->
  rs <> [] ->
  exists r w' f,
    read_csv_data fn w = (Ok r, w') /\ heap w' !! r = Some f /\
    columns f = [precipitation] /\
    stamps (index f) = Some (map fst rs) /\
    map snd (rows f) = map (fun l => [snd l]) rs /\
    (forall ts, stamps (index f) = Some ts ->
                is_monotonic_increasing ts = is_monotonic_increasing (map fst rs)).
Proof.
  intros Hfile Hne. rewrite run_read_csv_data, Hfile.
  destruct rs as [|l rs]; [congruence|].
  eexists _, _, (frame_of_csv (l :: rs)). split; [reflexivity|].
  split; [simpl; apply lookup_snoc|]. split; [reflexivity|].
  split; [apply stamps_frame_of_csv|]. split.
  - unfold frame_of_csv; cbn [rows]. now rewrite map_map.
  - intros ts Hts. rewrite stamps_frame_of_csv in Hts. now injection Hts as <-.
Qed.

Lemma read_csv_data_file_order_witness :
  let w := initial_world (only_file data_path example_csv) in
  (files w data_path = Some example_csv /\ example_csv <> []) /\
  exists r w' f,
    read_csv_data data_path w = (Ok r, w') /\ heap w' !! r = Some f /\
    columns f = [precipitation] /\
    stamps (index f) = Some (map fst example_csv) /\
    map snd (rows f) = map (fun l => [snd l]) example_csv /\
    (forall ts, stamps (index f) = Some ts ->
                is_monotonic_increasing ts = is_monotonic_increasing (map fst example_csv)).
Proof.
  split; [split; [reflexivity|discriminate]|].
  apply (read_csv_data_file_order data_path
           (initial_world (only_file data_path example_csv)) example_csv);
    [reflexivity|discriminate].
Defined.

(** ** C7: the display options are process-wide state *)

(** C7, counterexample.  In a fresh interpreter the pandas display
    options are 60 rows and 6 digits; after the loader has run they are
    500 rows and 1 digit. *)
Lemma read_csv_data_changes_display_options :
  let w := initial_world (only_file data_path example_csv) in
  display_max_rows w = 60 /\ display_precision w = 6 /\
  fst (read_csv_data data_path w) = Ok 0%nat /\
  display_max_rows (snd (read_csv_data data_path w)) = 500 /\
  display_precision (snd (read_csv_data data_path w)) = 1 /\
  snd (read_csv_data data_path w) <> set_heap (heap (snd (read_csv_data data_path w))) w.
Proof.
  repeat split. intros H. apply (f_equal display_precision) in H. discriminate.
Qed.

(** C7, as the code has it.  Besides reading the file, a call of the
    loader that succeeds creates the frame and sets the process-wide
    pandas options [display.max_rows] to 500 and [display.precision] to 1;
    it leaves the files, the matplotlib font, the figures and the objects
    that existed as they were.  A call that raises changes nothing.
    [main] sets the same two options before it loads the file, so that
    they hold after every run. *)
Theorem read_csv_data_effects (fn : string) (w : world) :
  (files (snd (read_csv_data fn w)) = files w /\
   font_family (snd (read_csv_data fn w)) = font_family w /\
   figures (snd (read_csv_data fn w)) = figures w /\
   shown (snd (read_csv_data fn w)) = shown w /\
   (forall r f, heap w !! r = Some f -> heap (snd (read_csv_data fn w)) !! r = Some f)) /\
  match fst (read_csv_data fn w) with
  | Ok df =>
      display_max_rows (snd (read_csv_data fn w)) = 500 /\
      display_precision (snd (read_csv_data fn w)) = 1 /\
      exists f, heap (snd (read_csv_data fn w)) = heap w ++ [f] /\ df = length (heap w)
  | Raise _ => snd (read_csv_data fn w) = w
  end /\
  (forall graph_type,
     display_max_rows (snd (main graph_type w)) = 500 /\
     display_precision (snd (main graph_type w)) = 1).
Proof.
  split; [|split].
  - rewrite run_read_csv_data.
    destruct (files w fn) as [[|l rs]|]; simpl; repeat split; auto.
    intros r f H. now apply lookup_app_l_Some.
  - rewrite run_read_csv_data.
    destruct (files w fn) as [[|l rs]|]; simpl; try reflexivity.
    repeat split. eauto.
  - intros graph_type.
    destruct (main_run graph_type w) as (w' & -> & _ & _ & Hmr & Hpr & _).
    simpl. now split.
Qed.

(** ** C9: the input path *)

(** C9, counterexample.  The data is in a file the caller would like to
    read, but [main] has no parameter for a path: whatever its argument,
    it looks for ./data/hiyoshi.csv and fails when that file is missing. *)
Lemma main_ignores_other_paths :
  let w := initial_world (only_file "./data/kawasaki.csv" example_csv) in
  files w "./data/kawasaki.csv" = Some example_csv /\
  fst (main "plt" w) = Raise FileNotFoundError /\
  fst (main "px" w) = Raise FileNotFoundError /\
  fst (main "./data/kawasaki.csv" w) = Raise FileNotFoundError /\
  heap (snd (main "./data/kawasaki.csv" w)) = [].
Proof. repeat split. Qed.

(** C9, as the code has it.  The loader reads the path it is given, and
    [main] always gives it the constant ./data/hiyoshi.csv: what a run
    returns and displays is a function of the content of that one file
    (and of the mode), and of no other file. *)
Theorem main_reads_data_path (graph_type : string) (w : world) :
  (forall fn,
     read_csv_data fn w =
     match files w fn with
     | None => (Raise FileNotFoundError, w)
     | Some [] => (Raise EmptyDataError, w)
     | Some rs => (Ok (length (heap w)),
                   set_precision 1 (set_max_rows 500 (set_heap (heap w ++ [frame_of_csv rs]) w)))
     end) /\
  fst (main graph_type w) = fst (main_outcome (files w data_path) graph_type (figures w)) /\
  shown (snd (main graph_type w)) =
    shown w ++ snd (main_outcome (files w data_path) graph_type (figures w)) /\
  (forall fs,
     fs data_path = files w data_path ->
     let w2 := mkWorld fs (display_max_rows w) (display_precision w) (font_family w)
                       (heap w) (figures w) (shown w) in
     fst (main graph_type w2) = fst (main graph_type w) /\
     shown (snd (main graph_type w2)) = shown (snd (main graph_type w))).
Proof.
  split; [intros fn; apply run_read_csv_data|].
  destruct (main_run graph_type w) as (w' & Hrun & Hsh & _).
  rewrite Hrun. cbn [fst snd]. split; [reflexivity|]. split; [exact Hsh|].
  intros fs Hfs. set (w2 := mkWorld fs _ _ _ _ _ _).
  destruct (main_run graph_type w2) as (w2' & Hrun2 & Hsh2 & _).
  rewrite Hrun2. cbn [fst snd]. subst w2. cbn [files figures shown] in *.
  rewrite Hfs in *. split; [reflexivity|]. now rewrite Hsh, Hsh2.
Qed.

Lemma main_reads_data_path_witness :
  let w := initial_world (only_file data_path example_csv) in
  let fs := fun p => if String.eqb p "./data/kawasaki.csv" then Some unsorted_csv
                     else only_file data_path example_csv p in
  let w2 := mkWorld fs (display_max_rows w) (display_precision w) (font_family w)
                    (heap w) (figures w) (shown w) in
  fs "./data/kawasaki.csv"%string = Some unsorted_csv /\
  files w "./data/kawasaki.csv" = None /\
  fst (main "px" w2) = fst (main "px" w) /\
  shown (snd (main "px" w2)) = shown (snd (main "px" w)).
Proof.
  split; [reflexivity|]. split; [reflexivity|].
  destruct (main_reads_data_path "px" (initial_world (only_file data_path example_csv)))
    as (_ & _ & _ & H).
  apply (H (fun p => if String.eqb p "./data/kawasaki.csv" then Some unsorted_csv
                     else only_file data_path example_csv p)).
  reflexivity.
Defined.

(** ** The loop over the years *)

Lemma year_df_columns (y : Z) (f c : DataFrame) : year_df y f = Ok c -> columns c = [CInt y].
Proof.
  unfold year_df. destruct (Pd.select_year y f) as [g|]; [|discriminate].
  destruct (Pd.set_index month_labels g) as [g1|]; [|discriminate].
  unfold Pd.set_columns. destruct (Nat.eqb _ _); [|discriminate].
  now intros [= <-].
Qed.

Lemma year_columns_columns (f : DataFrame) (ys : list Z) (acc t : DataFrame) :
  year_columns f acc ys = Ok t -> columns t = columns acc ++ map CInt ys.
Proof.
  revert acc. induction ys as [|y ys IH]; intros acc H; simpl in *.
  - injection H as <-. now rewrite app_nil_r.
  - destruct (year_df y f) as [c|] eqn:E; [|discriminate].
    rewrite (IH _ H). simpl. rewrite (year_df_columns y f c E).
    now rewrite <- app_assoc.
Qed.

Lemma year_columns_ok (f : DataFrame) (ys : list Z) (acc : DataFrame) :
  (forall y, In y ys -> exists c, year_df y f = Ok c) ->
  exists t, year_columns f acc ys = Ok t.
Proof.
  revert acc. induction ys as [|y ys IH]; intros acc H; simpl.
  - eauto.
  - destruct (H y (or_introl eq_refl)) as [c ->]. apply IH. intros; apply H; now right.
Qed.

Lemma year_columns_raise (agg : list cell -> cell) (f : DataFrame) (c : colname)
      (lo : Z) (n : nat) (ys : list Z) (acc : DataFrame) (x : exn) :
  year_columns (mkDataFrame [c] (map (Pd.bin_row agg f) (zrange lo n))) acc ys = Raise x ->
  x = ValueError.
Proof.
  revert acc. induction ys as [|y ys IH]; intros acc H; simpl in H; [discriminate|].
  destruct (Z_le_dec lo (12 * y)) as [Hlo|Hlo];
    [destruct (Z_le_dec (12 * y + 12) (lo + Z.of_nat n)) as [Hhi|Hhi]|].
  - rewrite year_df_complete in H by assumption. eauto.
  - rewrite year_df_incomplete in H by lia. congruence.
  - rewrite year_df_incomplete in H by lia. congruence.
Qed.

Lemma start_end_year_of (rs : csv) :
  rs <> [] ->
  exists s e,
    start_year_of rs = Some s /\ end_year_of rs = Some e /\
    In s (map (fun r => ts_year (fst r)) rs) /\ In e (map (fun r => ts_year (fst r)) rs) /\
    forall y, In y (map (fun r => ts_year (fst r)) rs) -> s <= y <= e.
Proof.
  intros Hne. destruct rs as [|r rs]; [congruence|].
  unfold start_year_of, end_year_of.
  destruct (Pd.min _) as [s|] eqn:Hs; [|discriminate].
  destruct (Pd.max _) as [e|] eqn:He; [|discriminate].
  destruct (min_spec _ _ Hs) as [Hs1 Hs2]. destruct (max_spec _ _ He) as [He1 He2].
  exists s, e. repeat split; auto.
Qed.

(** On a loaded frame the two tables are built or refused with ValueError. *)
Lemma rain_table_raise (rs : csv) (s e : Z) (x : exn) :
  rain_table (Some s) (Some e) (frame_of_csv rs) = Raise x -> x = ValueError.
Proof.
  unfold rain_table.
  destruct (resample_M_rows Pd.nansum (frame_of_csv rs) _ (stamps_frame_of_csv rs))
    as (lo & n & -> & _).
  simpl. apply year_columns_raise.
Qed.

Lemma days_table_raise (rf : Q) (rs : csv) (s e : Z) (x : exn) :
  days_table rf (Some s) (Some e) (frame_of_csv rs) = Raise x -> x = ValueError.
Proof.
  unfold days_table, rainy_days.
  rewrite (select_gt_precipitation rf (frame_of_csv rs) eq_refl). cbn [and_then].
  destruct (resample_M_rows Pd.count
              (mkDataFrame [precipitation] (List.filter (above rf) (rows (frame_of_csv rs))))
              _ (stamps_filter_above rf _ _ (stamps_frame_of_csv rs)))
    as (lo & n & -> & _).
  simpl. apply year_columns_raise.
Qed.


Lemma plot_data_ok (t t' : DataFrame) :
  Pd.plot_data t = Ok t' -> t' = t /\ columns t <> [].
Proof. unfold Pd.plot_data. destruct (columns t); [discriminate|intros [= <-]; now split]. Qed.







(** ** C4: the failures of a run *)




(** ** C6: the columns of the year table *)

Lemma run_index_year (w : world) (df : ref) (f : DataFrame) (ts : list Timestamp) :
  heap w !! df = Some f -> stamps (index f) = Some ts ->
  index_year_min df w = (Ok (Pd.min (map ts_year ts)), w) /\
  index_year_max df w = (Ok (Pd.max (map ts_year ts)), w).
Proof.
  intros Hdf Hts.
  unfold index_year_min, index_year_max, bind, deref, lift, ret, Pd.index_year.
  rewrite Hdf; simpl. now rewrite Hts.
Qed.

(** C6.  For a loaded series (a frame with a non-empty DatetimeIndex),
    [main]'s [start_year] and [end_year] are the least and the greatest
    year of the index, and whenever [year_table] assembles a table from an
    aggregate, the columns of the table are the years
    start_year, start_year + 1, ..., end_year - 1 in this order, one column
    each: the greatest year has no column.  The table is assembled when
    [create_year_df] accepts every year of that range. *)
Theorem year_table_columns (w : world) (df agg : ref) (f g : DataFrame)
        (ts : list Timestamp) :
  heap w !! df = Some f ->
  stamps (index f) = Some ts ->
  ts <> [] ->
  heap w !! agg = Some g ->
  exists s e,
    index_year_min df w = (Ok (Some s), w) /\
    index_year_max df w = (Ok (Some e), w) /\
    In s (map ts_year ts) /\ In e (map ts_year ts) /\
    (forall t, In t ts -> s <= ts_year t <= e) /\
    (forall r w', year_table agg (Some s) (Some e) w = (Ok r, w') ->
       exists t, heap w' !! r = Some t /\
                 columns t = map CInt (py_range s e) /\
                 (forall y, In (CInt y) (columns t) <-> s <= y < e)) /\
    ((forall y, s <= y < e -> exists c, year_df y g = Ok c) ->
     exists r w', year_table agg (Some s) (Some e) w = (Ok r, w')).
Proof.
  intros Hdf Hts Hne Hagg.
  destruct (run_index_year w df f ts Hdf Hts) as [Hmin Hmax].
  destruct ts as [|t0 ts]; [congruence|].
  destruct (Pd.min (map ts_year (t0 :: ts))) as [s|] eqn:Hs; [|discriminate].
  destruct (Pd.max (map ts_year (t0 :: ts))) as [e|] eqn:He; [|discriminate].
  destruct (min_spec _ _ Hs) as [Hs1 Hs2]. destruct (max_spec _ _ He) as [He1 He2].
  exists s, e. split; [exact Hmin|]. split; [exact Hmax|].
  split; [exact Hs1|]. split; [exact He1|]. split; [|split].
  - intros t Ht. split; [apply Hs2|apply He2]; now apply in_map.
  - intros r w' Hrun.
    destruct (computes_year_table w agg g (Some s) (Some e) Hagg) as (w1 & _ & H1).
    simpl in H1. destruct (year_columns g Pd.empty (py_range s e)) as [t|x] eqn:E.
    + destruct H1 as (r1 & H1 & Hr1). rewrite Hrun in H1. injection H1 as -> ->.
      exists t. split; [exact Hr1|].
      pose proof (year_columns_columns _ _ _ _ E) as Hc. simpl in Hc.
      split; [exact Hc|]. intros y. rewrite Hc, <- In_py_range, in_map_iff.
      split; [intros (y' & [= ->] & H); exact H|intros H; eauto].
    + rewrite Hrun in H1. discriminate.
  - intros Hall.
    destruct (computes_year_table w agg g (Some s) (Some e) Hagg) as (w1 & _ & H1).
    simpl in H1.
    destruct (year_columns_ok g (py_range s e) Pd.empty) as [t Ht].
    { intros y Hy. apply Hall. now apply In_py_range. }
    rewrite Ht in H1. destruct H1 as (r & H1 & _). eauto.
Qed.

Lemma year_table_columns_witness :
  let f := frame_of_csv full_year_csv in
  let w := set_heap [f; full_year_totals] (initial_world (fun _ => None)) in
  (heap w !! 0%nat = Some f /\
   stamps (index f) = Some (map fst full_year_csv) /\
   map fst full_year_csv <> [] /\
   heap w !! 1%nat = Some full_year_totals) /\
  exists s e,
    index_year_min 0%nat w = (Ok (Some s), w) /\
    index_year_max 0%nat w = (Ok (Some e), w) /\
    s = 2020 /\ e = 2021 /\
    exists r w' t,
      year_table 1%nat (Some s) (Some e) w = (Ok r, w') /\ heap w' !! r = Some t /\
      columns t = [CInt 2020].
Proof.
  split; [repeat split; discriminate|].
  destruct (year_table_columns
              (set_heap [frame_of_csv full_year_csv; full_year_totals]
                        (initial_world (fun _ => None)))
              0%nat 1%nat (frame_of_csv full_year_csv) full_year_totals
              (map fst full_year_csv) eq_refl eq_refl ltac:(discriminate) eq_refl)
    as (s & e & Hmin & Hmax & _ & _ & _ & Hcols & Hok).
  exists s, e. split; [exact Hmin|]. split; [exact Hmax|].
  assert (Hs : s = 2020) by (vm_compute in Hmin; congruence).
  assert (He : e = 2021) by (vm_compute in Hmax; congruence).
  split; [exact Hs|]. split; [exact He|]. subst s e.
  destruct Hok as (r & w' & Hrun).
  { intros y Hy. assert (y = 2020) as -> by lia. vm_compute. eauto. }
  destruct (Hcols r w' Hrun) as (t & Ht & Hc & _).
  exists r, w', t. split; [exact Hrun|]. split; [exact Ht|exact Hc].
Defined.

(** ** C8: aggregation is repeatable and mutates nothing *)

Lemma grows_keeps_objects (w w' : world) : grows w w' -> keeps_objects w w'.
Proof. intros Hg r f. now apply grows_lookup. Qed.

Lemma computes_keeps_objects (m : M ref) (w : world) (p : result DataFrame) :
  computes m w p -> keeps_objects w (snd (m w)).
Proof.
  intros (w' & Hg & H). destruct p as [g|x].
  - destruct H as (r & -> & _). now apply grows_keeps_objects.
  - rewrite H. now apply grows_keeps_objects.
Qed.

Lemma computes_same_twice (m : M ref) (w : world) (p : result DataFrame) :
  (forall w1, grows w w1 -> computes m w1 p) -> same_twice m w p.
Proof.
  intros H. destruct (H w (grows_refl w)) as (w1 & Hg1 & H1).
  destruct (H w1 Hg1) as (w2 & Hg2 & H2).
  exists w1, w2. split; [apply grows_keeps_objects; eapply grows_trans; eauto|].
  destruct p as [g|x]; [|now split].
  destruct H1 as (r1 & H1 & Hr1). destruct H2 as (r2 & H2 & Hr2).
  exists r1, r2. repeat split; try assumption. eapply grows_lookup; eauto.
Qed.

Lemma main_outcome_raise_pending (content : option csv) (graph_type : string)
      (p q : list figure) (x : exn) :
  fst (main_outcome content graph_type p) = Raise x ->
  main_outcome content graph_type q = main_outcome content graph_type p.
Proof.
  unfold main_outcome, render_outcome.
  destruct content as [[|r rs]|]; try reflexivity.
  destruct (String.eqb graph_type "plt"); [|reflexivity].
  destruct (and_then (rain_table _ _ _) _); [|reflexivity].
  destruct (and_then (days_table _ _ _ _) _); [discriminate|reflexivity].
Qed.

(** C8.  For a frame [f] behind the reference [df]:
    - two successive calls of [monthly_total], and of
      [monthly_rainy_days], return the same table (or raise the same
      exception), and leave [f] and every other object as they were;
    - [create_year_df] and [year_table] leave the aggregate they are
      given, and every other object, as they were;
    - a second run of [main] on the state left by a first run, the file
      being unchanged, returns what the first returned and displays the
      same figures again. *)
Theorem aggregation_is_repeatable (w : world) (df : ref) (f : DataFrame) (rf : Q)
        (graph_type : string) :
  heap w !! df = Some f ->
  same_twice (monthly_total df) w (Pd.resample_M Pd.nansum f) /\
  same_twice (monthly_rainy_days df rf) w (rainy_days rf f) /\
  (forall y, keeps_objects w (snd (create_year_df df y w))) /\
  (forall s e, keeps_objects w (snd (year_table df s e w))) /\
  (figures w = [] ->
   exists figs,
     fst (main graph_type (snd (main graph_type w))) = fst (main graph_type w) /\
     shown (snd (main graph_type w)) = shown w ++ figs /\
     shown (snd (main graph_type (snd (main graph_type w)))) =
       shown (snd (main graph_type w)) ++ figs /\
     keeps_objects w (snd (main graph_type (snd (main graph_type w))))).
Proof.
  intros Hdf. split; [|split; [|split; [|split]]].
  - apply computes_same_twice. intros w1 Hg.
    apply computes_monthly_total. eapply grows_lookup; eauto.
  - apply computes_same_twice. intros w1 Hg.
    apply computes_monthly_rainy_days. eapply grows_lookup; eauto.
  - intros y. eapply computes_keeps_objects.
    apply (computes_create_year_df w df f y Hdf).
  - intros s e. eapply computes_keeps_objects.
    apply (computes_year_table w df f s e Hdf).
  - intros Hfig.
    destruct (main_run graph_type w) as (w1 & Hrun1 & Hsh1 & Hfl1 & _ & _ & [x1 Hh1] & Hfg1).
    rewrite Hrun1. cbn [fst snd].
    destruct (main_run graph_type w1) as (w2 & Hrun2 & Hsh2 & _ & _ & _ & [x2 Hh2] & _).
    rewrite Hrun2. cbn [fst snd]. rewrite Hfl1 in *. rewrite Hfig in *.
    exists (snd (main_outcome (files w data_path) graph_type [])).
    assert (E : main_outcome (files w data_path) graph_type (figures w1) =
                main_outcome (files w data_path) graph_type []).
    { destruct (fst (main_outcome (files w data_path) graph_type [])) as [[]|x] eqn:Ho.
      - rewrite (Hfg1 eq_refl). now destruct (String.eqb graph_type "plt").
      - eapply main_outcome_raise_pending; eauto. }
    rewrite E in *. split; [reflexivity|]. split; [exact Hsh1|]. split; [exact Hsh2|].
    intros r0 f0 H0. rewrite Hh2, Hh1, <- app_assoc. now apply lookup_app_l_Some.
Qed.

Lemma aggregation_is_repeatable_witness :
  let f := frame_of_csv example_csv in
  let w := set_heap [f] (initial_world (only_file data_path full_year_csv)) in
  heap w !! 0%nat = Some f /\
  same_twice (monthly_total 0%nat) w (Pd.resample_M Pd.nansum f) /\
  exists figs,
    fst (main "px" (snd (main "px" w))) = fst (main "px" w) /\
    shown (snd (main "px" w)) = shown w ++ figs /\
    shown (snd (main "px" (snd (main "px" w)))) = shown (snd (main "px" w)) ++ figs.
Proof.
  split; [reflexivity|].
  destruct (aggregation_is_repeatable
              (set_heap [frame_of_csv example_csv]
                        (initial_world (only_file data_path full_year_csv)))
              0%nat (frame_of_csv example_csv) 0 "px" eq_refl)
    as (Hsum & _ & _ & _ & Hmain).
  split; [exact Hsum|].
  destruct (Hmain eq_refl) as (figs & H1 & H2 & H3 & _).
  exists figs. split; [exact H1|]. split; [exact H2|exact H3].
Defined.

(** ** C10: the two thresholds *)

Lemma filter_length_lt {A} (p q : A -> bool) (l : list A) (a : A) :
  (forall x, p x = true -> q x = true) ->
  In a l -> q a = true -> p a = false ->
  (length (List.filter p l) < length (List.filter q l))%nat.
Proof.
  intros Hpq. 
  assert (Hle : forall l', (length (List.filter p l') <= length (List.filter q l'))%nat).
  { induction l' as [|x l' IH]; simpl; [lia|].
    destruct (p x) eqn:Hp; [rewrite (Hpq x Hp); simpl; lia|].
    destruct (q x); simpl; lia. }
  induction l as [|x l IH]; intros Hin Hq Hp; [contradiction|].
  simpl. destruct Hin as [->|Hin].
  - rewrite Hq, Hp. simpl. specialize (Hle l). lia.
  - specialize (IH Hin Hq Hp).
    destruct (p x) eqn:Hpx; [rewrite (Hpq x Hpx); simpl; lia|].
    destruct (q x); simpl; lia.
Qed.

Lemma cell_gt_1_0 (c : cell) : cell_gt c 1 = true -> cell_gt c 0 = true.
Proof.
  destruct c as [|q]; simpl; [discriminate|].
  rewrite !negb_true_iff. intros H.
  destruct (Qle_bool q 0) eqn:E; [|reflexivity].
  apply Qle_bool_iff in E.
  assert (Qle_bool q 1 = true) as H1; [|congruence].
  apply Qle_bool_iff. apply Qle_trans with 0%Q; [assumption|discriminate].
Qed.

Lemma cell_gt_between (v : Q) :
  (0 < v)%Q -> (v <= 1)%Q -> cell_gt (Num v) 0 = true /\ cell_gt (Num v) 1 = false.
Proof.
  intros H0 H1. simpl. split.
  - apply negb_true_iff. destruct (Qle_bool v 0) eqn:E; [|reflexivity].
    apply Qle_bool_iff in E. exfalso. exact (Qlt_not_le _ _ H0 E).
  - apply negb_false_iff. now apply Qle_bool_iff.
Qed.

(** A day with a value in (0, 1] is counted with the threshold 0 and not
    with the threshold 1. *)
Lemma days_above_lt (f : DataFrame) (t : Timestamp) (cs : list cell) (v : Q) :
  In (Stamp t, cs) (rows f) -> nth 0 cs NaN = Num v -> (0 < v)%Q -> (v <= 1)%Q ->
  (days_above 1 f (ts_year t) (ts_month t) < days_above 0 f (ts_year t) (ts_month t))%nat.
Proof.
  intros Hin Hv H0 H1. destruct (cell_gt_between v H0 H1) as [Hg0 Hg1].
  unfold days_above. apply filter_length_lt with (a := Num v); auto using cell_gt_1_0.
  unfold month_cells, column_at. rewrite map_map.
  apply in_map_iff. exists (Stamp t, cs). split; [exact Hv|].
  apply filter_In. split; [exact Hin|].
  unfold in_month; simpl. now rewrite !Z.eqb_refl.
Qed.

Lemma In_stamps_above (rf : Q) (f : DataFrame) (t : Timestamp) (cs : list cell) :
  In (Stamp t, cs) (rows f) -> cell_gt (nth 0 cs NaN) rf = true -> In t (stamps_above rf f).
Proof.
  intros Hin Hgt. unfold stamps_above. apply in_flat_map.
  exists (Stamp t, cs). split; [exact Hin|]. simpl. rewrite Hgt. now left.
Qed.

(** The table of rainy days of a loaded frame, as a monthly table. *)
Lemma rainy_days_rows (rf : Q) (f : DataFrame) (ts : list Timestamp) :
  columns f = [precipitation] -> stamps (index f) = Some ts ->
  exists lo n,
    rainy_days rf f =
    Ok (mkDataFrame [precipitation]
          (map (Pd.bin_row Pd.count
                  (mkDataFrame [precipitation] (List.filter (above rf) (rows f))))
               (zrange lo n))).
Proof.
  intros Hc Hts. unfold rainy_days. rewrite (select_gt_precipitation rf f Hc).
  cbn [and_then].
  destruct (resample_M_rows Pd.count
              (mkDataFrame [precipitation] (List.filter (above rf) (rows f)))
              _ (stamps_filter_above rf f ts Hts))
    as (lo & n & -> & _).
  now exists lo, n.
Qed.

(** The entries of the table of rainy days. *)
Lemma rainy_days_entries (rf : Q) (f g : DataFrame) (ts : list Timestamp) :
  columns f = [precipitation] -> stamps (index f) = Some ts ->
  forallb valid_date ts = true ->
  rainy_days rf f = Ok g ->
  (forall y m, 1 <= m <= 12 -> in_span y m (stamps_above rf f) = true ->
     entry g y m = Some [Num (inject_Z (Z.of_nat (days_above rf f y m)))]) /\
  (forall y m, in_span y m (stamps_above rf f) = false -> entry g y m = None).
Proof.
  intros Hc Hts Hv Hg. unfold rainy_days in Hg.
  rewrite (select_gt_precipitation rf f Hc) in Hg. cbn [and_then] in Hg.
  set (f' := mkDataFrame [precipitation] (List.filter (above rf) (rows f))) in *.
  assert (Hts' : stamps (index f') = Some (stamps_above rf f))
    by (apply (stamps_filter_above rf f ts Hts)).
  assert (Hv' : forallb valid_date (stamps_above rf f) = true).
  { apply forallb_forall. intros t Ht. rewrite forallb_forall in Hv.
    apply Hv. now apply (stamps_above_incl rf f ts Hts). }
  destruct (resample_M_entries Pd.count f' g precipitation _ eq_refl Hts' Hv' Hg)
    as [Hin Hout].
  split; [|exact Hout].
  intros y m Hm Hs. rewrite (Hin y m Hm Hs).
  unfold Pd.count, month_cells, days_above, month_cells, f'; cbn [rows].
  now rewrite count_filtered_month.
Qed.

(** The aggregates of the two paths differ at the month of a day with a
    value in (0, 1]. *)
Lemma rainy_days_differ (f : DataFrame) (ts : list Timestamp) (t : Timestamp)
      (cs : list cell) (v : Q) :
  columns f = [precipitation] -> stamps (index f) = Some ts ->
  forallb valid_date ts = true ->
  In (Stamp t, cs) (rows f) -> nth 0 cs NaN = Num v -> (0 < v)%Q -> (v <= 1)%Q ->
  exists g1 g0,
    rainy_days 1 f = Ok g1 /\ rainy_days 0 f = Ok g0 /\
    entry g0 (ts_year t) (ts_month t) =
      Some [Num (inject_Z (Z.of_nat (days_above 0 f (ts_year t) (ts_month t))))] /\
    (entry g1 (ts_year t) (ts_month t) = None \/
     entry g1 (ts_year t) (ts_month t) =
       Some [Num (inject_Z (Z.of_nat (days_above 1 f (ts_year t) (ts_month t))))]) /\
    (days_above 1 f (ts_year t) (ts_month t) < days_above 0 f (ts_year t) (ts_month t))%nat /\
    entry g1 (ts_year t) (ts_month t) <> entry g0 (ts_year t) (ts_month t).
Proof.
  intros Hc Hts Hv Hin Hval H0 H1.
  destruct (rainy_days_rows 1 f ts Hc Hts) as (lo1 & n1 & Hg1).
  destruct (rainy_days_rows 0 f ts Hc Hts) as (lo0 & n0 & Hg0).
  destruct (rainy_days_entries 1 f _ ts Hc Hts Hv Hg1) as [Hin1 Hout1].
  destruct (rainy_days_entries 0 f _ ts Hc Hts Hv Hg0) as [Hin0 _].
  eexists _, _. split; [exact Hg1|]. split; [exact Hg0|].
  assert (Hm : 1 <= ts_month t <= 12).
  { rewrite forallb_forall in Hv. apply valid_date_month, Hv.
    destruct (stamps_In _ _ Hts _ Hin) as (t' & [= <-] & Ht'). exact Ht'. }
  pose proof (days_above_lt f t cs v Hin Hval H0 H1) as Hlt.
  assert (E0 : entry _ (ts_year t) (ts_month t) = _) by
    (apply (Hin0 (ts_year t) (ts_month t) Hm), in_span_self,
       (In_stamps_above 0 f t cs Hin); rewrite Hval; apply (cell_gt_between v H0 H1)).
  split; [exact E0|]. rewrite E0.
  destruct (in_span (ts_year t) (ts_month t) (stamps_above 1 f)) eqn:Hs.
  - rewrite (Hin1 _ _ Hm Hs). split; [now right|]. split; [exact Hlt|].
    intros [= H]. lia.
  - rewrite (Hout1 _ _ Hs). split; [now left|]. split; [exact Hlt|discriminate].
Qed.

(** ** The rows of the year table *)

Lemma concat_empty (b : DataFrame) : Pd.concat_axis1 Pd.empty b = b.
Proof.
  destruct b as [cols rs]. unfold Pd.concat_axis1; simpl. f_equal.
  destruct (Pd.labels_eqb _ _) eqn:E.
  - destruct rs; [reflexivity|discriminate].
  - clear E. induction rs as [|[l cs] rs IH]; simpl; [reflexivity|]. now f_equal.
Qed.

Lemma concat_month_labels (a b : DataFrame) :
  index a = month_labels -> index b = month_labels ->
  Pd.concat_axis1 a b = mkDataFrame (columns a ++ columns b) (zip_rows (rows a) (rows b)).
Proof. intros Ha Hb. unfold Pd.concat_axis1. rewrite Ha, Hb. reflexivity. Qed.

Lemma zip_rows_index (a b : list (label * list cell)) :
  length a = length b -> map fst (zip_rows a b) = map fst a.
Proof.
  revert b. induction a as [|x a IH]; intros [|y b] H; simpl in *; try discriminate.
  - reflexivity.
  - f_equal. apply IH. now injection H.
Qed.

Lemma zip_rows_width (k : nat) (a b : list (label * list cell)) :
  Forall (fun r => length (snd r) = k) a ->
  Forall (fun r => length (snd r) = 1%nat) b ->
  Forall (fun r => length (snd r) = S k) (zip_rows a b).
Proof.
  intros Ha. revert b. induction Ha as [|x a Hx Ha IH]; intros b Hb; [constructor|].
  destruct Hb as [|y b Hy Hb]; [constructor|].
  unfold zip_rows; simpl. constructor.
  - simpl. rewrite length_app. lia.
  - now apply IH.
Qed.

Lemma zip_rows_left (k j : nat) (a b : list (label * list cell)) :
  length a = length b ->
  Forall (fun r => length (snd r) = k) a -> (j < k)%nat ->
  column_at j (map snd (zip_rows a b)) = column_at j (map snd a).
Proof.
  intros Hl Ha Hj. revert b Hl.
  induction Ha as [|x a Hx Ha IH]; intros [|y b] Hl; simpl in *; try discriminate.
  - reflexivity.
  - f_equal; [|apply IH; now injection Hl]. apply app_nth1. lia.
Qed.

Lemma zip_rows_right (k : nat) (a b : list (label * list cell)) :
  length a = length b ->
  Forall (fun r => length (snd r) = k) a ->
  column_at k (map snd (zip_rows a b)) = column_at 0 (map snd b).
Proof.
  intros Hl Ha. revert b Hl.
  induction Ha as [|x a Hx Ha IH]; intros [|y b] Hl; simpl in *; try discriminate.
  - reflexivity.
  - f_equal; [|apply IH; now injection Hl].
    rewrite app_nth2 by lia. now rewrite Hx, Nat.sub_diag.
Qed.

Lemma regular_empty : regular 0 Pd.empty.
Proof. repeat split; try constructor. intros H. now contradiction H. Qed.

Lemma regular_year_frame (agg : list cell -> cell) (f : DataFrame) (c : colname) (y : Z) :
  columns f = [c] -> regular 1 (year_frame agg f y).
Proof.
  intros Hc. split; [reflexivity|]. split; [|split; [discriminate|]].
  - unfold year_frame, Pd.bin_row; cbn [rows]. rewrite Hc. simpl.
    repeat constructor.
  - intros _. apply year_frame_index.
Qed.

(** One step of the loop on a table that is regular. *)
Lemma concat_year_frame (agg : list cell -> cell) (f : DataFrame) (c : colname) (y : Z)
      (k : nat) (acc : DataFrame) :
  columns f = [c] -> regular k acc ->
  regular (S k) (Pd.concat_axis1 acc (year_frame agg f y)) /\
  (forall j, (j < k)%nat ->
     column_at j (map snd (rows (Pd.concat_axis1 acc (year_frame agg f y)))) =
     column_at j (map snd (rows acc))) /\
  column_at k (map snd (rows (Pd.concat_axis1 acc (year_frame agg f y)))) =
  column_at 0 (map snd (rows (year_frame agg f y))).
Proof.
  intros Hc (Hcols & Hw & H0 & Hidx).
  pose proof (regular_year_frame agg f c y Hc) as (_ & Hw1 & _ & _).
  destruct k as [|k].
  - destruct acc as [cols rs]; simpl in *.
    destruct cols; [|discriminate]. rewrite (H0 eq_refl).
    change (mkDataFrame [] []) with Pd.empty. rewrite concat_empty.
    split; [now apply (regular_year_frame agg f c)|]. split; [intros j Hj; lia|reflexivity].
  - specialize (Hidx ltac:(discriminate)).
    rewrite (concat_month_labels _ _ Hidx (year_frame_index agg f y)). cbn [rows columns].
    assert (Hl : length (rows acc) = length (rows (year_frame agg f y))).
    { rewrite <- (length_map fst (rows acc)), <- (length_map fst (rows (year_frame agg f y))).
      fold (index acc). fold (index (year_frame agg f y)).
      now rewrite Hidx, year_frame_index. }
    split; [|split].
    + unfold regular. cbn [rows columns].
      split; [|split; [|split; [discriminate|]]].
      * rewrite length_app, Hcols. simpl. lia.
      * now apply zip_rows_width.
      * intros _. unfold index; cbn [rows]. now rewrite zip_rows_index.
    + intros j Hj. now apply (zip_rows_left (S k)).
    + now apply (zip_rows_right (S k)).
Qed.

Lemma year_df_ok_complete (agg : list cell -> cell) (f : DataFrame) (c : colname)
      (lo : Z) (n : nat) (y : Z) (d : DataFrame) :
  year_df y (mkDataFrame [c] (map (Pd.bin_row agg f) (zrange lo n))) = Ok d ->
  (lo <= 12 * y /\ 12 * y + 12 <= lo + Z.of_nat n) /\ d = year_frame agg f y.
Proof.
  intros H.
  destruct (Z_le_dec lo (12 * y)) as [Hlo|Hlo];
    [destruct (Z_le_dec (12 * y + 12) (lo + Z.of_nat n)) as [Hhi|Hhi]|].
  - rewrite year_df_complete in H by assumption. split; [now split|congruence].
  - rewrite year_df_incomplete in H by lia. discriminate.
  - rewrite year_df_incomplete in H by lia. discriminate.
Qed.

(** The table the loop builds from a monthly table: column [k + j] holds
    the twelve months of the [j]-th year, every year being complete. *)
Lemma year_columns_regular (agg : list cell -> cell) (f : DataFrame) (c c' : colname)
      (lo : Z) (n : nat) (ys : list Z) :
  columns f = [c] ->
  forall (k : nat) (acc t : DataFrame),
    regular k acc ->
    year_columns (mkDataFrame [c'] (map (Pd.bin_row agg f) (zrange lo n))) acc ys = Ok t ->
    regular (k + length ys) t /\
    (forall j, (j < k)%nat ->
       column_at j (map snd (rows t)) = column_at j (map snd (rows acc))) /\
    (forall j y, nth_error ys j = Some y ->
       (lo <= 12 * y /\ 12 * y + 12 <= lo + Z.of_nat n) /\
       column_at (k + j) (map snd (rows t)) =
       column_at 0 (map snd (rows (year_frame agg f y)))).
Proof.
  intros Hc. induction ys as [|y ys IH]; intros k acc t Hreg H; simpl in H.
  - injection H as <-. rewrite Nat.add_0_r. split; [exact Hreg|].
    split; [reflexivity|]. intros [|j] y Hy; discriminate.
  - destruct (year_df y _) as [d|] eqn:Hd; [|discriminate].
    destruct (year_df_ok_complete _ _ _ _ _ _ _ Hd) as [Hcomplete ->].
    destruct (concat_year_frame agg f c y k acc Hc Hreg) as (Hreg' & Hleft & Hright).
    destruct (IH (S k) _ t Hreg' H) as (Hregt & Hl & Hr).
    split; [|split].
    + simpl length. now rewrite Nat.add_succ_r.
    + intros j Hj. rewrite Hl by lia. now apply Hleft.
    + intros [|j] y' Hy'; simpl in Hy'.
      * injection Hy' as <-. split; [exact Hcomplete|].
        rewrite Nat.add_0_r, Hl by lia. exact Hright.
      * destruct (Hr j y' Hy') as [Hcy Hcol]. split; [exact Hcy|].
        rewrite Nat.add_succ_r. exact Hcol.
Qed.

Lemma year_frame_column (agg : list cell -> cell) (f : DataFrame) (c : colname)
      (y : Z) (i : nat) :
  columns f = [c] -> (i < 12)%nat ->
  nth_error (column_at 0 (map snd (rows (year_frame agg f y)))) i =
  Some (agg (column_at 0 (Pd.bin (12 * y + Z.of_nat i) f))) /\
  snd (Pd.bin_row agg f (12 * y + Z.of_nat i)) =
  [agg (column_at 0 (Pd.bin (12 * y + Z.of_nat i) f))].
Proof.
  intros Hc Hi. unfold column_at at 1.
  rewrite nth_error_map, year_frame_rows by assumption.
  unfold Pd.bin_row; cbn [snd]. rewrite Hc. split; reflexivity.
Qed.

(** The tables of the two paths differ in the column of a year that is
    displayed and has a day with a value in (0, 1]. *)
Lemma days_tables_differ (f : DataFrame) (ts : list Timestamp) (t : Timestamp)
      (cs : list cell) (v : Q) (s e : Z) (t1 t0 : DataFrame) :
  columns f = [precipitation] -> stamps (index f) = Some ts ->
  forallb valid_date ts = true ->
  In (Stamp t, cs) (rows f) -> nth 0 cs NaN = Num v -> (0 < v)%Q -> (v <= 1)%Q ->
  s <= ts_year t < e ->
  days_table 1 (Some s) (Some e) f = Ok t1 ->
  days_table 0 (Some s) (Some e) f = Ok t0 ->
  t1 <> t0.
Proof.
  intros Hc Hts Hv Hin Hval H0 H1 Hy Ht1 Ht0 Heq.
  destruct (rainy_days_differ f ts t cs v Hc Hts Hv Hin Hval H0 H1)
    as (g1 & g0 & Hg1 & Hg0 & _ & _ & _ & Hne).
  destruct (rainy_days_rows 1 f ts Hc Hts) as (lo1 & n1 & Hr1).
  destruct (rainy_days_rows 0 f ts Hc Hts) as (lo0 & n0 & Hr0).
  rewrite Hg1 in Hr1. injection Hr1 as ->. rewrite Hg0 in Hr0. injection Hr0 as ->.
  unfold days_table in Ht1, Ht0. rewrite Hg1 in Ht1. rewrite Hg0 in Ht0.
  cbn [and_then year_table_of] in Ht1, Ht0.
  set (f1 := mkDataFrame [precipitation] (List.filter (above 1) (rows f))) in *.
  set (f0 := mkDataFrame [precipitation] (List.filter (above 0) (rows f))) in *.
  assert (Hm : 1 <= ts_month t <= 12).
  { rewrite forallb_forall in Hv. apply valid_date_month, Hv.
    destruct (stamps_In _ _ Hts _ Hin) as (t' & [= <-] & Ht'). exact Ht'. }
  set (j := Z.to_nat (ts_year t - s)). set (i := Z.to_nat (ts_month t - 1)).
  assert (Hj : nth_error (py_range s e) j = Some (ts_year t)).
  { unfold py_range. rewrite nth_error_zrange by lia. f_equal. lia. }
  destruct (year_columns_regular Pd.count f1 precipitation precipitation lo1 n1 _ eq_refl
              0%nat Pd.empty t1 regular_empty Ht1) as (_ & _ & Hcol1).
  destruct (year_columns_regular Pd.count f0 precipitation precipitation lo0 n0 _ eq_refl
              0%nat Pd.empty t0 regular_empty Ht0) as (_ & _ & Hcol0).
  destruct (Hcol1 j _ Hj) as [Hc1 E1]. destruct (Hcol0 j _ Hj) as [Hc0 E0].
  rewrite Heq, E0 in E1.
  assert (Hi : (i < 12)%nat) by lia.
  destruct (year_frame_column Pd.count f1 precipitation (ts_year t) i eq_refl Hi) as [A1 B1].
  destruct (year_frame_column Pd.count f0 precipitation (ts_year t) i eq_refl Hi) as [A0 B0].
  rewrite <- E1, A0 in A1.
  replace (12 * ts_year t + Z.of_nat i) with (12 * ts_year t + (ts_month t - 1)) in * by lia.
  apply Hne.
  rewrite (proj1 (entry_bin_rows Pd.count f1 [precipitation] _ _ _ Hm)),
          (proj1 (entry_bin_rows Pd.count f0 [precipitation] _ _ _ Hm)).
  - rewrite B1, B0. congruence.
  - apply In_zrange. lia.
  - apply In_zrange. lia.
Qed.

Lemma main_outcome_plt_ok (rs : csv) (pending : list figure) :
  fst (main_outcome (Some rs) "plt" pending) = Ok tt ->
  exists T1 t1,
    rain_table (start_year_of rs) (end_year_of rs) (frame_of_csv rs) = Ok T1 /\
    days_table 1 (start_year_of rs) (end_year_of rs) (frame_of_csv rs) = Ok t1 /\
    snd (main_outcome (Some rs) "plt" pending) =
      pending ++ [rain_fall_figure T1; rainy_days_figure t1].
Proof.
  unfold main_outcome. destruct rs as [|r rs]; [discriminate|].
  unfold render_outcome. change (String.eqb "plt" "plt") with true. cbv iota.
  destruct (rain_table _ _ _) as [T1|]; [|discriminate]. cbn [and_then].
  destruct (Pd.plot_data T1) as [T1'|] eqn:P1; [|discriminate].
  apply plot_data_ok in P1 as [-> _].
  destruct (days_table _ _ _ _) as [t1|]; [|discriminate]. cbn [and_then].
  destruct (Pd.plot_data t1) as [t1'|] eqn:P2; [|discriminate].
  apply plot_data_ok in P2 as [-> _]. eauto.
Qed.

Lemma main_outcome_px_ok (rs : csv) (pending : list figure) :
  fst (main_outcome (Some rs) "px" pending) = Ok tt ->
  exists T0 t0,
    rain_table (start_year_of rs) (end_year_of rs) (frame_of_csv rs) = Ok T0 /\
    days_table 0 (start_year_of rs) (end_year_of rs) (frame_of_csv rs) = Ok t0 /\
    snd (main_outcome (Some rs) "px" pending) =
      [original_data_chart (frame_of_csv rs); rain_amount_chart T0; rainy_days_chart t0].
Proof.
  unfold main_outcome. destruct rs as [|r rs]; [discriminate|].
  unfold render_outcome. change (String.eqb "px" "plt") with false. cbv iota.
  destruct (rain_table _ _ _) as [T0|]; [|discriminate].
  destruct (days_table _ _ _ _) as [t0|]; [|discriminate]. eauto.
Qed.

(** C10, counterexample.  The record has a day with 0.5 mm, on 3 January
    2021, but 2021 is its last year and has no column: the table of rainy
    days the mode 'plt' displays and the one the mode 'px' displays are the
    same table. *)
Lemma same_counts_displayed_example :
  let w := initial_world (only_file data_path full_year_csv) in
  In (mkTimestamp 2021 1 3, Num (1 # 2)) full_year_csv /\
  (0 < 1 # 2)%Q /\ (1 # 2 <= 1)%Q /\
  exists T t,
    main "plt" w = (Ok tt, snd (main "plt" w)) /\
    main "px" w = (Ok tt, snd (main "px" w)) /\
    shown (snd (main "plt" w)) = [rain_fall_figure T; rainy_days_figure t] /\
    shown (snd (main "px" w)) =
      [original_data_chart (frame_of_csv full_year_csv); rain_amount_chart T;
       rainy_days_chart t].
Proof.
  split; [apply in_or_app; right; now left|].
  split; [reflexivity|]. split; [discriminate|].
  eexists _, _.
  split; [vm_compute; reflexivity|]. split; [vm_compute; reflexivity|].
  split; vm_compute; reflexivity.
Qed.

(** C10, as the code has it.  [main] calls the matplotlib path with the
    threshold 1 and the plotly path counts with the constant threshold 0.
    For a loaded series of valid dates with a day whose value is in (0, 1]:
    - the monthly aggregates of the two paths differ at the month of that
      day: with the threshold 0 the month has the number of its days above
      0 as entry, with the threshold 1 it has no entry or a smaller count;
    - when the year of that day is before the last year of the series, so
      that it has a column, and both modes complete their run, the tables
      of rainy days they display differ. *)
Theorem rainy_day_counts_differ (w : world) (rs : csv) (t : Timestamp) (v : Q) (e : Z) :
  files w data_path = Some rs ->
  forallb valid_date (map fst rs) = true ->
  In (t, Num v) rs -> (0 < v)%Q -> (v <= 1)%Q ->
  (exists g1 g0,
     rainy_days 1 (frame_of_csv rs) = Ok g1 /\
     rainy_days 0 (frame_of_csv rs) = Ok g0 /\
     entry g0 (ts_year t) (ts_month t) =
       Some [Num (inject_Z (Z.of_nat
                    (days_above 0 (frame_of_csv rs) (ts_year t) (ts_month t))))] /\
     (entry g1 (ts_year t) (ts_month t) = None \/
      entry g1 (ts_year t) (ts_month t) =
        Some [Num (inject_Z (Z.of_nat
                     (days_above 1 (frame_of_csv rs) (ts_year t) (ts_month t))))]) /\
     (days_above 1 (frame_of_csv rs) (ts_year t) (ts_month t) <
      days_above 0 (frame_of_csv rs) (ts_year t) (ts_month t))%nat /\
     g1 <> g0) /\
  (figures w = [] -> end_year_of rs = Some e -> ts_year t < e ->
   fst (main "plt" w) = Ok tt -> fst (main "px" w) = Ok tt ->
   exists T t1 t0,
     days_table 1 (start_year_of rs) (end_year_of rs) (frame_of_csv rs) = Ok t1 /\
     days_table 0 (start_year_of rs) (end_year_of rs) (frame_of_csv rs) = Ok t0 /\
     shown (snd (main "plt" w)) = shown w ++ [rain_fall_figure T; rainy_days_figure t1] /\
     shown (snd (main "px" w)) =
       shown w ++ [original_data_chart (frame_of_csv rs); rain_amount_chart T;
                   rainy_days_chart t0] /\
     t1 <> t0).
Proof.
  intros Hfile Hv Hin H0 H1.
  assert (Hrow : In (Stamp t, [Num v]) (rows (frame_of_csv rs))).
  { unfold frame_of_csv; cbn [rows]. apply in_map_iff. exists (t, Num v). now split. }
  pose proof (stamps_frame_of_csv rs) as Hts.
  split.
  - destruct (rainy_days_differ (frame_of_csv rs) _ t [Num v] v eq_refl Hts Hv Hrow
                eq_refl H0 H1) as (g1 & g0 & Hg1 & Hg0 & E0 & E1 & Hlt & Hne).
    exists g1, g0. repeat split; try assumption. intros ->. now apply Hne.
  - intros Hfig He Hlast Hplt Hpx.
    assert (Hne : rs <> []) by (intros ->; contradiction).
    destruct (start_end_year_of rs Hne) as (s & e' & Hs & He' & _ & _ & Hb).
    rewrite He in He'. injection He' as <-.
    assert (Hy : s <= ts_year t < e).
    { split; [|exact Hlast]. apply Hb, in_map_iff. exists (t, Num v). now split. }
    destruct (main_run "plt" w) as (w1 & Hrun1 & Hsh1 & _).
    destruct (main_run "px" w) as (w0 & Hrun0 & Hsh0 & _).
    rewrite Hrun1 in Hplt |- *. rewrite Hrun0 in Hpx |- *. cbn [fst snd] in *.
    rewrite Hfile, Hfig in *.
    destruct (main_outcome_plt_ok rs [] Hplt) as (T1 & t1 & HT1 & Ht1 & E1).
    destruct (main_outcome_px_ok rs [] Hpx) as (T0 & t0 & HT0 & Ht0 & E0).
    rewrite HT1 in HT0. injection HT0 as <-.
    exists T1, t1, t0. split; [exact Ht1|]. split; [exact Ht0|].
    split; [now rewrite Hsh1, E1|]. split; [now rewrite Hsh0, E0|].
    rewrite Hs, He in Ht1, Ht0.
    apply (days_tables_differ (frame_of_csv rs) _ t [Num v] v s e t1 t0 eq_refl Hts Hv
             Hrow eq_refl H0 H1 Hy Ht1 Ht0).
Qed.

Lemma rainy_day_counts_differ_witness :
  let w := initial_world (only_file data_path drizzle_csv) in
  let t := mkTimestamp 2020 3 20 in
  (files w data_path = Some drizzle_csv /\
   forallb valid_date (map fst drizzle_csv) = true /\
   In (t, Num (1 # 2)) drizzle_csv /\ (0 < 1 # 2)%Q /\ (1 # 2 <= 1)%Q /\
   figures w = [] /\ end_year_of drizzle_csv = Some 2021 /\ ts_year t < 2021 /\
   fst (main "plt" w) = Ok tt /\ fst (main "px" w) = Ok tt) /\
  exists T t1 t0,
    days_table 1 (start_year_of drizzle_csv) (end_year_of drizzle_csv)
               (frame_of_csv drizzle_csv) = Ok t1 /\
    days_table 0 (start_year_of drizzle_csv) (end_year_of drizzle_csv)
               (frame_of_csv drizzle_csv) = Ok t0 /\
    shown (snd (main "plt" w)) = shown w ++ [rain_fall_figure T; rainy_days_figure t1] /\
    shown (snd (main "px" w)) =
      shown w ++ [original_data_chart (frame_of_csv drizzle_csv); rain_amount_chart T;
                  rainy_days_chart t0] /\
    t1 <> t0.
Proof.
  assert (Hin : In (mkTimestamp 2020 3 20, Num (1 # 2)) drizzle_csv)
    by (apply in_or_app; right; now left).
  assert (H0 : (0 < 1 # 2)%Q) by reflexivity.
  assert (H1 : (1 # 2 <= 1)%Q) by discriminate.
  split.
  - split; [reflexivity|]. split; [reflexivity|]. split; [exact Hin|].
    split; [exact H0|]. split; [exact H1|]. split; [reflexivity|].
    split; [reflexivity|]. split; [reflexivity|].
    split; vm_compute; reflexivity.
  - apply (proj2 (rainy_day_counts_differ
                    (initial_world (only_file data_path drizzle_csv)) drizzle_csv
                    (mkTimestamp 2020 3 20) (1 # 2) 2021
                    eq_refl eq_refl Hin H0 H1));
      try reflexivity; vm_compute; reflexivity.
Defined.

(** * Further properties *)

(** ** The two modes of [main] *)

(** X1.  [main] compares its argument with 'plt' only: every other
    argument, whatever it is, runs the plotly branch, exactly as 'px'
    does. *)
Theorem main_other_mode_is_px (graph_type : string) (w : world) :
  graph_type <> "plt"%string ->
  main graph_type w = main "px" w.
Proof.
  intros Hne. rewrite !main_unfold.
  destruct (files w data_path) as [[|r rs]|]; try reflexivity.
  unfold render. apply String.eqb_neq in Hne. rewrite Hne. reflexivity.
Qed.

Lemma main_other_mode_is_px_witness :
  let w := initial_world (only_file data_path drizzle_csv) in
  "matplotlib"%string <> "plt"%string /\ main "matplotlib" w = main "px" w.
Proof.
  split; [discriminate|].
  apply (main_other_mode_is_px "matplotlib"
           (initial_world (only_file data_path drizzle_csv))).
  discriminate.
Defined.

Lemma render_font_family (graph_type : string) (w : world) (df : ref) (f : DataFrame)
      (s e : option Z) :
  heap w !! df = Some f ->
  font_family (snd (render graph_type df s e w)) =
  if String.eqb graph_type "plt" then "Ricty Diminished"%string else font_family w.
Proof.
  intros Hf. unfold render.
  destruct (String.eqb graph_type "plt").
  - unfold bind at 1, modify at 1.
    set (w2 := set_font_family _ w).
    destruct (run_plot_rain_fall_plt w2 df f s e Hf) as (w3 & [x3 ->] & H3).
    unfold bind at 1. rewrite H3. clear H3.
    destruct (and_then (rain_table s e f) Pd.plot_data) as [t1|x]; [|reflexivity].
    set (w4 := set_figures _ _ _).
    assert (Hf4 : heap w4 !! df = Some f) by (simpl; now apply lookup_app_l_Some).
    destruct (run_plot_rainy_days_plt w4 df f s e 1 Hf4) as (w5 & [x5 ->] & H5).
    rewrite H5. clear H5.
    destruct (and_then (days_table 1 s e f) Pd.plot_data) as [t2|x]; reflexivity.
  - unfold bind at 1. rewrite (run_plot_original_data_px w df f _ Hf).
    set (w2 := set_figures _ _ w).
    destruct (run_plot_rain_amount_px w2 df f s e "降雨量" Hf) as (w3 & [x3 ->] & H3).
    unfold bind at 1. rewrite H3. clear H3.
    destruct (rain_table s e f) as [t1|x]; [|reflexivity].
    set (w4 := set_figures _ _ _).
    assert (Hf4 : heap w4 !! df = Some f) by (simpl; now apply lookup_app_l_Some).
    destruct (run_plot_rainy_days_px w4 df f s e "降雨日数" Hf4) as (w5 & [x5 ->] & H5).
    rewrite H5. clear H5.
    destruct (days_table 0 s e f) as [t2|x]; reflexivity.
Qed.

(** X2.  The matplotlib font family is process-wide state that [main]
    changes in the mode 'plt' only, and only once the file is loaded and
    the first and last year are read from its index: on a file whose
    dates pandas represents as timestamps it is 'Ricty Diminished' at the
    end of the run, whether the run returns or raises.  In every other
    mode, and when the loader raises, the font family is what it was. *)
Theorem main_font_family (graph_type : string) (w : world) :
  (forall rs, files w data_path = Some rs ->
              forallb in_pandas_range (map fst rs) = true) ->
  font_family (snd (main graph_type w)) =
  match files w data_path with
  | Some (_ :: _) =>
      if String.eqb graph_type "plt" then "Ricty Diminished"%string else font_family w
  | _ => font_family w
  end.
Proof.
  intros _. rewrite main_unfold.
  destruct (files w data_path) as [[|r rs]|]; try reflexivity.
  rewrite (render_font_family graph_type _ (length (heap w)) (frame_of_csv (r :: rs))).
  - reflexivity.
  - simpl. apply lookup_snoc.
Qed.

Lemma main_font_family_witness :
  let w := initial_world (only_file data_path partial_year_csv) in
  forallb in_pandas_range (map fst partial_year_csv) = true /\
  fst (main "plt" w) = Raise ValueError /\
  font_family (snd (main "plt" w)) = "Ricty Diminished"%string /\
  font_family (snd (main "px" w)) = font_family w.
Proof.
  split; [reflexivity|]. split; [vm_compute; reflexivity|]. split.
  - apply (main_font_family "plt" (initial_world (only_file data_path partial_year_csv))).
    intros rs H. cbv in H. injection H as <-. reflexivity.
  - apply (main_font_family "px" (initial_world (only_file data_path partial_year_csv))).
    intros rs H. cbv in H. injection H as <-. reflexivity.
Defined.

(** X3.  The matplotlib figures are displayed by the [plt.show()] of
    [plot_rainy_days_plt] and by nothing else.  [plot_rain_fall_plt]
    displays nothing: it leaves its figure pending when its table is
    built and has a column.  [plot_rainy_days_plt] then displays every
    pending figure and its own.  When the table is refused, and when it
    has no column, so that [plot.bar] raises TypeError before a figure
    exists, either function raises and neither draws nor displays
    anything. *)
Theorem plt_figures_shown_by_rainy_days (w : world) (df : ref) (f : DataFrame)
        (s e : option Z) (rf : Q) :
  heap w !! df = Some f ->
  shown (snd (plot_rain_fall_plt df s e w)) = shown w /\
  match rain_table s e f with
  | Raise x =>
      fst (plot_rain_fall_plt df s e w) = Raise x /\
      figures (snd (plot_rain_fall_plt df s e w)) = figures w
  | Ok t =>
      match columns t with
      | [] =>
          fst (plot_rain_fall_plt df s e w) = Raise TypeError /\
          figures (snd (plot_rain_fall_plt df s e w)) = figures w
      | _ :: _ =>
          fst (plot_rain_fall_plt df s e w) = Ok tt /\
          figures (snd (plot_rain_fall_plt df s e w)) = figures w ++ [rain_fall_figure t]
      end
  end /\
  match days_table rf s e f with
  | Raise x =>
      fst (plot_rainy_days_plt df s e rf w) = Raise x /\
      shown (snd (plot_rainy_days_plt df s e rf w)) = shown w /\
      figures (snd (plot_rainy_days_plt df s e rf w)) = figures w
  | Ok t =>
      match columns t with
      | [] =>
          fst (plot_rainy_days_plt df s e rf w) = Raise TypeError /\
          shown (snd (plot_rainy_days_plt df s e rf w)) = shown w /\
          figures (snd (plot_rainy_days_plt df s e rf w)) = figures w
      | _ :: _ =>
          fst (plot_rainy_days_plt df s e rf w) = Ok tt /\
          shown (snd (plot_rainy_days_plt df s e rf w)) =
            shown w ++ figures w ++ [rainy_days_figure t] /\
          figures (snd (plot_rainy_days_plt df s e rf w)) = []
      end
  end.
Proof.
  intros Hf.
  destruct (run_plot_rain_fall_plt w df f s e Hf) as (w1 & [x1 ->] & ->).
  destruct (run_plot_rainy_days_plt w df f s e rf Hf) as (w2 & [x2 ->] & ->).
  split; [|split].
  - destruct (and_then (rain_table s e f) Pd.plot_data); reflexivity.
  - destruct (rain_table s e f) as [t|x]; cbn [and_then]; [|now split].
    unfold Pd.plot_data. destruct (columns t); now split.
  - destruct (days_table rf s e f) as [t|x]; cbn [and_then]; [|now repeat split].
    unfold Pd.plot_data. destruct (columns t); now repeat split.
Qed.

Lemma plt_figures_shown_by_rainy_days_witness :
  let f := frame_of_csv drizzle_csv in
  let w := set_heap [f] (initial_world (fun _ => None)) in
  heap w !! 0%nat = Some f /\
  shown (snd (plot_rain_fall_plt 0%nat (Some 2020) (Some 2021) w)) = [] /\
  fst (plot_rain_fall_plt 0%nat (Some 2020) (Some 2021) w) = Ok tt /\
  fst (plot_rain_fall_plt 0%nat (Some 2020) (Some 2020) w) = Raise TypeError /\
  figures (snd (plot_rain_fall_plt 0%nat (Some 2020) (Some 2020) w)) = [] /\
  fst (plot_rainy_days_plt 0%nat (Some 2020) (Some 2020) 1 w) = Raise TypeError /\
  shown (snd (plot_rainy_days_plt 0%nat (Some 2020) (Some 2020) 1 w)) = [].
Proof.
  split; [reflexivity|].
  destruct (plt_figures_shown_by_rainy_days
              (set_heap [frame_of_csv drizzle_csv] (initial_world (fun _ => None)))
              0%nat (frame_of_csv drizzle_csv) (Some 2020) (Some 2021) 1 eq_refl)
    as (H1 & H2 & _).
  destruct (plt_figures_shown_by_rainy_days
              (set_heap [frame_of_csv drizzle_csv] (initial_world (fun _ => None)))
              0%nat (frame_of_csv drizzle_csv) (Some 2020) (Some 2020) 1 eq_refl)
    as (_ & H3 & H4).
  split; [exact H1|].
  vm_compute in H2. vm_compute in H3. vm_compute in H4.
  split; [vm_compute; exact (proj1 H2)|].
  split; [vm_compute; exact (proj1 H3)|].
  split; [vm_compute; exact (proj2 H3)|].
  split; [vm_compute; exact (proj1 H4)|].
  vm_compute; exact (proj1 (proj2 H4)).
Defined.



(** ** [create_year_df] on any frame *)

(** X5.  [create_year_df] labels by position and checks only lengths.  On
    a frame whose index is not a DatetimeIndex it raises AttributeError
    and creates nothing.  Otherwise it takes the rows of the year in the
    order of the frame: if they are exactly twelve and the frame has
    exactly one column, it returns a new frame in which the i-th of these
    rows is labelled with the i-th month, whatever its date; in every
    other case it raises ValueError.  The frame it is given is never
    changed. *)
Theorem create_year_df_any_frame (w : world) (df : ref) (f : DataFrame) (yyyy : Z) :
  heap w !! df = Some f ->
  match stamps (index f) with
  | None => create_year_df df yyyy w = (Raise AttributeError, w)
  | Some _ =>
      if (length (List.filter (Pd.in_year yyyy) (rows f)) =? 12)%nat &&
         (length (columns f) =? 1)%nat
      then exists r w',
             create_year_df df yyyy w = (Ok r, w') /\
             heap w' !! r =
               Some (mkDataFrame [CInt yyyy]
                       (combine month_labels
                                (map snd (List.filter (Pd.in_year yyyy) (rows f))))) /\
             heap w' !! df = Some f
      else exists w',
             create_year_df df yyyy w = (Raise ValueError, w') /\
             heap w' !! df = Some f
  end.
Proof.
  intros Hdf.
  destruct (stamps (index f)) as [ts|] eqn:Hts.
  - destruct (computes_create_year_df w df f yyyy Hdf) as (w' & Hg & Hrun).
    pose proof (grows_lookup _ _ _ _ Hg Hdf) as Hdf'.
    unfold year_df, Pd.select_year in Hrun. rewrite Hts in Hrun.
    unfold Pd.set_index in Hrun. cbn [rows columns] in Hrun.
    rewrite (Nat.eqb_sym (length month_labels)) in Hrun.
    change (length month_labels) with 12%nat in Hrun.
    destruct (Nat.eqb (length (List.filter (Pd.in_year yyyy) (rows f))) 12); cbn [andb].
    + unfold Pd.set_columns in Hrun. cbn [rows columns length] in Hrun.
      rewrite (Nat.eqb_sym 1) in Hrun.
      destruct (Nat.eqb (length (columns f)) 1).
      * destruct Hrun as (r & Hrun & Hr). eauto.
      * eauto.
    + eauto.
  - unfold create_year_df, method, bind, deref, lift. rewrite Hdf; simpl.
    unfold Pd.select_year. now rewrite Hts.
Qed.

Lemma create_year_df_any_frame_witness :
  let f := mkDataFrame [precipitation]
             (map (fun m => (Stamp (mkTimestamp 2020 (13 - m) 1), [Num (inject_Z m)]))
                  (zrange 1 12)) in
  let w := set_heap [f] (initial_world (fun _ => None)) in
  heap w !! 0%nat = Some f /\
  exists r w',
    create_year_df 0%nat 2020 w = (Ok r, w') /\
    exists g, heap w' !! r = Some g /\
      nth_error (rows g) 0 = Some (Str "1月", [Num 1]) /\
      nth_error (rows f) 0 = Some (Stamp (mkTimestamp 2020 12 1), [Num 1]).
Proof.
  split; [reflexivity|].
  pose proof (create_year_df_any_frame
                (set_heap [mkDataFrame [precipitation]
                             (map (fun m => (Stamp (mkTimestamp 2020 (13 - m) 1),
                                             [Num (inject_Z m)])) (zrange 1 12))]
                          (initial_world (fun _ => None)))
                0%nat _ 2020 eq_refl) as H.
  cbv beta iota delta [stamps index] in H. vm_compute stamps in H.
  destruct H as (r & w' & Hrun & Hr & _).
  exists r, w'. split; [exact Hrun|]. eexists. split; [exact Hr|]. split; reflexivity.
Defined.

(** ** The loop on its edges *)

(** When [end_year] is not after [start_year] the loop has no year to
    visit: [year_table] never calls [create_year_df] and returns a table
    with no column and no row, the only object it creates. *)
Lemma year_table_empty_range (w : world) (agg : ref) (s e : Z) :
  e <= s ->
  year_table agg (Some s) (Some e) w =
  (Ok (length (heap w)), set_heap (heap w ++ [Pd.empty]) w).
Proof.
  intros Hes. unfold year_table, bind, new, range, ret, py_range.
  replace (Z.to_nat (e - s)) with 0%nat by lia. reflexivity.
Qed.

(** X6.  A series whose rows all lie in one calendar year has that year
    as first and as last year, so that the loop over
    [range(start_year, end_year)] visits no year: both tables are built,
    whatever months the series has, and both are the empty table, without
    a column or a row; [year_table] creates that table and nothing else. *)
Theorem single_year_tables_empty (rs : csv) (y : Z) (rf : Q) :
  rs <> [] ->
  (forall l, In l rs -> ts_year (fst l) = y) ->
  start_year_of rs = Some y /\ end_year_of rs = Some y /\
  rain_table (Some y) (Some y) (frame_of_csv rs) = Ok Pd.empty /\
  days_table rf (Some y) (Some y) (frame_of_csv rs) = Ok Pd.empty /\
  forall w agg,
    year_table agg (Some y) (Some y) w =
    (Ok (length (heap w)), set_heap (heap w ++ [Pd.empty]) w).
Proof.
  intros Hne Hy.
  destruct (start_end_year_of rs Hne) as (s & e & Hs & He & Is & Ie & _).
  apply in_map_iff in Is as (l1 & <- & Hl1). apply in_map_iff in Ie as (l2 & <- & Hl2).
  rewrite (Hy l1 Hl1) in Hs. rewrite (Hy l2 Hl2) in He.
  split; [exact Hs|]. split; [exact He|].
  assert (Hr : py_range y y = []) by (unfold py_range; now rewrite Z.sub_diag).
  split; [|split].
  - unfold rain_table.
    destruct (resample_M_rows Pd.nansum (frame_of_csv rs) _ (stamps_frame_of_csv rs))
      as (lo & n & -> & _).
    cbn [and_then year_table_of]. now rewrite Hr.
  - unfold days_table.
    destruct (rainy_days_rows rf (frame_of_csv rs) _ eq_refl (stamps_frame_of_csv rs))
      as (lo & n & ->).
    cbn [and_then year_table_of]. now rewrite Hr.
  - intros w agg. apply year_table_empty_range. lia.
Qed.

Lemma single_year_tables_empty_witness :
  (example_csv <> [] /\ forall l, In l example_csv -> ts_year (fst l) = 2022) /\
  start_year_of example_csv = Some 2022 /\ end_year_of example_csv = Some 2022 /\
  rain_table (Some 2022) (Some 2022) (frame_of_csv example_csv) = Ok Pd.empty /\
  days_table 0 (Some 2022) (Some 2022) (frame_of_csv example_csv) = Ok Pd.empty.
Proof.
  assert (H : forall l, In l example_csv -> ts_year (fst l) = 2022).
  { intros l Hl. simpl in Hl. destruct Hl as [<-|[<-|[<-|[]]]]; reflexivity. }
  split; [split; [discriminate|exact H]|].
  destruct (single_year_tables_empty example_csv 2022 0 ltac:(discriminate) H)
    as (H1 & H2 & H3 & H4 & _).
  repeat split; assumption.
Defined.

(** X7.  A frame without rows (with a DatetimeIndex, as a loaded frame
    filtered down to nothing has) has no least and no greatest year: both
    [df.index.year.min()] and [df.index.year.max()] are nan.  Called with
    these, [plot_rain_fall_plt] raises TypeError at [range], after it has
    resampled the frame and created the empty table, and without drawing
    or displaying anything. *)
Theorem empty_frame_fails_at_range (w : world) (df : ref) (cols : list colname) :
  heap w !! df = Some (mkDataFrame cols []) ->
  index_year_min df w = (Ok None, w) /\
  index_year_max df w = (Ok None, w) /\
  plot_rain_fall_plt df None None w =
  (Raise TypeError, set_heap (heap w ++ [mkDataFrame cols []; Pd.empty]) w).
Proof.
  intros Hdf. split; [|split].
  - unfold index_year_min, bind, deref, lift, ret. now rewrite Hdf.
  - unfold index_year_max, bind, deref, lift, ret. now rewrite Hdf.
  - unfold plot_rain_fall_plt, monthly_total, method, year_table, bind, deref, lift,
      new, range, raise.
    rewrite Hdf; simpl. now rewrite <- app_assoc.
Qed.

Lemma empty_frame_fails_at_range_witness :
  let w := set_heap [mkDataFrame [precipitation] []] (initial_world (fun _ => None)) in
  heap w !! 0%nat = Some (mkDataFrame [precipitation] []) /\
  fst (plot_rain_fall_plt 0%nat None None w) = Raise TypeError /\
  length (heap (snd (plot_rain_fall_plt 0%nat None None w))) = 3%nat.
Proof.
  split; [reflexivity|].
  destruct (empty_frame_fails_at_range
              (set_heap [mkDataFrame [precipitation] []] (initial_world (fun _ => None)))
              0%nat [precipitation] eq_refl) as (_ & _ & H).
  rewrite H. split; reflexivity.
Defined.

(** ** The index of the monthly tables *)

Lemma days_in_month_pos (y m : Z) : 28 <= days_in_month y m <= 31.
Proof.
  unfold days_in_month.
  destruct (m =? 2); [destruct (is_leap y); lia|].
  destruct ((m =? 4) || (m =? 6) || (m =? 9) || (m =? 11)); lia.
Qed.

Lemma valid_date_month_end (k : Z) : valid_date (month_end k) = true.
Proof.
  unfold valid_date, month_end; cbn [ts_year ts_month ts_day].
  pose proof (Z.mod_pos_bound k 12 ltac:(lia)).
  pose proof (days_in_month_pos (k / 12) (k mod 12 + 1)).
  rewrite !andb_true_iff, !Z.leb_le. lia.
Qed.

Lemma ts_leb_month_end (k : Z) : ts_leb (month_end k) (month_end (k + 1)) = true.
Proof.
  unfold ts_leb, month_end; cbn [ts_year ts_month ts_day].
  pose proof (Z.div_mod k 12 ltac:(lia)).
  pose proof (Z.mod_pos_bound k 12 ltac:(lia)).
  pose proof (Z.div_mod (k + 1) 12 ltac:(lia)).
  pose proof (Z.mod_pos_bound (k + 1) 12 ltac:(lia)).
  destruct (Z.ltb_spec (k / 12) ((k + 1) / 12)); [reflexivity|].
  destruct (Z.eqb_spec (k / 12) ((k + 1) / 12)); [|lia].
  destruct (Z.ltb_spec (k mod 12 + 1) ((k + 1) mod 12 + 1)); [reflexivity|lia].
Qed.

Lemma month_ends_zrange (lo : Z) (n : nat) : month_ends (map month_end (zrange lo n)).
Proof.
  split; [|split; [|split]].
  - revert lo. induction n as [|n IH]; intros lo; [reflexivity|].
    rewrite zrange_S. destruct n as [|n]; [reflexivity|].
    specialize (IH (lo + 1)). rewrite zrange_S in IH |- *.
    cbn [map is_monotonic_increasing] in IH |- *.
    now rewrite ts_leb_month_end, IH.
  - apply forallb_forall. intros t Ht. apply in_map_iff in Ht as (k & <- & _).
    apply valid_date_month_end.
  - apply List.Forall_forall. intros t Ht. apply in_map_iff in Ht as (k & <- & _). reflexivity.
  - exists lo. rewrite map_map, length_map, length_zrange.
    erewrite map_ext; [apply map_id|]. intros k. apply month_ordinal_month_end.
Qed.

(** X8.  Whatever the order of the rows of the series, the index of the
    monthly totals and of the monthly counts of rainy days is a sequence
    of month ends: valid dates, each the last day of its month, one per
    consecutive month, in chronological order.  The sorting the loader
    leaves out is done by the resampling. *)
Theorem monthly_tables_index (w : world) (df : ref) (f : DataFrame) (ts : list Timestamp)
        (rf : Q) :
  heap w !! df = Some f ->
  columns f = [precipitation] ->
  stamps (index f) = Some ts ->
  (exists r w' g ts',
     monthly_total df w = (Ok r, w') /\ heap w' !! r = Some g /\
     stamps (index g) = Some ts' /\ month_ends ts') /\
  (exists r w' g ts',
     monthly_rainy_days df rf w = (Ok r, w') /\ heap w' !! r = Some g /\
     stamps (index g) = Some ts' /\ month_ends ts').
Proof.
  intros Hdf Hc Hts. split.
  - destruct (computes_monthly_total w df f Hdf) as (w' & _ & Hrun).
    destruct (resample_M_rows Pd.nansum f ts Hts) as (lo & n & Hres & _).
    rewrite Hres in Hrun. destruct Hrun as (r & Hrun & Hr).
    eexists r, w', _, _. split; [exact Hrun|]. split; [exact Hr|].
    split; [apply stamps_bin_rows|apply month_ends_zrange].
  - destruct (computes_monthly_rainy_days w df f rf Hdf) as (w' & _ & Hrun).
    destruct (rainy_days_rows rf f ts Hc Hts) as (lo & n & Hres).
    rewrite Hres in Hrun. destruct Hrun as (r & Hrun & Hr).
    eexists r, w', _, _. split; [exact Hrun|]. split; [exact Hr|].
    split; [apply stamps_bin_rows|apply month_ends_zrange].
Qed.

Lemma monthly_tables_index_witness :
  let f := frame_of_csv unsorted_csv in
  let w := set_heap [f] (initial_world (fun _ => None)) in
  (heap w !! 0%nat = Some f /\ columns f = [precipitation] /\
   stamps (index f) = Some (map fst unsorted_csv) /\
   is_monotonic_increasing (map fst unsorted_csv) = false) /\
  exists r w' g ts',
    monthly_total 0%nat w = (Ok r, w') /\ heap w' !! r = Some g /\
    stamps (index g) = Some ts' /\ month_ends ts'.
Proof.
  split; [repeat split|].
  apply (monthly_tables_index
           (set_heap [frame_of_csv unsorted_csv] (initial_world (fun _ => None)))
           0%nat (frame_of_csv unsorted_csv) (map fst unsorted_csv) 0
           eq_refl eq_refl eq_refl).
Defined.

(** ** When a year table is built *)

Lemma year_columns_ok_inv (g : DataFrame) (ys : list Z) (acc t : DataFrame) :
  year_columns g acc ys = Ok t -> forall y, In y ys -> exists c, year_df y g = Ok c.
Proof.
  revert acc. induction ys as [|y0 ys IH]; intros acc H y Hy; [contradiction|].
  simpl in H. destruct (year_df y0 g) as [c|] eqn:E; [|discriminate].
  destruct Hy as [<-|Hy]; eauto.
Qed.

Lemma year_columns_built_iff (agg : list cell -> cell) (f : DataFrame) (c : colname)
      (lo : Z) (n : nat) (s e : Z) (acc : DataFrame) :
  (exists t, year_columns (mkDataFrame [c] (map (Pd.bin_row agg f) (zrange lo n))) acc
                          (py_range s e) = Ok t) <->
  (e <= s \/ forall k, 12 * s <= k < 12 * e -> In k (zrange lo n)).
Proof.
  split.
  - intros [t Ht]. destruct (Z_le_dec e s) as [Hes|Hes]; [now left|right].
    destruct (year_columns_ok_inv _ _ _ _ Ht s) as [c1 H1]; [apply In_py_range; lia|].
    destruct (year_columns_ok_inv _ _ _ _ Ht (e - 1)) as [c2 H2]; [apply In_py_range; lia|].
    apply year_df_ok_complete in H1 as [[? ?] _]. apply year_df_ok_complete in H2 as [[? ?] _].
    intros k Hk. apply In_zrange. lia.
  - intros [Hes|Hall].
    + unfold py_range. replace (Z.to_nat (e - s)) with 0%nat by lia. simpl. eauto.
    + apply year_columns_ok. intros y Hy. apply In_py_range in Hy.
      pose proof (Hall (12 * y) ltac:(lia)) as Ha. pose proof (Hall (12 * y + 11) ltac:(lia)) as Hb.
      apply In_zrange in Ha, Hb.
      rewrite year_df_complete by lia. eauto.
Qed.

(** A year table is built from a resampled frame when the range is empty
    or every month of its years lies in the span of the frame. *)
Lemma table_built_iff (agg : list cell -> cell) (f : DataFrame) (c : colname)
      (ts : list Timestamp) (s e : Z) :
  columns f = [c] -> stamps (index f) = Some ts ->
  (exists t, and_then (Pd.resample_M agg f) (year_table_of (Some s) (Some e)) = Ok t) <->
  (e <= s \/ forall k, 12 * s <= k < 12 * e -> spanned k ts).
Proof.
  intros Hc Hts. destruct (resample_M_rows agg f ts Hts) as (lo & n & -> & Hspan).
  cbn [and_then year_table_of]. rewrite Hc, year_columns_built_iff.
  split; (intros [H|H]; [now left|right]); intros k Hk; apply Hspan; auto.
Qed.

Lemma spanned_range (ts : list Timestamp) (s e : Z) :
  s < e ->
  (forall k, 12 * s <= k < 12 * e -> spanned k ts) <->
  ((exists t, In t ts /\ month_ordinal t <= 12 * s) /\
   (exists t, In t ts /\ 12 * e - 1 <= month_ordinal t)).
Proof.
  intros Hse. split.
  - intros H. split.
    + apply (H (12 * s)). lia.
    + apply (H (12 * e - 1)). lia.
  - intros [(a & Ha & Hla) (b & Hb & Hlb)] k Hk.
    split; [exists a|exists b]; split; auto; lia.
Qed.

Lemma year_bounds (rs : csv) (s e : Z) :
  start_year_of rs = Some s -> end_year_of rs = Some e ->
  (exists l, In l rs /\ ts_year (fst l) = s) /\
  (exists l, In l rs /\ ts_year (fst l) = e) /\
  (forall l, In l rs -> s <= ts_year (fst l) <= e) /\ s <= e.
Proof.
  intros Hs He. destruct (min_spec _ _ Hs) as [Hs1 Hs2]. destruct (max_spec _ _ He) as [He1 He2].
  apply in_map_iff in Hs1 as (l1 & E1 & Hl1). apply in_map_iff in He1 as (l2 & E2 & Hl2).
  assert (Hb : forall l, In l rs -> s <= ts_year (fst l) <= e).
  { intros l Hl. split; [apply Hs2|apply He2];
      apply (in_map (fun r => ts_year (fst r)) _ _ Hl). }
  split; [eauto|]. split; [eauto|]. split; [exact Hb|].
  specialize (Hb l1 Hl1). lia.
Qed.

(** X9.  For a series of valid dates, the table of rainfall totals is
    built exactly when the series lies within one calendar year (the
    table is then empty) or has a row in January of its first year;
    otherwise the first year is partial and the loop raises ValueError.
    The years after the first never make it fail. *)
Theorem rain_table_built_iff (rs : csv) (s e : Z) :
  forallb valid_date (map fst rs) = true ->
  start_year_of rs = Some s ->
  end_year_of rs = Some e ->
  let built := s = e \/ exists l, In l rs /\ ts_year (fst l) = s /\ ts_month (fst l) = 1 in
  ((exists t, rain_table (Some s) (Some e) (frame_of_csv rs) = Ok t) <-> built) /\
  (~ built -> rain_table (Some s) (Some e) (frame_of_csv rs) = Raise ValueError).
Proof.
  intros Hv Hs He built.
  destruct (year_bounds rs s e Hs He) as ((l1 & Hl1 & Y1) & (l2 & Hl2 & Y2) & Hb & Hse).
  rewrite forallb_forall in Hv.
  assert (Hiff : (exists t, rain_table (Some s) (Some e) (frame_of_csv rs) = Ok t) <-> built).
  { unfold rain_table.
    rewrite (table_built_iff Pd.nansum (frame_of_csv rs) precipitation (map fst rs) s e
               eq_refl (stamps_frame_of_csv rs)).
    unfold built. split.
    - intros [Hes|Hall]; [left; lia|].
      destruct (Z.eq_dec s e) as [->|Hne]; [now left|right].
      apply spanned_range in Hall as [(t & Ht & Hlt) _]; [|lia].
      apply in_map_iff in Ht as (l & <- & Hl).
      pose proof (Hb l Hl). pose proof (valid_date_month _ (Hv _ (in_map fst _ _ Hl))).
      unfold month_ordinal in Hlt. exists l. repeat split; [assumption|lia|lia].
    - intros [->|(l & Hl & Hy & Hm)]; [left; lia|].
      destruct (Z.eq_dec s e) as [->|Hne]; [left; lia|right].
      apply spanned_range; [lia|]. split.
      + exists (fst l). split; [now apply in_map|]. unfold month_ordinal. lia.
      + exists (fst l2). split; [now apply in_map|].
        pose proof (valid_date_month _ (Hv _ (in_map fst _ _ Hl2))).
        unfold month_ordinal. lia. }
  split; [exact Hiff|]. intros Hnot.
  destruct (rain_table (Some s) (Some e) (frame_of_csv rs)) as [t|x] eqn:E.
  - exfalso. apply Hnot, Hiff. eauto.
  - now rewrite (rain_table_raise rs s e x E).
Qed.

Lemma rain_table_built_iff_witness :
  (forallb valid_date (map fst partial_year_csv) = true /\
   start_year_of partial_year_csv = Some 2020 /\
   end_year_of partial_year_csv = Some 2022) /\
  rain_table (Some 2020) (Some 2022) (frame_of_csv partial_year_csv) = Raise ValueError.
Proof.
  split; [repeat split|].
  apply (rain_table_built_iff partial_year_csv 2020 2022 eq_refl eq_refl eq_refl).
  intros [H|(l & Hl & Hy & Hm)]; [discriminate|].
  simpl in Hl. destruct Hl as [<-|[<-|[<-|[]]]]; vm_compute in Hy, Hm;
    first [discriminate Hy|discriminate Hm].
Defined.

Lemma In_stamps_above_csv (rf : Q) (rs : csv) (t : Timestamp) :
  In t (stamps_above rf (frame_of_csv rs)) <->
  exists l, In l rs /\ fst l = t /\ cell_gt (snd l) rf = true.
Proof.
  unfold stamps_above, frame_of_csv; cbn [rows]. rewrite in_flat_map. split.
  - intros (r & Hr & Ht). apply in_map_iff in Hr as (l & <- & Hl).
    cbn [fst snd nth] in Ht. destruct (cell_gt (snd l) rf) eqn:E; [|contradiction].
    destruct Ht as [<-|[]]. eauto.
  - intros (l & Hl & <- & Hgt). exists (Stamp (fst l), [snd l]).
    split; [apply in_map_iff; eauto|]. cbn [fst snd nth]. rewrite Hgt. now left.
Qed.

(** X10.  For a series of valid dates, the table of rainy days is built
    exactly when the series lies within one calendar year, or when it has
    a day above the threshold in January of its first year and a day above
    the threshold in the last year or in December of the year before;
    otherwise the loop raises ValueError, even though the series may have
    rows for every month. *)
Theorem days_table_built_iff (rf : Q) (rs : csv) (s e : Z) :
  forallb valid_date (map fst rs) = true ->
  start_year_of rs = Some s ->
  end_year_of rs = Some e ->
  let built :=
    s = e \/
    ((exists l, In l rs /\ cell_gt (snd l) rf = true /\
                ts_year (fst l) = s /\ ts_month (fst l) = 1) /\
     (exists l, In l rs /\ cell_gt (snd l) rf = true /\
                (ts_year (fst l) = e \/
                 (ts_year (fst l) = e - 1 /\ ts_month (fst l) = 12)))) in
  ((exists t, days_table rf (Some s) (Some e) (frame_of_csv rs) = Ok t) <-> built) /\
  (~ built -> days_table rf (Some s) (Some e) (frame_of_csv rs) = Raise ValueError).
Proof.
  intros Hv Hs He built.
  destruct (year_bounds rs s e Hs He) as (_ & _ & Hb & Hse).
  rewrite forallb_forall in Hv.
  assert (Hiff : (exists t, days_table rf (Some s) (Some e) (frame_of_csv rs) = Ok t)
                 <-> built).
  { unfold days_table, rainy_days.
    rewrite (select_gt_precipitation rf (frame_of_csv rs) eq_refl). cbn [and_then].
    rewrite (table_built_iff Pd.count
               (mkDataFrame [precipitation]
                  (List.filter (above rf) (rows (frame_of_csv rs))))
               precipitation (stamps_above rf (frame_of_csv rs)) s e eq_refl
               (stamps_filter_above rf _ _ (stamps_frame_of_csv rs))).
    unfold built. split.
    - intros [Hes|Hall]; [left; lia|].
      destruct (Z.eq_dec s e) as [->|Hne]; [now left|right].
      apply spanned_range in Hall as [(a & Ha & Hla) (b & Hb' & Hlb)]; [|lia].
      apply In_stamps_above_csv in Ha as (la & Hla1 & <- & Hga).
      apply In_stamps_above_csv in Hb' as (lb & Hlb1 & <- & Hgb).
      pose proof (Hb la Hla1). pose proof (Hb lb Hlb1).
      pose proof (valid_date_month _ (Hv _ (in_map fst _ _ Hla1))).
      pose proof (valid_date_month _ (Hv _ (in_map fst _ _ Hlb1))).
      unfold month_ordinal in Hla, Hlb. split.
      + exists la. repeat split; [assumption|assumption|lia|lia].
      + exists lb. split; [assumption|]. split; [assumption|]. lia.
    - intros [->|[(la & Hla1 & Hga & Hya & Hma) (lb & Hlb1 & Hgb & Hyb)]]; [left; lia|].
      destruct (Z.eq_dec s e) as [->|Hne]; [left; lia|right].
      apply spanned_range; [lia|]. split.
      + exists (fst la). split; [apply In_stamps_above_csv; eauto|].
        unfold month_ordinal. lia.
      + exists (fst lb). split; [apply In_stamps_above_csv; eauto|].
        pose proof (valid_date_month _ (Hv _ (in_map fst _ _ Hlb1))).
        unfold month_ordinal. lia. }
  split; [exact Hiff|]. intros Hnot.
  destruct (days_table rf (Some s) (Some e) (frame_of_csv rs)) as [t|x] eqn:E.
  - exfalso. apply Hnot, Hiff. eauto.
  - now rewrite (days_table_raise rf rs s e x E).
Qed.

Lemma days_table_built_iff_witness :
  (forallb valid_date (map fst drizzle_csv) = true /\
   start_year_of drizzle_csv = Some 2020 /\
   end_year_of drizzle_csv = Some 2021) /\
  exists t, days_table 1 (Some 2020) (Some 2021) (frame_of_csv drizzle_csv) = Ok t.
Proof.
  split; [repeat split|].
  apply (days_table_built_iff 1 drizzle_csv 2020 2021 eq_refl eq_refl eq_refl).
  right. split.
  - exists (mkTimestamp 2020 1 15, Num 5). repeat split. now left.
  - exists (mkTimestamp 2021 1 3, Num 5). split; [|split; [reflexivity|now left]].
    apply in_or_app. right. right. now left.
Defined.

(** ** The cells of a year table *)

(** The cells of a year table built from a resampled frame: row by
    month, column by year. *)
Lemma table_cells (agg : list cell -> cell) (f : DataFrame) (c : colname)
      (ts : list Timestamp) (s e : Z) (t : DataFrame) :
  columns f = [c] -> stamps (index f) = Some ts -> forallb valid_date ts = true ->
  and_then (Pd.resample_M agg f) (year_table_of (Some s) (Some e)) = Ok t ->
  s < e ->
  index t = month_labels /\
  Forall (fun r => length (snd r) = Z.to_nat (e - s)) (rows t) /\
  forall y m, s <= y < e -> 1 <= m <= 12 ->
    nth_error (column_at (Z.to_nat (y - s)) (map snd (rows t))) (Z.to_nat (m - 1)) =
    Some (agg (month_cells f y m)).
Proof.
  intros Hc Hts Hv Ht Hse.
  destruct (resample_M_rows agg f ts Hts) as (lo & n & Hres & _).
  rewrite Hres in Ht. cbn [and_then year_table_of] in Ht. rewrite Hc in Ht.
  destruct (year_columns_regular agg f c c lo n _ Hc 0%nat Pd.empty t regular_empty Ht)
    as ((_ & Hw & _ & Hidx) & _ & Hcol).
  assert (Hlen : length (py_range s e) = Z.to_nat (e - s))
    by (unfold py_range; apply length_zrange).
  rewrite Nat.add_0_l, Hlen in Hw, Hidx.
  split; [apply Hidx; lia|]. split; [exact Hw|].
  intros y m Hy Hm.
  assert (Hj : nth_error (py_range s e) (Z.to_nat (y - s)) = Some y).
  { unfold py_range. rewrite nth_error_zrange by lia. f_equal. lia. }
  destruct (Hcol _ _ Hj) as [_ E]. rewrite Nat.add_0_l in E. rewrite E.
  destruct (year_frame_column agg f c y (Z.to_nat (m - 1)) Hc ltac:(lia)) as [-> _].
  replace (12 * y + Z.of_nat (Z.to_nat (m - 1))) with (12 * y + (m - 1)) by lia.
  now rewrite (bin_month f ts y m Hts Hv Hm).
Qed.

(** X11.  The table of rainfall totals is the frame of monthly totals
    laid out again, and holds no value of its own.  When it is built for
    a series of valid dates that spans several years, its rows are
    labelled with the twelve months in order, it has one cell per row and
    displayed year, and the cell of month m in the column of year y is
    the value the resampled frame [df.resample('M').sum()] holds for that
    month, which is one of its labels; for a month without rows that
    value is the 0 of the empty sum. *)
Theorem rain_table_cells (rs : csv) (s e : Z) (t : DataFrame) :
  forallb valid_date (map fst rs) = true ->
  rain_table (Some s) (Some e) (frame_of_csv rs) = Ok t ->
  s < e ->
  exists g,
    Pd.resample_M Pd.nansum (frame_of_csv rs) = Ok g /\
    index t = month_labels /\
    Forall (fun r => length (snd r) = Z.to_nat (e - s)) (rows t) /\
    forall y m, s <= y < e -> 1 <= m <= 12 ->
      exists c,
        entry g y m = Some [c] /\
        nth_error (column_at (Z.to_nat (y - s)) (map snd (rows t))) (Z.to_nat (m - 1)) =
          Some c /\
        (month_cells (frame_of_csv rs) y m = [] -> c = Num 0).
Proof.
  intros Hv Ht Hse.
  destruct (table_cells Pd.nansum (frame_of_csv rs) precipitation (map fst rs) s e t
              eq_refl (stamps_frame_of_csv rs) Hv Ht Hse) as (Hidx & Hw & Hcell).
  destruct (resample_M_rows Pd.nansum (frame_of_csv rs) _ (stamps_frame_of_csv rs))
    as (lo & n & Hres & _).
  eexists. split; [exact Hres|]. split; [exact Hidx|]. split; [exact Hw|].
  intros y m Hy Hm.
  exists (Pd.nansum (month_cells (frame_of_csv rs) y m)).
  split; [|split; [exact (Hcell y m Hy Hm)|now intros ->]].
  unfold rain_table in Ht. rewrite Hres in Ht. cbn [and_then year_table_of] in Ht.
  change (columns (frame_of_csv rs)) with [precipitation] in Ht.
  destruct (year_columns_regular Pd.nansum (frame_of_csv rs) precipitation precipitation
              lo n _ eq_refl 0%nat Pd.empty t regular_empty Ht) as (_ & _ & Hcol).
  assert (Hj : nth_error (py_range s e) (Z.to_nat (y - s)) = Some y).
  { unfold py_range. rewrite nth_error_zrange by lia. f_equal. lia. }
  destruct (Hcol _ _ Hj) as [Hb _].
  rewrite (proj1 (entry_bin_rows Pd.nansum (frame_of_csv rs) _ _ y m Hm))
    by (apply In_zrange; lia).
  unfold Pd.bin_row; cbn [snd].
  change (columns (frame_of_csv rs)) with [precipitation]. cbn [map seq length].
  now rewrite (bin_month (frame_of_csv rs) _ y m (stamps_frame_of_csv rs) Hv Hm).
Qed.

Lemma rain_table_cells_witness :
  (forallb valid_date (map fst drizzle_csv) = true /\ 2020 < 2021) /\
  exists t,
    rain_table (Some 2020) (Some 2021) (frame_of_csv drizzle_csv) = Ok t /\
    index t = month_labels /\
    nth_error (column_at 0 (map snd (rows t))) 2 = Some (Num (11 # 2)).
Proof.
  split; [split; [reflexivity|lia]|].
  destruct (rain_table (Some 2020) (Some 2021) (frame_of_csv drizzle_csv)) as [t|x] eqn:E;
    [|vm_compute in E; discriminate].
  exists t. split; [reflexivity|].
  destruct (rain_table_cells drizzle_csv 2020 2021 t eq_refl E ltac:(lia))
    as (g & Hg & Hidx & _ & Hcell).
  split; [exact Hidx|].
  destruct (Hcell 2020 3 ltac:(lia) ltac:(lia)) as (c & Hc & H & _).
  vm_compute in Hg. injection Hg as <-. vm_compute in Hc. injection Hc as <-.
  exact H.
Defined.

(** X12.  When the table of rainy days is built for a series of valid
    dates that spans several years, the cell of month m in the column of
    year y is the number of rows of that month whose value exceeds the
    threshold: a whole number, 0 included, never a missing value. *)
Theorem days_table_cells (rf : Q) (rs : csv) (s e : Z) (t : DataFrame) :
  forallb valid_date (map fst rs) = true ->
  days_table rf (Some s) (Some e) (frame_of_csv rs) = Ok t ->
  s < e ->
  index t = month_labels /\
  Forall (fun r => length (snd r) = Z.to_nat (e - s)) (rows t) /\
  forall y m, s <= y < e -> 1 <= m <= 12 ->
    nth_error (column_at (Z.to_nat (y - s)) (map snd (rows t))) (Z.to_nat (m - 1)) =
    Some (Num (inject_Z (Z.of_nat (days_above rf (frame_of_csv rs) y m)))).
Proof.
  intros Hv Ht Hse. unfold days_table, rainy_days in Ht.
  rewrite (select_gt_precipitation rf (frame_of_csv rs) eq_refl) in Ht.
  cbn [and_then] in Ht.
  set (f' := mkDataFrame [precipitation]
               (List.filter (above rf) (rows (frame_of_csv rs)))) in *.
  assert (Hts' : stamps (index f') = Some (stamps_above rf (frame_of_csv rs)))
    by (apply (stamps_filter_above rf _ _ (stamps_frame_of_csv rs))).
  assert (Hv' : forallb valid_date (stamps_above rf (frame_of_csv rs)) = true).
  { apply forallb_forall. intros a Ha. rewrite forallb_forall in Hv.
    apply Hv. now apply (stamps_above_incl rf _ _ (stamps_frame_of_csv rs)). }
  destruct (table_cells Pd.count f' precipitation _ s e t eq_refl Hts' Hv' Ht Hse)
    as (Hidx & Hw & Hcell).
  split; [exact Hidx|]. split; [exact Hw|].
  intros y m Hy Hm. rewrite (Hcell y m Hy Hm).
  unfold Pd.count, month_cells, days_above, month_cells, f'; cbn [rows].
  now rewrite count_filtered_month.
Qed.

Lemma days_table_cells_witness :
  (forallb valid_date (map fst drizzle_csv) = true /\ 2020 < 2021) /\
  exists t,
    days_table 0 (Some 2020) (Some 2021) (frame_of_csv drizzle_csv) = Ok t /\
    nth_error (column_at 0 (map snd (rows t))) 2 = Some (Num 2).
Proof.
  split; [split; [reflexivity|lia]|].
  destruct (days_table 0 (Some 2020) (Some 2021) (frame_of_csv drizzle_csv)) as [t|x] eqn:E;
    [|vm_compute in E; discriminate].
  exists t. split; [reflexivity|].
  destruct (days_table_cells 0 drizzle_csv 2020 2021 t eq_refl E ltac:(lia))
    as (_ & _ & Hcell).
  exact (Hcell 2020 3 ltac:(lia) ltac:(lia)).
Defined.

(** ** The table of rainy days and the order of the file *)

Lemma Permutation_filter_bool {A} (p : A -> bool) (l l' : list A) :
  Permutation l l' -> Permutation (List.filter p l) (List.filter p l').
Proof.
  induction 1 as [|x l l' _ IH|x y l|l l' l'' _ IH1 _ IH2]; simpl.
  - constructor.
  - destruct (p x); [now constructor|exact IH].
  - destruct (p x), (p y); try reflexivity. apply perm_swap.
  - now transitivity (List.filter p l').
Qed.

Lemma Permutation_min_max (l l' : list Z) :
  Permutation l l' -> Pd.min l = Pd.min l' /\ Pd.max l = Pd.max l'.
Proof.
  intros HP. destruct l as [|a l].
  - apply Permutation_nil in HP. now subst.
  - destruct l' as [|b l'].
    + symmetry in HP. apply Permutation_nil in HP. discriminate.
    + destruct (Pd.min (a :: l)) as [m|] eqn:Hm; [|discriminate].
      destruct (Pd.min (b :: l')) as [m'|] eqn:Hm'; [|discriminate].
      destruct (Pd.max (a :: l)) as [M|] eqn:HM; [|discriminate].
      destruct (Pd.max (b :: l')) as [M'|] eqn:HM'; [|discriminate].
      destruct (min_spec _ _ Hm) as [I1 L1]. destruct (min_spec _ _ Hm') as [I2 L2].
      destruct (max_spec _ _ HM) as [I3 L3]. destruct (max_spec _ _ HM') as [I4 L4].
      pose proof (L2 _ (Permutation_in _ HP I1)).
      pose proof (L1 _ (Permutation_in _ (Permutation_sym HP) I2)).
      pose proof (L4 _ (Permutation_in _ HP I3)).
      pose proof (L3 _ (Permutation_in _ (Permutation_sym HP) I4)).
      split; f_equal; lia.
Qed.

(** Counting does not depend on the order of the rows. *)
Lemma resample_count_Permutation (f1 f2 : DataFrame) (ts1 ts2 : list Timestamp) :
  columns f1 = columns f2 -> Permutation (rows f1) (rows f2) ->
  stamps (index f1) = Some ts1 -> stamps (index f2) = Some ts2 -> Permutation ts1 ts2 ->
  Pd.resample_M Pd.count f1 = Pd.resample_M Pd.count f2.
Proof.
  intros Hc HP H1 H2 HPt. unfold Pd.resample_M. rewrite H1, H2, <- Hc.
  destruct (Permutation_min_max _ _ (Permutation_map month_ordinal HPt)) as [-> ->].
  assert (Hrow : forall k, Pd.bin_row Pd.count f1 k = Pd.bin_row Pd.count f2 k).
  { intros k. unfold Pd.bin_row. rewrite <- Hc. f_equal. apply map_ext. intros j.
    unfold Pd.count. do 3 f_equal. apply Permutation_length.
    apply Permutation_filter_bool. unfold column_at, Pd.bin.
    now apply Permutation_map, Permutation_map, Permutation_filter_bool. }
  destruct (Pd.min (map month_ordinal ts2)), (Pd.max (map month_ordinal ts2));
    try reflexivity.
  do 2 f_equal. apply map_ext. intros k. apply Hrow.
Qed.

(** X13.  The table of rainy days does not depend on the order of the
    lines of the file: two files with the same lines in any order give
    the same monthly counts and the same table by year.  The loader keeps
    the order of the file, the counts do not see it. *)
Theorem rainy_days_order_independent (rf : Q) (rs rs' : csv) :
  Permutation rs rs' ->
  rainy_days rf (frame_of_csv rs) = rainy_days rf (frame_of_csv rs') /\
  days_table rf (start_year_of rs) (end_year_of rs) (frame_of_csv rs) =
  days_table rf (start_year_of rs') (end_year_of rs') (frame_of_csv rs').
Proof.
  intros HP.
  assert (Hrows : Permutation (rows (frame_of_csv rs)) (rows (frame_of_csv rs')))
    by (unfold frame_of_csv; cbn [rows]; now apply Permutation_map).
  assert (E : rainy_days rf (frame_of_csv rs) = rainy_days rf (frame_of_csv rs')).
  { unfold rainy_days.
    rewrite (select_gt_precipitation rf (frame_of_csv rs) eq_refl),
            (select_gt_precipitation rf (frame_of_csv rs') eq_refl). cbn [and_then].
    apply (resample_count_Permutation _ _ (stamps_above rf (frame_of_csv rs))
             (stamps_above rf (frame_of_csv rs'))).
    - reflexivity.
    - cbn [rows]. now apply Permutation_filter_bool.
    - apply (stamps_filter_above rf _ _ (stamps_frame_of_csv rs)).
    - apply (stamps_filter_above rf _ _ (stamps_frame_of_csv rs')).
    - unfold stamps_above. now apply Permutation_flat_map. }
  split; [exact E|]. unfold days_table. rewrite E.
  unfold start_year_of, end_year_of.
  destruct (Permutation_min_max _ _
              (Permutation_map (fun r : Timestamp * cell => ts_year (fst r)) HP)) as [-> ->].
  reflexivity.
Qed.

Lemma rainy_days_order_independent_witness :
  Permutation example_csv unsorted_csv /\
  rainy_days 0 (frame_of_csv example_csv) = rainy_days 0 (frame_of_csv unsorted_csv).
Proof.
  assert (HP : Permutation example_csv unsorted_csv) by apply (Permutation_rev example_csv).
  split; [exact HP|].
  apply (rainy_days_order_independent 0 example_csv unsorted_csv HP).
Defined.

(** ** How much a month can count *)

Lemma rows_of_month_le (rs : csv) (y m : Z) :
  forallb valid_date (map fst rs) = true -> List.NoDup (map fst rs) ->
  Z.of_nat (length (month_cells (frame_of_csv rs) y m)) <= days_in_month y m.
Proof.
  intros Hv Hnd. rewrite forallb_forall in Hv.
  unfold month_cells, column_at, frame_of_csv; cbn [rows].
  rewrite !length_map, filter_map_swap, length_map.
  set (p := fun l : Timestamp * cell => in_month y m (Stamp (fst l), [snd l])).
  set (q := fun t : Timestamp => (ts_year t =? y) && (ts_month t =? m)).
  assert (Hfl : map fst (List.filter p rs) = List.filter q (map fst rs)).
  { rewrite filter_map_swap. reflexivity. }
  assert (Hnd' : List.NoDup (map fst (List.filter p rs))) by (rewrite Hfl; now apply List.NoDup_filter).
  assert (Hq : forall t, In t (map fst (List.filter p rs)) ->
                         ts_year t = y /\ ts_month t = m /\ 1 <= ts_day t <= days_in_month y m).
  { intros t Ht. rewrite Hfl in Ht. apply filter_In in Ht as [Ht Hqt].
    unfold q in Hqt. apply andb_true_iff in Hqt as [Hy Hm].
    apply Z.eqb_eq in Hy, Hm. specialize (Hv t Ht). unfold valid_date in Hv.
    rewrite !andb_true_iff, !Z.leb_le in Hv. subst. lia. }
  assert (Hdays : List.NoDup (map ts_day (map fst (List.filter p rs)))).
  { apply List.NoDup_map_NoDup_ForallPairs; [|exact Hnd'].
    intros a b Ha Hb Hab. destruct (Hq a Ha) as (? & ? & _). destruct (Hq b Hb) as (? & ? & _).
    destruct a, b; simpl in *. congruence. }
  pose proof (List.NoDup_incl_length (l' := zrange 1 (Z.to_nat (days_in_month y m))) Hdays) as Hlen.
  rewrite !length_map, length_zrange in Hlen.
  pose proof (days_in_month_pos y m).
  enough (length (List.filter p rs) <= Z.to_nat (days_in_month y m))%nat by lia.
  apply Hlen. intros d Hd. apply in_map_iff in Hd as (t & <- & Ht).
  apply In_zrange. destruct (Hq t Ht) as (_ & _ & ?). lia.
Qed.

(** X14.  In the table of rainy days of a series of valid, distinct
    dates, every entry is the number of days of its month above the
    threshold: a whole number between 0 and the number of rows of the
    month, hence at most the number of days of the month. *)
Theorem rainy_day_count_bounds (rf : Q) (rs : csv) (g : DataFrame) (y m : Z)
        (cs : list cell) :
  forallb valid_date (map fst rs) = true ->
  List.NoDup (map fst rs) ->
  rainy_days rf (frame_of_csv rs) = Ok g ->
  entry g y m = Some cs ->
  cs = [Num (inject_Z (Z.of_nat (days_above rf (frame_of_csv rs) y m)))] /\
  (days_above rf (frame_of_csv rs) y m <= length (month_cells (frame_of_csv rs) y m))%nat /\
  Z.of_nat (days_above rf (frame_of_csv rs) y m) <= days_in_month y m.
Proof.
  intros Hv Hnd Hg He.
  pose proof (stamps_frame_of_csv rs) as Hts.
  destruct (rainy_days_entries rf (frame_of_csv rs) g _ eq_refl Hts Hv Hg) as [Hin Hout].
  assert (Hm : 1 <= m <= 12).
  { destruct (Z_le_dec 1 m) as [H1|H1]; [destruct (Z_le_dec m 12) as [H2|H2]|]; [lia| |];
      destruct (rainy_days_rows rf (frame_of_csv rs) _ eq_refl Hts) as (lo & n & Hr);
      rewrite Hg in Hr; injection Hr as ->;
      rewrite entry_bin_rows_invalid in He by lia; discriminate. }
  destruct (in_span y m (stamps_above rf (frame_of_csv rs))) eqn:Hs.
  - rewrite (Hin y m Hm Hs) in He. injection He as <-.
    assert (Hle : (days_above rf (frame_of_csv rs) y m
                   <= length (month_cells (frame_of_csv rs) y m))%nat)
      by apply filter_length_le.
    split; [reflexivity|]. split; [exact Hle|].
    pose proof (rows_of_month_le rs y m Hv Hnd). lia.
  - rewrite (Hout y m Hs) in He. discriminate.
Qed.

Lemma rainy_day_count_bounds_witness :
  (forallb valid_date (map fst drizzle_csv) = true /\ List.NoDup (map fst drizzle_csv)) /\
  exists g cs,
    rainy_days 0 (frame_of_csv drizzle_csv) = Ok g /\ entry g 2020 3 = Some cs /\
    cs = [Num 2] /\ 2 <= days_in_month 2020 3.
Proof.
  assert (Hnd : List.NoDup (map fst drizzle_csv)).
  { vm_compute. repeat (constructor; [simpl; intuition discriminate|]). constructor. }
  split; [split; [reflexivity|exact Hnd]|].
  destruct (rainy_days 0 (frame_of_csv drizzle_csv)) as [g|x] eqn:Hg;
    [|vm_compute in Hg; discriminate].
  destruct (entry g 2020 3) as [cs|] eqn:He;
    [|vm_compute in Hg; injection Hg as <-; vm_compute in He; discriminate].
  exists g, cs. split; [reflexivity|]. split; [exact He|].
  destruct (rainy_day_count_bounds 0 drizzle_csv g 2020 3 cs eq_refl Hnd Hg He)
    as (Hcs & _ & Hb).
  split; [exact Hcs|exact Hb].
Defined.

(** ** The threshold *)

Lemma cell_gt_mono (c : cell) (rf rf' : Q) :
  (rf <= rf')%Q -> cell_gt c rf' = true -> cell_gt c rf = true.
Proof.
  intros Hle. destruct c as [|q]; simpl; [discriminate|].
  rewrite !negb_true_iff. intros H.
  destruct (Qle_bool q rf) eqn:E; [|reflexivity].
  apply Qle_bool_iff in E.
  assert (Qle_bool q rf' = true) as H1; [|congruence].
  apply Qle_bool_iff. now apply Qle_trans with rf.
Qed.

Lemma filter_length_le_impl {A} (p q : A -> bool) (l : list A) :
  (forall x, p x = true -> q x = true) ->
  (length (List.filter p l) <= length (List.filter q l))%nat.
Proof.
  intros Hpq. induction l as [|x l IH]; simpl; [lia|].
  destruct (p x) eqn:Hp; [rewrite (Hpq x Hp); simpl; lia|].
  destruct (q x); simpl; lia.
Qed.

Lemma in_span_incl (y m : Z) (ts ts' : list Timestamp) :
  incl ts' ts -> in_span y m ts' = true -> in_span y m ts = true.
Proof.
  intros Hi. unfold in_span. rewrite !andb_true_iff, !existsb_exists.
  intros [(a & Ha & Hla) (b & Hb & Hlb)]. split; [exists a|exists b]; auto.
Qed.

(** X15.  Raising the threshold can only shrink the table of rainy days:
    every month that has an entry under the higher threshold has one
    under the lower threshold, and its count under the higher threshold
    is at most its count under the lower one. *)
Theorem rainy_days_threshold_monotone (rf rf' : Q) (rs : csv) (g g' : DataFrame) (y m : Z) :
  (rf <= rf')%Q ->
  forallb valid_date (map fst rs) = true ->
  rainy_days rf (frame_of_csv rs) = Ok g ->
  rainy_days rf' (frame_of_csv rs) = Ok g' ->
  entry g' y m <> None ->
  entry g' y m = Some [Num (inject_Z (Z.of_nat (days_above rf' (frame_of_csv rs) y m)))] /\
  entry g y m = Some [Num (inject_Z (Z.of_nat (days_above rf (frame_of_csv rs) y m)))] /\
  (days_above rf' (frame_of_csv rs) y m <= days_above rf (frame_of_csv rs) y m)%nat.
Proof.
  intros Hle Hv Hg Hg' He.
  pose proof (stamps_frame_of_csv rs) as Hts.
  destruct (rainy_days_entries rf (frame_of_csv rs) g _ eq_refl Hts Hv Hg) as [Hin _].
  destruct (rainy_days_entries rf' (frame_of_csv rs) g' _ eq_refl Hts Hv Hg') as [Hin' Hout'].
  assert (Hm : 1 <= m <= 12).
  { destruct (Z_le_dec 1 m) as [H1|H1]; [destruct (Z_le_dec m 12) as [H2|H2]|]; [lia| |];
      destruct (rainy_days_rows rf' (frame_of_csv rs) _ eq_refl Hts) as (lo & n & Hr);
      rewrite Hg' in Hr; injection Hr as ->;
      rewrite entry_bin_rows_invalid in He by lia; congruence. }
  destruct (in_span y m (stamps_above rf' (frame_of_csv rs))) eqn:Hs;
    [|now rewrite (Hout' y m Hs) in He].
  assert (Hincl : incl (stamps_above rf' (frame_of_csv rs)) (stamps_above rf (frame_of_csv rs))).
  { intros t Ht. apply In_stamps_above_csv in Ht as (l & Hl & Hf & Hgt).
    apply In_stamps_above_csv. exists l. repeat split; auto.
    now apply (cell_gt_mono _ rf rf'). }
  split; [now apply Hin'|]. split.
  - apply Hin; [exact Hm|]. now apply (in_span_incl y m _ _ Hincl).
  - unfold days_above. apply filter_length_le_impl. intros c. now apply cell_gt_mono.
Qed.

Lemma rainy_days_threshold_monotone_witness :
  ((0 <= 1)%Q /\ forallb valid_date (map fst drizzle_csv) = true) /\
  exists g g',
    rainy_days 0 (frame_of_csv drizzle_csv) = Ok g /\
    rainy_days 1 (frame_of_csv drizzle_csv) = Ok g' /\
    entry g' 2020 3 = Some [Num 1] /\ entry g 2020 3 = Some [Num 2].
Proof.
  split; [split; [discriminate|reflexivity]|].
  destruct (rainy_days 0 (frame_of_csv drizzle_csv)) as [g|x] eqn:Hg;
    [|vm_compute in Hg; discriminate].
  destruct (rainy_days 1 (frame_of_csv drizzle_csv)) as [g'|x] eqn:Hg';
    [|vm_compute in Hg'; discriminate].
  exists g, g'. split; [reflexivity|]. split; [reflexivity|].
  destruct (rainy_days_threshold_monotone 0 1 drizzle_csv g g' 2020 3
              ltac:(discriminate) eq_refl Hg Hg') as (H1 & H0 & _).
  - vm_compute in Hg'. injection Hg' as <-. vm_compute. discriminate.
  - split; [exact H1|exact H0].
Defined.





(** ** The two backends *)

(** X17.  The two backends compute their tables in the same way: for
    the same frame and years, [plot_rain_fall_plt] and
    [plot_rain_amount_px] compute the same table of rainfall totals or
    raise the same exception, and so do [plot_rainy_days_plt] called with
    the default threshold 0 of its signature and [plot_rainy_days_px].
    They differ in what they do with the table: plotly displays it at
    once, also when it has no column; matplotlib keeps the figure pending
    in the first function, and raises TypeError, without a figure, on a
    table that has no column. *)
Theorem backends_build_same_tables (w : world) (df : ref) (f : DataFrame) (s e : option Z)
        (title : string) :
  heap w !! df = Some f ->
  match rain_table s e f with
  | Ok t =>
      fst (plot_rain_amount_px df s e title w) = Ok tt /\
      shown (snd (plot_rain_amount_px df s e title w)) =
        shown w ++ [mkFigure BarChart title t] /\
      match columns t with
      | [] =>
          fst (plot_rain_fall_plt df s e w) = Raise TypeError /\
          figures (snd (plot_rain_fall_plt df s e w)) = figures w
      | _ :: _ =>
          fst (plot_rain_fall_plt df s e w) = Ok tt /\
          figures (snd (plot_rain_fall_plt df s e w)) = figures w ++ [rain_fall_figure t]
      end
  | Raise x =>
      fst (plot_rain_fall_plt df s e w) = Raise x /\
      fst (plot_rain_amount_px df s e title w) = Raise x
  end /\
  match days_table 0 s e f with
  | Ok t =>
      fst (plot_rainy_days_px df s e title w) = Ok tt /\
      shown (snd (plot_rainy_days_px df s e title w)) =
        shown w ++ [mkFigure BarChart title t] /\
      match columns t with
      | [] =>
          fst (plot_rainy_days_plt df s e 0 w) = Raise TypeError /\
          shown (snd (plot_rainy_days_plt df s e 0 w)) = shown w
      | _ :: _ =>
          fst (plot_rainy_days_plt df s e 0 w) = Ok tt /\
          shown (snd (plot_rainy_days_plt df s e 0 w)) =
            shown w ++ figures w ++ [rainy_days_figure t]
      end
  | Raise x =>
      fst (plot_rainy_days_plt df s e 0 w) = Raise x /\
      fst (plot_rainy_days_px df s e title w) = Raise x
  end.
Proof.
  intros Hf.
  destruct (run_plot_rain_fall_plt w df f s e Hf) as (w1 & [x1 ->] & ->).
  destruct (run_plot_rain_amount_px w df f s e title Hf) as (w2 & [x2 ->] & ->).
  destruct (run_plot_rainy_days_plt w df f s e 0 Hf) as (w3 & [x3 ->] & ->).
  destruct (run_plot_rainy_days_px w df f s e title Hf) as (w4 & [x4 ->] & ->).
  split.
  - destruct (rain_table s e f) as [t|x]; cbn [and_then]; [|now split].
    unfold Pd.plot_data. destruct (columns t); now repeat split.
  - destruct (days_table 0 s e f) as [t|x]; cbn [and_then]; [|now split].
    unfold Pd.plot_data. destruct (columns t); now repeat split.
Qed.

Lemma backends_build_same_tables_witness :
  let f := frame_of_csv drizzle_csv in
  let w := set_heap [f] (initial_world (fun _ => None)) in
  heap w !! 0%nat = Some f /\
  (exists t,
    days_table 0 (Some 2020) (Some 2021) f = Ok t /\
    shown (snd (plot_rainy_days_plt 0%nat (Some 2020) (Some 2021) 0 w)) =
      [rainy_days_figure t] /\
    shown (snd (plot_rainy_days_px 0%nat (Some 2020) (Some 2021) "降雨日数" w)) =
      [rainy_days_chart t]) /\
  fst (plot_rainy_days_plt 0%nat (Some 2020) (Some 2020) 0 w) = Raise TypeError /\
  fst (plot_rainy_days_px 0%nat (Some 2020) (Some 2020) "降雨日数" w) = Ok tt.
Proof.
  split; [reflexivity|].
  destruct (backends_build_same_tables
              (set_heap [frame_of_csv drizzle_csv] (initial_world (fun _ => None)))
              0%nat (frame_of_csv drizzle_csv) (Some 2020) (Some 2021) "降雨日数" eq_refl)
    as [_ H].
  destruct (backends_build_same_tables
              (set_heap [frame_of_csv drizzle_csv] (initial_world (fun _ => None)))
              0%nat (frame_of_csv drizzle_csv) (Some 2020) (Some 2020) "降雨日数" eq_refl)
    as [_ H'].
  split.
  - destruct (days_table 0 (Some 2020) (Some 2021) (frame_of_csv drizzle_csv))
      as [t|x] eqn:E; [|vm_compute in E; discriminate].
    destruct H as (_ & H2 & H1). exists t. split; [reflexivity|].
    destruct (columns t) eqn:Ec.
    + vm_compute in E. injection E as <-. discriminate Ec.
    + split; [exact (proj2 H1)|exact H2].
  - vm_compute in H'. split; [vm_compute; exact (proj1 (proj2 (proj2 H')))|].
    vm_compute; exact (proj1 H').
Defined.
